(** * ScenAgent: a shallow embedding of the agentic control loop and of the
      job service, with the properties of their specification.

    The embedding follows the Python sources:
    - [agent-core/core/state/state_manager.py], [state_schema.py]
    - [agent-core/services/coordinate_service.py], [action_service.py],
      [screenshot_service.py]
    - [agent-core/core/chains/execution_chain.py], [reflection_chain.py],
      [planning_chain.py]
    - [agent-core/core/orchestration/task_orchestrator.py]
    - [agent-core/infrastructure/storage/report_service.py]
    - [web/server.py]

    Conventions.  A Python [str] is a [string] holding its UTF-8 bytes; the
    constants of the sources are ASCII apart from the Chinese sentinels of the
    state store.  A Python [dict] is an association list in insertion order.
    A Python [float] is a binary64 number: a [spec_float] of the Standard
    Library with 53 bits of precision, and the arithmetic of the sources is
    the correctly rounded arithmetic of [SpecFloat] (the similarity of the
    stagnation check alone is kept as a fraction).  The language model, the device and the file system are not part
    of the program: their answers are read from an environment record, and
    the commands sent to the device are collected in a log. *)

From Stdlib Require Import List String Ascii ZArith QArith Qround Bool Lia Arith.
From Stdlib Require Import DecimalString Qpower Lqa.
From Stdlib Require Import Floats.SpecFloat.
Import ListNotations.
Close Scope Q_scope.
Open Scope string_scope.
Open Scope nat_scope.

Set Implicit Arguments.

(* ================================================================= *)
(** ** Python strings *)

Module PyStr.

(** [s.startswith(p)]. *)
Fixpoint starts_with (p s : string) : bool :=
  match p, s with
  | EmptyString, _ => true
  | String _ _, EmptyString => false
  | String a p', String b s' => Ascii.eqb a b && starts_with p' s'
  end.

(** [needle in hay]. *)
Fixpoint contains (needle hay : string) : bool :=
  starts_with needle hay ||
  match hay with
  | EmptyString => false
  | String _ hay' => contains needle hay'
  end.

(** The characters [str.strip()] removes are those for which
    [str.isspace()] holds.  In the ASCII range: TAB, LF, VT, FF, CR, FS,
    GS, RS, US and the space. *)
Definition is_space (c : ascii) : bool :=
  let n := nat_of_ascii c in
  (((9 <=? n) && (n <=? 13)) || ((28 <=? n) && (n <=? 32)))%nat.

(** Beyond it, as UTF-8: U+0085 and U+00A0 (two bytes), and U+1680,
    U+2000 to U+200A, U+2028, U+2029, U+202F, U+205F and U+3000 (three
    bytes). *)
Definition is_space2 (a b : ascii) : bool :=
  let x := nat_of_ascii a in
  let y := nat_of_ascii b in
  ((x =? 194) && ((y =? 133) || (y =? 160)))%nat.

Definition is_space3 (a b c : ascii) : bool :=
  let x := nat_of_ascii a in
  let y := nat_of_ascii b in
  let z := nat_of_ascii c in
  (((x =? 225) && (y =? 154) && (z =? 128))
   || ((x =? 226) && (y =? 128)
       && (((128 <=? z) && (z <=? 138))
           || (z =? 168) || (z =? 169) || (z =? 175)))
   || ((x =? 226) && (y =? 129) && (z =? 159))
   || ((x =? 227) && (y =? 128) && (z =? 128)))%nat.

(** [s.lstrip()]. *)
Fixpoint lstrip (s : string) : string :=
  match s with
  | EmptyString => EmptyString
  | String a s1 =>
      if is_space a then lstrip s1 else
      match s1 with
      | EmptyString => s
      | String b s2 =>
          if is_space2 a b then lstrip s2 else
          match s2 with
          | EmptyString => s
          | String c s3 => if is_space3 a b c then lstrip s3 else s
          end
      end
  end.

(** [s.isspace()] or [s] is empty. *)
Definition blank (s : string) : bool :=
  match lstrip s with EmptyString => true | _ => false end.

(** [s.rstrip()]: the text up to the point from which everything is
    white space. *)
Fixpoint rstrip (s : string) : string :=
  match s with
  | EmptyString => EmptyString
  | String c s' => if blank s then EmptyString else String c (rstrip s')
  end.

(** [s.strip()]. *)
Definition strip (s : string) : string := rstrip (lstrip s).

(** [len(s)]: the number of code points, that is of the bytes which are
    not UTF-8 continuation bytes (10xxxxxx). *)
Definition is_continuation (c : ascii) : bool :=
  let n := nat_of_ascii c in ((128 <=? n) && (n <? 192))%nat.

Fixpoint len (s : string) : nat :=
  match s with
  | EmptyString => 0
  | String c s' => if is_continuation c then len s' else S (len s')
  end.

Fixpoint drop (n : nat) (s : string) : string :=
  match n, s with
  | O, _ => s
  | S _, EmptyString => EmptyString
  | S n', String _ s' => drop n' s'
  end.

(** [s.replace(old, new)] for a non-empty [old]: the occurrences are
    replaced from the left and do not overlap.  [skip] counts the
    characters of a matched occurrence still to be passed over.  (With an
    empty [old] Python inserts [new] around every character; the sources
    never do that and the model leaves the string as it is.) *)
Fixpoint replace_from (old new s : string) (skip : nat) : string :=
  match s with
  | EmptyString => EmptyString
  | String c s' =>
      match skip with
      | S k => replace_from old new s' k
      | O =>
          if starts_with old s
          then new ++ replace_from old new s' (String.length old - 1)
          else String c (replace_from old new s' 0)
      end
  end.

Definition replace (old new s : string) : string :=
  match old with
  | EmptyString => s
  | _ => replace_from old new s 0
  end.

(** A Python string is false in a condition exactly when it is empty. *)
Definition truthy (s : string) : bool :=
  match s with EmptyString => false | _ => true end.

(** [a or b] on strings. *)
Definition or_else (a b : string) : string := if truthy a then a else b.

End PyStr.


(* ================================================================= *)
(** ** Python floats *)

(** A [float] is a binary64 number.  The operations are those of
    [SpecFloat] at precision 53: each rounds the exact result to the
    nearest number, ties to even. *)
Module Float64.

Definition prec : Z := 53%Z.
Definition emax : Z := 1024%Z.

Definition t := spec_float.

Definition is_finite (f : t) : bool :=
  match f with
  | S754_zero _ | S754_finite _ _ _ => true
  | _ => false
  end.

Definition is_zero (f : t) : bool :=
  match f with S754_zero _ => true | _ => false end.

(** An integer as the operand of an exact division: the mantissa is the
    integer itself, whatever its size. *)
Definition raw (z : Z) : t :=
  match z with
  | Z0 => S754_zero false
  | Zpos p => S754_finite false p 0
  | Zneg p => S754_finite true p 0
  end.

(** The number nearest to an integer (an infinity beyond the range). *)
Definition of_Z (z : Z) : t := binary_normalize prec emax z 0 false.

(** [float(z)] of an [int]: [None] is the [OverflowError] of an integer
    beyond the range. *)
Definition of_int (z : Z) : option t :=
  let f := of_Z z in if is_finite f then Some f else None.

(** [a / b] of two [int]s: the quotient is rounded once.  [None] is
    [ZeroDivisionError], or [OverflowError] beyond the range. *)
Definition div_int (a b : Z) : option t :=
  if (b =? 0)%Z then None else
  let q := SFdiv prec emax (raw a) (raw b) in
  if is_finite q then Some q else None.

(** [x / y] of two [float]s; [None] is [ZeroDivisionError]. *)
Definition div (x y : t) : option t :=
  if is_zero y then None else Some (SFdiv prec emax x y).

(** [x * y]. *)
Definition mul (x y : t) : t := SFmul prec emax x y.

(** [int(f)]: truncation toward zero; [None] is the error of an
    infinity or of a NaN. *)
Definition trunc (f : t) : option Z :=
  match f with
  | S754_zero _ => Some 0%Z
  | S754_finite s m e =>
      let a := match e with
               | Z0 => Zpos m
               | Zpos _ => (Zpos m * 2 ^ e)%Z
               | Zneg p => (Zpos m / 2 ^ Zpos p)%Z
               end in
      Some (if s then (- a)%Z else a)
  | _ => None
  end.

(** [x < y] and [x <= y]; false when either is a NaN. *)
Definition ltb (x y : t) : bool := SFltb x y.
Definition leb (x y : t) : bool := SFleb x y.

(** The number a decimal literal [m * 10^e] denotes: the nearest one. *)
Definition of_decimal (m e : Z) : t :=
  match e with
  | Zneg p => SFdiv prec emax (raw m) (raw (10 ^ Zpos p))
  | _ => of_Z (m * 10 ^ e)
  end.

Definition nan : t := S754_nan.
Definition infinity (negative : bool) : t := S754_infinity negative.

(** The value of a number as a fraction (0 for what is not finite). *)
Definition to_Q (f : t) : Q :=
  match f with
  | S754_finite s m e =>
      let v := (inject_Z (Zpos m) * 2 ^ e)%Q in
      if s then Qopp v else v
  | _ => 0%Q
  end.

End Float64.


(* ================================================================= *)
(** ** Python dictionaries and JSON values *)

(** A [dict] keeps its keys in insertion order; assigning to a key that is
    present keeps its position. *)
Module Dict.
Section WithValue.
Variable V : Type.

Definition t := list (string * V).

Fixpoint get (k : string) (d : t) : option V :=
  match d with
  | [] => None
  | (k', v) :: d' => if String.eqb k k' then Some v else get k d'
  end.

Definition mem (k : string) (d : t) : bool :=
  match get k d with Some _ => true | None => false end.

(** [d[k] = v]. *)
Fixpoint set (k : string) (v : V) (d : t) : t :=
  match d with
  | [] => [(k, v)]
  | (k', v') :: d' =>
      if String.eqb k k' then (k', v) :: d' else (k', v') :: set k v d'
  end.

(** [d.pop(k, None)]. *)
Fixpoint pop (k : string) (d : t) : t :=
  match d with
  | [] => []
  | (k', v') :: d' => if String.eqb k k' then d' else (k', v') :: pop k d'
  end.

(** [d.update(u)], also [{**d, **u}]. *)
Definition update (d u : t) : t :=
  fold_left (fun acc kv => set (fst kv) (snd kv) acc) u d.
End WithValue.
End Dict.

(** The values [json.loads] returns and [json.dumps] accepts.  A float is a
    finite decimal [m * 10^e], kept normal ([m] has no trailing zero, and
    [e = 0] when [m = 0]), or one of the three non-finite literals. *)
Inductive nonfinite := NaN | PosInf | NegInf.

Unset Elimination Schemes.
Inductive json : Type :=
| JNull
| JBool (b : bool)
| JInt (z : Z)
| JFloat (m e : Z)
| JSpecial (x : nonfinite)
| JStr (s : string)
| JArr (l : list json)
| JObj (d : list (string * json)).
Set Elimination Schemes.

Module Json.

(** The truth value of a decoded value in a condition. *)
Definition truthy (v : json) : bool :=
  match v with
  | JNull => false
  | JBool b => b
  | JInt z => negb (Z.eqb z 0)
  | JFloat m e => negb (Float64.is_zero (Float64.of_decimal m e))
  | JSpecial _ => true
  | JStr s => PyStr.truthy s
  | JArr l => match l with [] => false | _ => true end
  | JObj d => match d with [] => false | _ => true end
  end.

(** [v == "s"] for a string constant. *)
Definition is_str (s : string) (v : option json) : bool :=
  match v with
  | Some (JStr s') => String.eqb s s'
  | _ => false
  end.

(** [obj.get(k)] on a decoded object; [None] of the outer option is the
    [AttributeError] of a value that is no [dict]. *)
Definition get (k : string) (v : json) : option (option json) :=
  match v with
  | JObj d => Some (Dict.get k d)
  | _ => None
  end.

End Json.

(* ================================================================= *)
(** ** The state store ([state_schema.py], [state_manager.py]) *)

Module State.

Record TaskState := {
  instruction : string;
  task_name : string;
  additional_knowledge_planner : string;
  additional_knowledge_executor : string;
  add_info_token : string;
  perception_mode : string
}.

Record PlanningState := {
  plan : string;
  completed_plan : string;
  completed_plan_summary : string;
  current_subgoal : string;
  current_step_completed_subgoal : string;
  num_current_subgoals : Z;
  error_flag_plan : bool;
  error_description_plan : string;
  err_to_planner_thresh : nat
}.

Record ExecutionState := {
  action_history : list json;
  summary_history : list string;
  last_action : json;
  last_summary : string;
  last_action_thought : string;
  action_outcomes : list string;
  error_descriptions : list string
}.

Record ReflectionState := {
  progress_status : string;
  progress_status_history : list string;
  important_notes : string;
  prev_action_image_before : string;
  prev_action_image_after : string
}.

Record MobileAgentState := {
  task : TaskState;
  planning : PlanningState;
  execution : ExecutionState;
  reflection : ReflectionState
}.

(** The defaults of the schema: what [MobileAgentState()] builds. *)
Definition initial : MobileAgentState := {|
  task := {| instruction := ""; task_name := "";
             additional_knowledge_planner := "";
             additional_knowledge_executor := "";
             add_info_token := "[add_info]";
             perception_mode := "vllm" |};
  planning := {| plan := ""; completed_plan := "";
                 completed_plan_summary := ""; current_subgoal := "";
                 current_step_completed_subgoal := "";
                 num_current_subgoals := 1;
                 error_flag_plan := false; error_description_plan := "";
                 err_to_planner_thresh := 2 |};
  execution := {| action_history := []; summary_history := [];
                  last_action := JObj []; last_summary := "";
                  last_action_thought := "";
                  action_outcomes := []; error_descriptions := [] |};
  reflection := {| progress_status := ""; progress_status_history := [];
                   important_notes := ""; prev_action_image_before := "";
                   prev_action_image_after := "" |}
|}.

(** Functional updates of one sub-record. *)
Definition with_task (f : TaskState -> TaskState) (s : MobileAgentState) :=
  {| task := f (task s); planning := planning s;
     execution := execution s; reflection := reflection s |}.
Definition with_planning (f : PlanningState -> PlanningState)
           (s : MobileAgentState) :=
  {| task := task s; planning := f (planning s);
     execution := execution s; reflection := reflection s |}.
Definition with_execution (f : ExecutionState -> ExecutionState)
           (s : MobileAgentState) :=
  {| task := task s; planning := planning s;
     execution := f (execution s); reflection := reflection s |}.
Definition with_reflection (f : ReflectionState -> ReflectionState)
           (s : MobileAgentState) :=
  {| task := task s; planning := planning s;
     execution := execution s; reflection := f (reflection s) |}.

(** The four spellings of "no completed subgoal" the store recognises. *)
Definition no_subgoal_sentinels : list string :=
  [ "无已完成子目标。"; "No completed subgoal."; "无已完成子目标";
    "No completed subgoal" ].

Definition is_sentinel (s : string) : bool :=
  existsb (String.eqb s) no_subgoal_sentinels.

(* ----- task ----- *)

Definition set_instruction (i : string) :=
  with_task (fun t =>
    {| instruction := i; task_name := task_name t;
       additional_knowledge_planner := additional_knowledge_planner t;
       additional_knowledge_executor := additional_knowledge_executor t;
       add_info_token := add_info_token t;
       perception_mode := perception_mode t |}).

Definition set_task_name (n : string) :=
  with_task (fun t =>
    {| instruction := instruction t; task_name := n;
       additional_knowledge_planner := additional_knowledge_planner t;
       additional_knowledge_executor := additional_knowledge_executor t;
       add_info_token := add_info_token t;
       perception_mode := perception_mode t |}).

Definition set_additional_knowledge (planner executor : string) :=
  with_task (fun t =>
    {| instruction := instruction t; task_name := task_name t;
       additional_knowledge_planner :=
         if PyStr.truthy planner then planner
         else additional_knowledge_planner t;
       additional_knowledge_executor :=
         if PyStr.truthy executor then executor
         else additional_knowledge_executor t;
       add_info_token := add_info_token t;
       perception_mode := perception_mode t |}).

Definition set_perception_mode (m : string) :=
  with_task (fun t =>
    {| instruction := instruction t; task_name := task_name t;
       additional_knowledge_planner := additional_knowledge_planner t;
       additional_knowledge_executor := additional_knowledge_executor t;
       add_info_token := add_info_token t;
       perception_mode := m |}).

(* ----- planning ----- *)

Definition upd_planning (pl cp cps cs csc : string) (flag : bool)
           (p : PlanningState) : PlanningState :=
  {| plan := pl; completed_plan := cp; completed_plan_summary := cps;
     current_subgoal := cs; current_step_completed_subgoal := csc;
     num_current_subgoals := num_current_subgoals p;
     error_flag_plan := flag;
     error_description_plan := error_description_plan p;
     err_to_planner_thresh := err_to_planner_thresh p |}.

Definition set_plan (pl : string) :=
  with_planning (fun p =>
    upd_planning pl (completed_plan p) (completed_plan_summary p)
      (current_subgoal p) (current_step_completed_subgoal p)
      (error_flag_plan p) p).

Definition get_plan (s : MobileAgentState) : string := plan (planning s).

Definition append_completed_subgoal (subgoal : string) :=
  with_planning (fun p =>
    if PyStr.truthy subgoal && negb (is_sentinel subgoal) then
      let cp :=
        if PyStr.truthy (completed_plan p)
           && negb (is_sentinel (completed_plan p))
        then completed_plan p ++ " " ++ subgoal else subgoal in
      let cps :=
        if PyStr.truthy (completed_plan_summary p)
           && negb (is_sentinel (completed_plan_summary p))
        then completed_plan_summary p ++ " " ++ subgoal else subgoal in
      upd_planning (plan p) cp cps (current_subgoal p)
        (current_step_completed_subgoal p) (error_flag_plan p) p
    else p).

Definition set_completed_plan_summary (summary : string) :=
  with_planning (fun p =>
    upd_planning (plan p) (completed_plan p) summary (current_subgoal p)
      (current_step_completed_subgoal p) (error_flag_plan p) p).

Definition set_current_subgoal (subgoal : string) :=
  with_planning (fun p =>
    upd_planning (plan p) (completed_plan p) (completed_plan_summary p)
      subgoal (current_step_completed_subgoal p) (error_flag_plan p) p).

Definition get_current_subgoal (s : MobileAgentState) : string :=
  current_subgoal (planning s).

Definition set_current_step_completed_subgoal (subgoal : string) :=
  with_planning (fun p =>
    upd_planning (plan p) (completed_plan p) (completed_plan_summary p)
      (current_subgoal p) subgoal (error_flag_plan p) p).

Definition reset_current_step_completed_subgoal :=
  set_current_step_completed_subgoal "".

Definition set_error_flag_plan (flag : bool) :=
  with_planning (fun p =>
    upd_planning (plan p) (completed_plan p) (completed_plan_summary p)
      (current_subgoal p) (current_step_completed_subgoal p) flag p).

Definition get_error_flag_plan (s : MobileAgentState) : bool :=
  error_flag_plan (planning s).

(** [l[-n:]]: the last [n] elements, the whole list for [n = 0]. *)
Definition last_n (A : Type) (n : nat) (l : list A) : list A :=
  match n with
  | O => l
  | _ => skipn (List.length l - n) l
  end.

Definition is_failure (outcome : string) : bool :=
  existsb (String.eqb outcome) ["B"; "C"; "N"].

(** [check_error_threshold()] with the threshold of the state. *)
Definition check_error_threshold (s : MobileAgentState) : bool :=
  let threshold := err_to_planner_thresh (planning s) in
  let outcomes := action_outcomes (execution s) in
  if threshold <=? List.length outcomes then
    let latest := last_n threshold outcomes in
    List.length (filter is_failure latest) =? threshold
  else false.

(* ----- execution ----- *)

Definition append_action (action : json) (summary outcome error_description : string) :=
  with_execution (fun e =>
    {| action_history := action_history e ++ [action];
       summary_history := summary_history e ++ [summary];
       last_action := last_action e;
       last_summary := last_summary e;
       last_action_thought := last_action_thought e;
       action_outcomes := action_outcomes e ++ [outcome];
       error_descriptions := error_descriptions e ++ [error_description] |}).

Definition set_last_action (action : json) (summary thought : string) :=
  with_execution (fun e =>
    {| action_history := action_history e;
       summary_history := summary_history e;
       last_action := action;
       last_summary := if PyStr.truthy summary then summary else last_summary e;
       last_action_thought :=
         if PyStr.truthy thought then thought else last_action_thought e;
       action_outcomes := action_outcomes e;
       error_descriptions := error_descriptions e |}).

Definition get_last_action (s : MobileAgentState) : json :=
  last_action (execution s).

Definition get_recent_actions (num : nat) (s : MobileAgentState)
  : list (json * string * string * string) :=
  let e := execution s in
  map (fun x => match x with (((a, b), c), d) => (a, b, c, d) end)
      (combine (combine (combine (last_n num (action_history e))
                                 (last_n num (summary_history e)))
                        (last_n num (action_outcomes e)))
               (last_n num (error_descriptions e))).

(* ----- reflection ----- *)

Definition set_progress_status (status : string) :=
  with_reflection (fun r =>
    {| progress_status := status;
       progress_status_history := progress_status_history r ++ [status];
       important_notes := important_notes r;
       prev_action_image_before := prev_action_image_before r;
       prev_action_image_after := prev_action_image_after r |}).

Definition get_progress_status (s : MobileAgentState) : string :=
  progress_status (reflection s).

Definition set_important_notes (notes : string) :=
  with_reflection (fun r =>
    {| progress_status := progress_status r;
       progress_status_history := progress_status_history r;
       important_notes := notes;
       prev_action_image_before := prev_action_image_before r;
       prev_action_image_after := prev_action_image_after r |}).

Definition set_prev_action_images (before after : string) :=
  with_reflection (fun r =>
    {| progress_status := progress_status r;
       progress_status_history := progress_status_history r;
       important_notes := important_notes r;
       prev_action_image_before := before;
       prev_action_image_after := after |}).

Definition get_prev_action_images (s : MobileAgentState) : string * string :=
  (prev_action_image_before (reflection s),
   prev_action_image_after (reflection s)).

(** The operations of [StateManager] that change the state, as data, so
    that a history of the store is a list of them. *)
Inductive op :=
| OpSetInstruction (i : string)
| OpSetTaskName (n : string)
| OpSetAdditionalKnowledge (planner executor : string)
| OpSetPerceptionMode (m : string)
| OpSetPlan (p : string)
| OpAppendCompletedSubgoal (g : string)
| OpSetCompletedPlanSummary (s : string)
| OpSetCurrentSubgoal (g : string)
| OpSetCurrentStepCompletedSubgoal (g : string)
| OpResetCurrentStepCompletedSubgoal
| OpSetErrorFlagPlan (b : bool)
| OpAppendAction (a : json) (summary outcome err : string)
| OpSetLastAction (a : json) (summary thought : string)
| OpSetProgressStatus (s : string)
| OpSetImportantNotes (s : string)
| OpSetPrevActionImages (before after : string).

Definition apply (o : op) : MobileAgentState -> MobileAgentState :=
  match o with
  | OpSetInstruction i => set_instruction i
  | OpSetTaskName n => set_task_name (PyStr.or_else n "")
  | OpSetAdditionalKnowledge p e => set_additional_knowledge p e
  | OpSetPerceptionMode m => set_perception_mode m
  | OpSetPlan p => set_plan p
  | OpAppendCompletedSubgoal g => append_completed_subgoal g
  | OpSetCompletedPlanSummary s => set_completed_plan_summary s
  | OpSetCurrentSubgoal g => set_current_subgoal g
  | OpSetCurrentStepCompletedSubgoal g => set_current_step_completed_subgoal g
  | OpResetCurrentStepCompletedSubgoal => reset_current_step_completed_subgoal
  | OpSetErrorFlagPlan b => set_error_flag_plan b
  | OpAppendAction a s o e => append_action a s o e
  | OpSetLastAction a s t => set_last_action a s t
  | OpSetProgressStatus s => set_progress_status s
  | OpSetImportantNotes s => set_important_notes s
  | OpSetPrevActionImages b a => set_prev_action_images b a
  end.

(** The state after a history of operations. *)
Definition run_ops (ops : list op) (s : MobileAgentState) : MobileAgentState :=
  fold_left (fun acc o => apply o acc) ops s.

(** The four execution sequences have one length. *)
Definition sequences_aligned (s : MobileAgentState) : Prop :=
  let e := execution s in
  List.length (action_history e) = List.length (summary_history e) /\
  List.length (action_history e) = List.length (action_outcomes e) /\
  List.length (action_history e) = List.length (error_descriptions e).

End State.

(* ================================================================= *)
(** ** JSON text: [json.dumps] and [json.loads] *)

Module JsonText.

Definition dquote : ascii := ascii_of_nat 34.
Definition backslash : ascii := ascii_of_nat 92.
Definition str1 (c : ascii) : string := String c EmptyString.

(** Test inputs are written with apostrophes for the double quotes. *)
Fixpoint q (s : string) : string :=
  match s with
  | EmptyString => EmptyString
  | String c s' => String (if Ascii.eqb c "'" then dquote else c) (q s')
  end.

(* ----- numbers as text ----- *)

Definition Z_to_string (z : Z) : string :=
  DecimalString.NilZero.string_of_int (Z.to_int z).

Definition is_digit (c : ascii) : bool :=
  let n := nat_of_ascii c in (48 <=? n) && (n <=? 57).

Definition digit_val (c : ascii) : Z := Z.of_nat (nat_of_ascii c - 48).

Fixpoint digits_val (acc : Z) (s : string) : Z :=
  match s with
  | EmptyString => acc
  | String c s' => digits_val (10 * acc + digit_val c)%Z s'
  end.

(** The longest prefix of digits, and what follows it. *)
Fixpoint take_digits (s : string) : string * string :=
  match s with
  | String c s' =>
      if is_digit c
      then let (d, r) := take_digits s' in (String c d, r)
      else (EmptyString, s)
  | EmptyString => (EmptyString, EmptyString)
  end.

Fixpoint normal_float (fuel : nat) (m e : Z) : Z * Z :=
  match fuel with
  | O => (m, e)
  | S f =>
      if (m =? 0)%Z then (0%Z, 0%Z)
      else if (m mod 10 =? 0)%Z then normal_float f (m / 10)%Z (e + 1)%Z
      else (m, e)
  end.

Fixpoint zeros (n : nat) : string :=
  match n with O => EmptyString | S n' => String "0" (zeros n') end.

Fixpoint take (n : nat) (s : string) : string :=
  match n, s with
  | S n', String c s' => String c (take n' s')
  | _, _ => EmptyString
  end.

(** [repr] of a finite float [m * 10^e]: positional unless the decimal
    point falls more than 16 digits to the right of the first digit or
    more than 3 zeros to its left. *)
Definition float_repr (m e : Z) : string :=
  if (m =? 0)%Z then "0.0" else
  let sign := if (m <? 0)%Z then "-" else "" in
  let ds := Z_to_string (Z.abs m) in
  let n := Z.of_nat (String.length ds) in
  let p := (n + e)%Z in
  if ((p <=? -4) || (16 <? p))%Z then
    let x := (p - 1)%Z in
    let frac := PyStr.drop 1 ds in
    let xs := Z_to_string (Z.abs x) in
    sign ++ take 1 ds
         ++ (if PyStr.truthy frac then "." ++ frac else "")
         ++ "e" ++ (if (x <? 0)%Z then "-" else "+")
         ++ (if String.length xs <? 2 then "0" ++ xs else xs)
  else if (p <=? 0)%Z then sign ++ "0." ++ zeros (Z.to_nat (- p)) ++ ds
  else if (n <=? p)%Z then sign ++ ds ++ zeros (Z.to_nat (p - n)) ++ ".0"
  else sign ++ take (Z.to_nat p) ds ++ "." ++ PyStr.drop (Z.to_nat p) ds.

(* ----- strings as text ----- *)

Definition hex_digit (n : nat) : ascii :=
  if n <? 10 then ascii_of_nat (48 + n) else ascii_of_nat (87 + n).

(** [json.dumps(..., ensure_ascii=False)] escapes the quote, the backslash
    and the control characters below 0x20. *)
Definition escape_char (c : ascii) : string :=
  let n := nat_of_ascii c in
  if Ascii.eqb c dquote then String backslash (str1 dquote)
  else if Ascii.eqb c backslash then String backslash (str1 backslash)
  else if n =? 8 then String backslash "b"
  else if n =? 12 then String backslash "f"
  else if n =? 10 then String backslash "n"
  else if n =? 13 then String backslash "r"
  else if n =? 9 then String backslash "t"
  else if n <? 32 then
    String backslash
      (String "u" (String "0" (String "0"
         (String (hex_digit (n / 16)) (str1 (hex_digit (n mod 16)))))))
  else str1 c.

Fixpoint escape (s : string) : string :=
  match s with
  | EmptyString => EmptyString
  | String c s' => escape_char c ++ escape s'
  end.

Definition dumps_str (s : string) : string :=
  String dquote (escape s ++ str1 dquote).

(** [json.dumps(v, ensure_ascii=False)], with the separators [", "] and
    [": "] of the default. *)
Fixpoint dumps (v : json) : string :=
  match v with
  | JNull => "null"
  | JBool true => "true"
  | JBool false => "false"
  | JInt z => Z_to_string z
  | JFloat m e => float_repr m e
  | JSpecial NaN => "NaN"
  | JSpecial PosInf => "Infinity"
  | JSpecial NegInf => "-Infinity"
  | JStr s => dumps_str s
  | JArr l =>
      "[" ++ (fix items (l : list json) : string :=
                match l with
                | [] => ""
                | [x] => dumps x
                | x :: l' => dumps x ++ ", " ++ items l'
                end) l ++ "]"
  | JObj d =>
      "{" ++ (fix members (d : list (string * json)) : string :=
                match d with
                | [] => ""
                | [(k, x)] => dumps_str k ++ ": " ++ dumps x
                | (k, x) :: d' =>
                    dumps_str k ++ ": " ++ dumps x ++ ", " ++ members d'
                end) d ++ "}"
  end.

(* ----- reading ----- *)

(** The whitespace of JSON: space, TAB, LF, CR. *)
Definition is_ws (c : ascii) : bool :=
  let n := nat_of_ascii c in
  (n =? 32) || (n =? 9) || (n =? 10) || (n =? 13).

Fixpoint skip_ws (s : string) : string :=
  match s with
  | String c s' => if is_ws c then skip_ws s' else s
  | EmptyString => EmptyString
  end.

Definition hex_val (c : ascii) : option N :=
  let n := nat_of_ascii c in
  if (48 <=? n) && (n <=? 57) then Some (N.of_nat (n - 48))
  else if (97 <=? n) && (n <=? 102) then Some (N.of_nat (n - 87))
  else if (65 <=? n) && (n <=? 70) then Some (N.of_nat (n - 55))
  else None.

Definition hex4 (a b c d : ascii) : option N :=
  match hex_val a, hex_val b, hex_val c, hex_val d with
  | Some x, Some y, Some z, Some w =>
      Some (((x * 16 + y) * 16 + z) * 16 + w)%N
  | _, _, _, _ => None
  end.

(** The content of a string literal, before surrogates are paired: a
    plain character or the code unit of a [\uXXXX] escape. *)
Inductive unit := Plain (c : ascii) | Escaped (u : N).

(** From just after the opening quote to the closing quote.  A raw
    control character and an unknown escape are errors. *)
Fixpoint scan_units (s : string) : option (list unit * string) :=
  match s with
  | EmptyString => None
  | String c s' =>
      if Ascii.eqb c dquote then Some ([], s')
      else if Ascii.eqb c backslash then
        match s' with
        | EmptyString => None
        | String e r =>
            let plain (x : nat) :=
              match scan_units r with
              | Some (us, rest) => Some (Plain (ascii_of_nat x) :: us, rest)
              | None => None
              end in
            if Ascii.eqb e dquote then plain 34
            else if Ascii.eqb e backslash then plain 92
            else if Ascii.eqb e "/" then plain 47
            else if Ascii.eqb e "b" then plain 8
            else if Ascii.eqb e "f" then plain 12
            else if Ascii.eqb e "n" then plain 10
            else if Ascii.eqb e "r" then plain 13
            else if Ascii.eqb e "t" then plain 9
            else if Ascii.eqb e "u" then
              match r with
              | String h1 (String h2 (String h3 (String h4 r'))) =>
                  match hex4 h1 h2 h3 h4, scan_units r' with
                  | Some u, Some (us, rest) => Some (Escaped u :: us, rest)
                  | _, _ => None
                  end
              | _ => None
              end
            else None
        end
      else if nat_of_ascii c <? 32 then None
      else
        match scan_units s' with
        | Some (us, rest) => Some (Plain c :: us, rest)
        | None => None
        end
  end.

Definition byte_of (n : N) : ascii := ascii_of_N n.

(** The UTF-8 bytes of a code point. *)
Definition utf8 (cp : N) : string :=
  if (cp <? 128)%N then str1 (byte_of cp)
  else if (cp <? 2048)%N then
    String (byte_of (192 + cp / 64)) (str1 (byte_of (128 + cp mod 64)))
  else if (cp <? 65536)%N then
    String (byte_of (224 + cp / 4096))
      (String (byte_of (128 + (cp / 64) mod 64))
         (str1 (byte_of (128 + cp mod 64))))
  else
    String (byte_of (240 + cp / 262144))
      (String (byte_of (128 + (cp / 4096) mod 64))
         (String (byte_of (128 + (cp / 64) mod 64))
            (str1 (byte_of (128 + cp mod 64))))).

Definition is_high (u : N) : bool := ((55296 <=? u) && (u <=? 56319))%N.
Definition is_low (u : N) : bool := ((56320 <=? u) && (u <=? 57343))%N.

(** A high surrogate escape directly followed by a low one is one code
    point. *)
Fixpoint join_units (us : list unit) : string :=
  match us with
  | [] => EmptyString
  | Plain c :: us' => String c (join_units us')
  | Escaped hi :: us' =>
      match us' with
      | Escaped lo :: us'' =>
          if is_high hi && is_low lo
          then utf8 (65536 + (hi - 55296) * 1024 + (lo - 56320))%N
                 ++ join_units us''
          else utf8 hi ++ join_units us'
      | _ => utf8 hi ++ join_units us'
      end
  end.

Definition scan_string (s : string) : option (string * string) :=
  match scan_units s with
  | Some (us, rest) => Some (join_units us, rest)
  | None => None
  end.

(** A number at the head of [s]: an optional minus sign, then a single
    zero or a run of digits that does not start with zero, then
    optionally a point with at least one digit, then optionally an
    exponent [e] or [E] with an optional sign and at least one digit.  It
    is an [int] when it has neither fraction nor exponent, else a
    [float]. *)
Definition scan_number (s : string) : option (json * string) :=
  let (neg, s1) :=
    match s with
    | String "-" r => (true, r)
    | _ => (false, s)
    end in
  let (ip, s2) :=
    match s1 with
    | String "0" r => ("0", r)
    | _ => take_digits s1
    end in
  if negb (PyStr.truthy ip) then None else
  let (fp, s3) :=
    match s2 with
    | String "." r =>
        let (d, r') := take_digits r in
        if PyStr.truthy d then (d, r') else (EmptyString, s2)
    | _ => (EmptyString, s2)
    end in
  let exp_at (r0 : string) (r : string) (sgn : Z) :=
    let (d, r') := take_digits r in
    if PyStr.truthy d then (Some (sgn * digits_val 0 d)%Z, r')
    else (None, r0) in
  let (ex, s4) :=
    match s3 with
    | String c r =>
        if Ascii.eqb c "e" || Ascii.eqb c "E" then
          match r with
          | String "+" r' => exp_at s3 r' 1%Z
          | String "-" r' => exp_at s3 r' (-1)%Z
          | _ => exp_at s3 r 1%Z
          end
        else (None, s3)
    | EmptyString => (None, s3)
    end in
  let sign := if neg then (-1)%Z else 1%Z in
  match PyStr.truthy fp, ex with
  | false, None => Some (JInt (sign * digits_val 0 ip), s4)
  | _, _ =>
      let m := (sign * digits_val 0 (ip ++ fp))%Z in
      let e := ((match ex with Some x => x | None => 0 end)
                - Z.of_nat (String.length fp))%Z in
      let (m', e') := normal_float (String.length (ip ++ fp)) m e in
      Some (JFloat m' e', s4)
  end.

(** One value at the head of [s] (no leading whitespace), with what
    follows it.  [fuel] bounds the nesting and the number of members. *)
Fixpoint scan_value (fuel : nat) (s : string) : option (json * string) :=
  match fuel with
  | O => None
  | S f =>
      match s with
      | EmptyString => None
      | String c r =>
          if Ascii.eqb c dquote then
            match scan_string r with
            | Some (x, rest) => Some (JStr x, rest)
            | None => None
            end
          else if Ascii.eqb c "{" then
            match skip_ws r with
            | String "}" rest => Some (JObj [], rest)
            | r1 => scan_members f r1 []
            end
          else if Ascii.eqb c "[" then
            match skip_ws r with
            | String "]" rest => Some (JArr [], rest)
            | r1 => scan_items f r1 []
            end
          else if PyStr.starts_with "null" s then Some (JNull, PyStr.drop 4 s)
          else if PyStr.starts_with "true" s then
            Some (JBool true, PyStr.drop 4 s)
          else if PyStr.starts_with "false" s then
            Some (JBool false, PyStr.drop 5 s)
          else
            match scan_number s with
            | Some r => Some r
            | None =>
                if PyStr.starts_with "NaN" s then
                  Some (JSpecial NaN, PyStr.drop 3 s)
                else if PyStr.starts_with "Infinity" s then
                  Some (JSpecial PosInf, PyStr.drop 8 s)
                else if PyStr.starts_with "-Infinity" s then
                  Some (JSpecial NegInf, PyStr.drop 9 s)
                else None
            end
      end
  end

(** The items of an array, from the first one to the closing bracket. *)
with scan_items (fuel : nat) (s : string) (acc : list json)
  : option (json * string) :=
  match fuel with
  | O => None
  | S f =>
      match scan_value f s with
      | None => None
      | Some (x, r) =>
          match skip_ws r with
          | String "]" rest => Some (JArr (acc ++ [x]), rest)
          | String "," rest => scan_items f (skip_ws rest) (acc ++ [x])
          | _ => None
          end
      end
  end

(** The members of an object, from the first key to the closing brace; a
    key that comes again replaces the value of the first. *)
with scan_members (fuel : nat) (s : string) (acc : list (string * json))
  : option (json * string) :=
  match fuel with
  | O => None
  | S f =>
      match s with
      | String c r =>
          if Ascii.eqb c dquote then
            match scan_string r with
            | None => None
            | Some (k, r1) =>
                match skip_ws r1 with
                | String ":" r2 =>
                    match scan_value f (skip_ws r2) with
                    | None => None
                    | Some (x, r3) =>
                        match skip_ws r3 with
                        | String "}" rest =>
                            Some (JObj (Dict.set k x acc), rest)
                        | String "," rest =>
                            scan_members f (skip_ws rest) (Dict.set k x acc)
                        | _ => None
                        end
                    end
                | _ => None
                end
            end
          else None
      | EmptyString => None
      end
  end.

(** [json.loads(s)]: one value, whitespace around it, nothing else;
    [None] is the [JSONDecodeError]. *)
Definition loads (s : string) : option json :=
  match scan_value (2 * String.length s + 2) (skip_ws s) with
  | Some (v, rest) =>
      match skip_ws rest with
      | EmptyString => Some v
      | _ => None
      end
  | None => None
  end.

End JsonText.

(* ================================================================= *)
(** ** Numbers of Python *)

Module PyNum.

(** Python's own conversions between text and numbers.  [float(s)] and
    [int(s)] of a [str] read every Unicode decimal digit, white space,
    signs, underscores and the names of the infinities; [str(v)] of a
    float prints its shortest digits, and of a list or a dict the text
    of its items.  None of this is in the sources: the three are read
    from the environment.  [None] is [ValueError]. *)
Record Builtins := {
  float_of_str : string -> option Float64.t;
  int_of_str : string -> option Z;
  str_of_other : json -> string
}.

(** A number in arithmetic: an [int] or a [float]. *)
Inductive num :=
| Int (z : Z)
| Flt (f : Float64.t).

(** The value of a number in arithmetic; [None] is the [TypeError] of
    anything that is not a number ([bool] is an [int]). *)
Definition value (v : json) : option num :=
  match v with
  | JInt z => Some (Int z)
  | JBool b => Some (Int (if b then 1%Z else 0%Z))
  | JFloat m e => Some (Flt (Float64.of_decimal m e))
  | JSpecial NaN => Some (Flt Float64.nan)
  | JSpecial PosInf => Some (Flt (Float64.infinity false))
  | JSpecial NegInf => Some (Flt (Float64.infinity true))
  | _ => None
  end.

(** The operand of a mixed operation as a [float]. *)
Definition to_float (n : num) : option Float64.t :=
  match n with
  | Int z => Float64.of_int z
  | Flt f => Some f
  end.

(** [a / b]: always a [float]. *)
Definition true_div (a b : num) : option Float64.t :=
  match a, b with
  | Int x, Int y => Float64.div_int x y
  | _, _ =>
      match to_float a, to_float b with
      | Some x, Some y => Float64.div x y
      | _, _ => None
      end
  end.

(** [a * b]. *)
Definition mul (a b : num) : option num :=
  match a, b with
  | Int x, Int y => Some (Int (x * y))
  | _, _ =>
      match to_float a, to_float b with
      | Some x, Some y => Some (Flt (Float64.mul x y))
      | _, _ => None
      end
  end.

(** [int(n)]. *)
Definition trunc (n : num) : option Z :=
  match n with
  | Int z => Some z
  | Flt f => Float64.trunc f
  end.

(** [float(v)]. *)
Definition float_of (py : Builtins) (v : json) : option Float64.t :=
  match v with
  | JStr s => float_of_str py s
  | _ => match value v with Some n => to_float n | None => None end
  end.

(** [int(v)]. *)
Definition int_of (py : Builtins) (v : json) : option Z :=
  match v with
  | JStr s => int_of_str py s
  | _ => match value v with Some n => trunc n | None => None end
  end.

(** [str(v)]. *)
Definition str_of (py : Builtins) (v : json) : string :=
  match v with
  | JStr s => s
  | JInt z => JsonText.Z_to_string z
  | JBool true => "True"
  | JBool false => "False"
  | JNull => "None"
  | _ => str_of_other py v
  end.

(** [s.lower()], on the letters of the ASCII range.  The sources lower
    a direction to compare it with [up], [down], [left] and [right],
    and no other character lowers to one of their letters. *)
Definition lower_char (c : ascii) : ascii :=
  let n := nat_of_ascii c in
  if (65 <=? n) && (n <=? 90) then ascii_of_nat (n + 32) else c.

Fixpoint lower (s : string) : string :=
  match s with
  | EmptyString => EmptyString
  | String c s' => String (lower_char c) (lower s')
  end.

End PyNum.

(* ================================================================= *)
(** ** The coordinate mapper ([coordinate_service.py]) *)

Module CoordinateService.

(** [int(c / 1000 * dim)]; [None] is the exception of a number beyond
    the range of the floats. *)
Definition to_abs1 (c : PyNum.num) (dim : Z) : option Z :=
  match PyNum.true_div c (PyNum.Int 1000) with
  | Some q =>
      match PyNum.mul (PyNum.Flt q) (PyNum.Int dim) with
      | Some p => PyNum.trunc p
      | None => None
      end
  | None => None
  end.

(** [int(c / dim * 1000)]; the division raises [ZeroDivisionError] for
    [dim = 0]. *)
Definition to_rel1 (c : PyNum.num) (dim : Z) : option Z :=
  match PyNum.true_div c (PyNum.Int dim) with
  | Some q =>
      match PyNum.mul (PyNum.Flt q) (PyNum.Int 1000) with
      | Some p => PyNum.trunc p
      | None => None
      end
  | None => None
  end.

(** Model-relative (0-1000) to pixels; [None] is the exception. *)
Definition convert_coordinate (coordinate : list Z)
           (screen_width screen_height : Z) : option (list Z) :=
  match coordinate with
  | x :: y :: _ =>
      match to_abs1 (PyNum.Int x) screen_width with
      | None => None
      | Some x' =>
          match to_abs1 (PyNum.Int y) screen_height with
          | None => None
          | Some y' => Some [x'; y']
          end
      end
  | _ => Some coordinate
  end.

(** Pixels to model-relative (0-1000); [None] is the exception. *)
Definition convert_to_relative (coordinate : list Z)
           (screen_width screen_height : Z) : option (list Z) :=
  match coordinate with
  | x :: y :: _ =>
      match to_rel1 (PyNum.Int x) screen_width with
      | None => None
      | Some x' =>
          match to_rel1 (PyNum.Int y) screen_height with
          | None => None
          | Some y' => Some [x'; y']
          end
      end
  | _ => Some coordinate
  end.

End CoordinateService.

(* ================================================================= *)
(** ** The device driver ([device_controller.py]) *)

(** What reaches the device, in the order it was sent. *)
Inductive DeviceOp :=
| DTap (x y : json)
| DType (text : json)
| DDelete (count : json)
| DSlide (x1 y1 x2 y2 : json) (duration : Z)
| DDrag (x1 y1 x2 y2 : json) (duration : Z)
| DBack
| DHome.

(** The abstract controller: every method returns the command string it
    ran.  The methods with arguments raise on arguments of the wrong type
    ([None]); [back] and [home] take none. *)
Record DeviceController := {
  tap : json -> json -> option string;
  type_text : json -> option string;
  delete : json -> option string;
  slide : json -> json -> json -> json -> Z -> option string;
  drag : json -> json -> json -> json -> Z -> option string;
  back : string;
  home : string
}.

(** The names of the actions ([core/actions.py], as the prompts of the
    executor spell them). *)
Module Actions.
Definition ANSWER := "answer".
Definition CLICK := "click".
Definition SWIPE := "swipe".
Definition TYPE := "type".
Definition SYSTEM_BUTTON := "system_button".
Definition WAIT := "wait".
Definition DELETE := "delete".
End Actions.

(* ================================================================= *)
(** ** The action service ([action_service.py]) *)

Module ActionService.

(** The fields of the service that change, and the log of the device. *)
Record Svc := {
  som_mapping : list (string * json);
  last_used_mark : option string;
  device_log : list DeviceOp
}.

Definition initial : Svc :=
  {| som_mapping := []; last_used_mark := None; device_log := [] |}.

(** A computation on the service that may raise: [None] is the
    exception, and the state reached before it is kept. *)
Definition M (A : Type) : Type := Svc -> option A * Svc.

Definition ret {A} (a : A) : M A := fun s => (Some a, s).
Definition raise {A} : M A := fun s => (None, s).
Definition bind {A B} (m : M A) (k : A -> M B) : M B :=
  fun s => match m s with
           | (Some a, s') => k a s'
           | (None, s') => (None, s')
           end.
Definition lift {A} (o : option A) : M A :=
  match o with Some a => ret a | None => raise end.

Declare Scope svc_scope.
Delimit Scope svc_scope with svc.
Notation "x <- m ;; k" := (bind m (fun x => k))
  (at level 61, m at next level, right associativity) : svc_scope.
Notation "m ;;; k" := (bind m (fun _ => k))
  (at level 61, right associativity) : svc_scope.

Definition set_mark (m : option string) : M unit :=
  fun s => (Some tt, {| som_mapping := som_mapping s; last_used_mark := m;
                        device_log := device_log s |}).

Definition set_som_mapping (mapping : list (string * json)) (s : Svc) : Svc :=
  {| som_mapping := mapping; last_used_mark := None;
     device_log := device_log s |}.

Definition get_last_used_mark (s : Svc) : option string := last_used_mark s.

(** A call of a device method: the operation is logged when the method
    runs, and its command string is the result. *)
Definition send (o : DeviceOp) (cmd : option string) : M string :=
  fun s => match cmd with
           | Some c => (Some c, {| som_mapping := som_mapping s;
                                   last_used_mark := last_used_mark s;
                                   device_log := device_log s ++ [o] |})
           | None => (None, s)
           end.

Section WithDevice.
Variable py : PyNum.Builtins.
Variable dev : DeviceController.
Variable perception_mode : string.

Open Scope svc_scope.

(** [(int(v[0]), int(v[1]))] of a list of at least two items. *)
Definition int_pair (v : json) : option (M (json * json)) :=
  match v with
  | JArr (a :: b :: _) =>
      Some (x <- lift (PyNum.int_of py a) ;;
            y <- lift (PyNum.int_of py b) ;;
            ret (JInt x, JInt y))
  | _ => None
  end.

(** [_resolve_coordinate]: a mark of the map, or a pair given
    directly; the inner [None] is the [None] of Python. *)
Definition resolve_coordinate (coord : json) (coor_type : string)
           (screen_width screen_height : option Z)
  : M (option (json * json)) :=
  match coord with
  | JStr mark =>
      fun s =>
        if String.eqb perception_mode "som"
           && Dict.mem mark (som_mapping s) then
          (set_mark (Some mark) ;;;
           match Dict.get mark (som_mapping s) with
           | Some (JObj value) =>
               match Dict.get "center" value with
               | Some center =>
                   match int_pair center with
                   | Some m => p <- m ;; ret (Some p)
                   | None => ret None
                   end
               | None => ret None
               end
           | Some value =>
               match int_pair value with
               | Some m => p <- m ;; ret (Some p)
               | None => ret None
               end
           | None => ret None
           end) s
        else (Some None, s)
  | JArr (a :: b :: _) =>
      match screen_width, screen_height with
      | Some w, Some h =>
          if negb (String.eqb coor_type "abs")
             && negb (Z.eqb w 0) && negb (Z.eqb h 0) then
            x <- lift (PyNum.value a) ;;
            x' <- lift (CoordinateService.to_abs1 x w) ;;
            y <- lift (PyNum.value b) ;;
            y' <- lift (CoordinateService.to_abs1 y h) ;;
            ret (Some (JInt x', JInt y'))
          else ret (Some (a, b))
      | _, _ => ret (Some (a, b))
      end
  | _ => ret None
  end.

(** [_resolve_som_bounds]: the box of a mark, when it has one. *)
Definition resolve_som_bounds (mark : string)
  : M (option (Z * Z * Z * Z)) :=
  fun s =>
    if negb (String.eqb perception_mode "som") then (Some None, s) else
    match Dict.get mark (som_mapping s) with
    | Some (JObj value) =>
        match Dict.get "bounds" value with
        | Some (JArr [JArr (l :: t :: _); JArr (r :: b :: _)]) =>
            (x_left <- lift (PyNum.int_of py l) ;;
             y_top <- lift (PyNum.int_of py t) ;;
             x_right <- lift (PyNum.int_of py r) ;;
             y_bottom <- lift (PyNum.int_of py b) ;;
             if ((x_right <=? x_left) || (y_bottom <=? y_top))%Z then ret None
             else ret (Some (x_left, y_top, x_right, y_bottom))) s
        | _ => (Some None, s)
        end
    | _ => (Some None, s)
    end.

(** The constants of the swipe. *)
Definition tenth : Float64.t := Float64.of_decimal 1 (-1).
Definition two_tenths : Float64.t := Float64.of_decimal 2 (-1).
Definition quarter : Float64.t := Float64.of_decimal 25 (-2).
Definition half : Float64.t := Float64.of_decimal 5 (-1).
Definition six_tenths : Float64.t := Float64.of_decimal 6 (-1).
Definition three_quarters : Float64.t := Float64.of_decimal 75 (-2).
Definition eight_tenths : Float64.t := Float64.of_decimal 8 (-1).
Definition nine_tenths : Float64.t := Float64.of_decimal 9 (-1).

(** [int(x * y)] for a float [x] and an integer [y]; [None] is the
    [OverflowError] of an integer beyond the range. *)
Definition scale (x : Float64.t) (y : Z) : option Z :=
  match Float64.of_int y with
  | Some f => Float64.trunc (Float64.mul x f)
  | None => None
  end.

(** [int(y * x)]. *)
Definition scale_r (y : Z) (x : Float64.t) : option Z :=
  match Float64.of_int y with
  | Some f => Float64.trunc (Float64.mul f x)
  | None => None
  end.

(** [max(0.1, min(0.9, float(distance)))], 0.6 when the conversion
    fails.  [min] keeps 0.9 unless the distance is below it, and [max]
    keeps 0.1 unless the result is above it: a NaN becomes 0.9. *)
Definition clamp_distance (distance : json) : Float64.t :=
  let dist := match PyNum.float_of py distance with
              | Some d => d
              | None => six_tenths
              end in
  let m := if Float64.ltb dist nine_tenths then dist else nine_tenths in
  if Float64.ltb tenth m then m else tenth.

(** [_compute_swipe_points_from_target]: inside the box of the mark
    with a margin of a tenth, else across the screen. *)
Definition compute_swipe_points_from_target
           (target direction : string) (distance : json)
           (screen_width screen_height : option Z)
  : M (option ((Z * Z) * (Z * Z))) :=
  let direction_norm := PyNum.lower (PyStr.strip direction) in
  let dist := clamp_distance distance in
  let towards d := String.eqb direction_norm d in
  let on_screen : M (option ((Z * Z) * (Z * Z))) :=
    match screen_width, screen_height with
    | Some w, Some h =>
        if (w =? 0)%Z || (h =? 0)%Z then ret None else
        let min_px := 200%Z in
        let len (side : Z) : M Z :=
          f <- lift (Float64.of_int side) ;;
          n <- lift (Float64.trunc
                       (Float64.mul (Float64.mul dist f) half)) ;;
          ret (Z.max min_px n) in
        if towards "up" then
          sy <- lift (scale_r h three_quarters) ;;
          l <- len h ;;
          ret (Some ((w / 2, sy), (w / 2, Z.max 0 (sy - l))))%Z
        else if towards "down" then
          sy <- lift (scale_r h quarter) ;;
          l <- len h ;;
          ret (Some ((w / 2, sy), (w / 2, Z.min (h - 1) (sy + l))))%Z
        else if towards "left" then
          sx <- lift (scale_r w eight_tenths) ;;
          l <- len w ;;
          ret (Some ((sx, h / 2), (Z.max 0 (sx - l), h / 2)))%Z
        else if towards "right" then
          sx <- lift (scale_r w two_tenths) ;;
          l <- len w ;;
          ret (Some ((sx, h / 2), (Z.min (w - 1) (sx + l), h / 2)))%Z
        else ret None
    | _, _ => ret None
    end in
  bounds <- resolve_som_bounds target ;;
  match bounds with
  | Some (x_left, y_top, x_right, y_bottom) =>
      let w := (x_right - x_left)%Z in
      let h := (y_bottom - y_top)%Z in
      tw <- lift (scale_r w tenth) ;;
      th <- lift (scale_r h tenth) ;;
      let margin_x := Z.max 10 tw in
      let margin_y := Z.max 10 th in
      let usable_w := Z.max 1 (w - 2 * margin_x) in
      let usable_h := Z.max 1 (h - 2 * margin_y) in
      let min_px := 50%Z in
      if towards "up" || towards "down" then
        let x := (x_left + w / 2)%Z in
        if towards "up" then
          a <- lift (scale eight_tenths usable_h) ;;
          n <- lift (scale dist usable_h) ;;
          let sy := (y_top + margin_y + a)%Z in
          let swipe_len := Z.max min_px n in
          ret (Some ((x, sy), (x, Z.max (y_top + margin_y) (sy - swipe_len))))%Z
        else
          a <- lift (scale two_tenths usable_h) ;;
          n <- lift (scale dist usable_h) ;;
          let sy := (y_top + margin_y + a)%Z in
          let swipe_len := Z.max min_px n in
          ret (Some ((x, sy), (x, Z.min (y_bottom - margin_y) (sy + swipe_len))))%Z
      else if towards "left" || towards "right" then
        let y := (y_top + h / 2)%Z in
        if towards "left" then
          a <- lift (scale eight_tenths usable_w) ;;
          n <- lift (scale dist usable_w) ;;
          let sx := (x_left + margin_x + a)%Z in
          let swipe_len := Z.max min_px n in
          ret (Some ((sx, y), (Z.max (x_left + margin_x) (sx - swipe_len), y)))%Z
        else
          a <- lift (scale two_tenths usable_w) ;;
          n <- lift (scale dist usable_w) ;;
          let sx := (x_left + margin_x + a)%Z in
          let swipe_len := Z.max min_px n in
          ret (Some ((sx, y), (Z.min (x_right - margin_x) (sx + swipe_len), y)))%Z
      else on_screen
  | None => on_screen
  end.

(** A swipe of a second or more is a drag. *)
Definition swipe_or_drag (x1 y1 x2 y2 : json) (duration : Z) : M string :=
  if (1000 <=? duration)%Z
  then send (DDrag x1 y1 x2 y2 duration) (drag dev x1 y1 x2 y2 duration)
  else send (DSlide x1 y1 x2 y2 duration) (slide dev x1 y1 x2 y2 duration).

Definition get_or (k : string) (default : json) (d : list (string * json)) :=
  match Dict.get k d with Some v => v | None => default end.

Definition opt_truthy (v : option json) : bool :=
  match v with Some x => Json.truthy x | None => false end.

(** The body of [execute_action], inside its [try]. *)
Definition execute_body (action_object : json) (coor_type : string)
           (screen_width screen_height : option Z) : M (option string) :=
  match action_object with
  | JObj d =>
      let action := Dict.get "action" d in
      let named a := Json.is_str a action in
      if named Actions.ANSWER then ret None else
      set_mark None ;;;
      if named Actions.CLICK then
        match Dict.get "coordinate" d with
        | Some coord_raw =>
            if Json.truthy coord_raw then
              coord <- resolve_coordinate coord_raw coor_type
                         screen_width screen_height ;;
              match coord with
              | Some (x, y) =>
                  c <- send (DTap x y) (tap dev x y) ;; ret (Some c)
              | None => ret None
              end
            else ret None
        | None => ret None
        end
      else if named Actions.SWIPE then
        let target := Dict.get "target" d in
        let direction := Dict.get "direction" d in
        let distance := get_or "distance" (JFloat 6 (-1)) d in
        secs <- lift (PyNum.float_of py
                        (get_or "duration" (JFloat 5 (-1)) d)) ;;
        duration <- lift (Float64.trunc
                            (Float64.mul secs (Float64.of_Z 1000))) ;;
        let by_coordinates : M (option string) :=
          match Dict.get "coordinate" d, Dict.get "coordinate2" d with
          | Some c1, Some c2 =>
              if Json.truthy c1 && Json.truthy c2 then
                p1 <- resolve_coordinate c1 coor_type
                        screen_width screen_height ;;
                p2 <- resolve_coordinate c2 coor_type
                        screen_width screen_height ;;
                match p1, p2 with
                | Some (x1, y1), Some (x2, y2) =>
                    c <- swipe_or_drag x1 y1 x2 y2 duration ;; ret (Some c)
                | _, _ => ret None
                end
              else ret None
          | _, _ => ret None
          end in
        match target, direction with
        | Some t, Some dir =>
            if Json.truthy t && Json.truthy dir then
              (fun s =>
                 match t with
                 | JStr m =>
                     if String.eqb perception_mode "som"
                        && Dict.mem m (som_mapping s)
                     then set_mark (Some m) s else (Some tt, s)
                 | _ => (Some tt, s)
                 end) ;;;
              points <- compute_swipe_points_from_target
                          (PyNum.str_of py t) (PyNum.str_of py dir) distance
                          screen_width screen_height ;;
              match points with
              | Some ((x1, y1), (x2, y2)) =>
                  c <- swipe_or_drag (JInt x1) (JInt y1) (JInt x2) (JInt y2)
                         duration ;;
                  ret (Some c)
              | None => by_coordinates
              end
            else by_coordinates
        | _, _ => by_coordinates
        end
      else if named Actions.TYPE then
        match Dict.get "text" d with
        | Some text =>
            if Json.truthy text then
              c <- send (DType text) (type_text dev text) ;; ret (Some c)
            else ret None
        | None => ret None
        end
      else if named Actions.DELETE then
        let count := get_or "count" (JInt 1) d in
        c <- send (DDelete count) (delete dev count) ;; ret (Some c)
      else if named Actions.SYSTEM_BUTTON then
        let button := Dict.get "button" d in
        if Json.is_str "Back" button then
          c <- send DBack (Some (back dev)) ;; ret (Some c)
        else if Json.is_str "Home" button then
          c <- send DHome (Some (home dev)) ;; ret (Some c)
        else ret None
      else if named Actions.WAIT then ret (Some "wait")
      else ret None
  | _ => raise
  end.

(** [execute_action]: the command string, [None] when nothing was
    run or when the body raised. *)
Definition execute_action (action_object : json) (coor_type : string)
           (screen_width screen_height : option Z) (s : Svc)
  : option string * Svc :=
  match execute_body action_object coor_type screen_width screen_height s with
  | (Some r, s') => (r, s')
  | (None, s') => (None, s')
  end.

(** [parse_action_string]: the fences and the word [json] are
    removed wherever they stand, then the text is decoded. *)
Definition parse_action_string (action_str : string) : option json :=
  JsonText.loads
    (PyStr.strip
       (PyStr.replace "json" "" (PyStr.replace "```" "" action_str))).

End WithDevice.

End ActionService.

(* ================================================================= *)
(** ** The sectioned responses of the agents
       ([executor_agent.py], [reflector_agent.py], [planner_agent.py]) *)

Module Agents.

(** [s.split(sep)] for a non-empty [sep]: the pieces between the
    occurrences found from the left. *)
Fixpoint split_from (sep s : string) (skip : nat) (cur : string)
  : list string :=
  match s with
  | EmptyString => [cur]
  | String c s' =>
      match skip with
      | S k => split_from sep s' k cur
      | O =>
          if PyStr.starts_with sep s
          then cur :: split_from sep s' (String.length sep - 1) EmptyString
          else split_from sep s' 0 (cur ++ String c EmptyString)
      end
  end.

Definition split (sep s : string) : list string :=
  split_from sep s 0 EmptyString.

(** [s.split(sep)[-1]] and [s.split(sep)[0]]. *)
Definition after_last (sep s : string) : string :=
  List.last (split sep s) EmptyString.
Definition before_first (sep s : string) : string :=
  List.hd EmptyString (split sep s).

Definition newline : string := String (ascii_of_nat 10) EmptyString.

(** [.replace("\n", " ").replace("  ", " ").strip()]. *)
Definition one_line (s : string) : string :=
  PyStr.strip (PyStr.replace "  " " " (PyStr.replace newline " " s)).

(** The token usage read off a raw response, when it reports one. *)
Record Usage := {
  prompt_tokens : Z;
  completion_tokens : Z;
  total_tokens : Z
}.

(* ----- executor ----- *)

Record ExecutorOutput := {
  ex_thought : string;
  ex_action : string;
  ex_description : string
}.

Definition executor_parse (response : string) : ExecutorOutput :=
  if PyStr.contains "### Thought ###" response then
    if PyStr.contains "### Action ###" response then
      let thought :=
        one_line (before_first "### Action ###"
                    (after_last "### Thought ###" response)) in
      if PyStr.contains "### Description ###" response then
        {| ex_thought := thought;
           ex_action :=
             one_line (before_first "### Description ###"
                         (after_last "### Action ###" response));
           ex_description :=
             one_line (after_last "### Description ###" response) |}
      else
        {| ex_thought := thought;
           ex_action := one_line (after_last "### Action ###" response);
           ex_description := "" |}
    else
      {| ex_thought := one_line (after_last "### Thought ###" response);
         ex_action := ""; ex_description := "" |}
  else {| ex_thought := ""; ex_action := ""; ex_description := "" |}.

(* ----- reflector ----- *)

Record ReflectorOutput := {
  rf_outcome : string;
  rf_error_description : string
}.

Definition reflector_parse (response : string) : ReflectorOutput :=
  if PyStr.contains "### Outcome ###" response then
    if PyStr.contains "### Error Description ###" response then
      {| rf_outcome :=
           PyStr.strip
             (PyStr.replace "###" ""
                (PyStr.replace "  " " "
                   (PyStr.replace newline " "
                      (before_first "### Error Description ###"
                         (after_last "### Outcome ###" response)))));
         rf_error_description :=
           PyStr.strip
             (PyStr.replace "  " " "
                (PyStr.replace "###" ""
                   (PyStr.replace newline " "
                      (after_last "### Error Description ###" response)))) |}
    else
      {| rf_outcome :=
           PyStr.strip
             (PyStr.replace "###" ""
                (PyStr.replace "  " " "
                   (PyStr.replace newline " "
                      (after_last "### Outcome ###" response))));
         rf_error_description := "" |}
  else {| rf_outcome := ""; rf_error_description := "" |}.

(* ----- planner ----- *)

Record PlannerOutput := {
  pl_thought : string;
  pl_completed_subgoal : string;
  pl_plan : string
}.

Definition planner_parse (response : string) : PlannerOutput :=
  let (thought, completed) :=
    if PyStr.contains "### Completed Subgoals ###" response
       || PyStr.contains "### 历史操作 ###" response then
      (one_line (before_first "### Completed Subgoals ###"
                   (after_last "### Thought ###" response)),
       PyStr.strip
         (PyStr.replace "```" ""
            (PyStr.strip
               (before_first "### Plan ###"
                  (after_last "### Completed Subgoals ###" response)))))
    else
      ((if PyStr.contains "### Thought ###" response then
          if PyStr.contains "### Plan ###" response then
            one_line (before_first "### Plan ###"
                        (after_last "### Thought ###" response))
          else one_line (after_last "### Thought ###" response)
        else ""),
       "No completed subgoal.") in
  let completed :=
    if String.eqb completed "" || State.is_sentinel completed
    then "No completed subgoal." else completed in
  {| pl_thought := thought;
     pl_completed_subgoal := completed;
     pl_plan :=
       if PyStr.contains "### Plan ###" response
       then one_line (after_last "### Plan ###" response) else "" |}.

End Agents.

(* ================================================================= *)
(** ** The screenshot service ([screenshot_service.py]) *)

Module ScreenshotService.

Record Shot := {
  perception_mode : string;
  som_service : bool;
  current_som_mapping : list (string * json)
}.

(** The constructor: the mark engine is set up in [som] mode, and the
    service falls back to [vllm] when its imports fail. *)
Definition init (mode : string) (som_imports_ok : bool) : Shot :=
  if String.eqb mode "som" then
    if som_imports_ok then
      {| perception_mode := mode; som_service := true;
         current_som_mapping := [] |}
    else
      {| perception_mode := "vllm"; som_service := false;
         current_som_mapping := [] |}
  else
    {| perception_mode := mode; som_service := false;
       current_som_mapping := [] |}.

(** What one call of [take_screenshot] finds outside the program. *)
Record Call := {
  screenshot_path : string;
  (** per attempt: did the driver report success, and is the file there *)
  device_ok : nat -> bool;
  file_exists : nat -> bool;
  (** is the sibling UI-hierarchy dump there *)
  xml_exists : bool;
  (** the mark engine: the marked image, the mapping file and the
      mapping, or the exception it raised *)
  process_screenshot : option (string * string * list (string * json))
}.

(** [_process_som]. *)
Definition process_som (c : Call) (s : Shot) : option string * Shot :=
  if negb (xml_exists c) then (Some (screenshot_path c), s)
  else
    match process_screenshot c with
    | Some (marked_image_path, _, som_mapping) =>
        (Some marked_image_path,
         {| perception_mode := perception_mode s;
            som_service := som_service s;
            current_som_mapping := som_mapping |})
    | None => (Some (screenshot_path c), s)
    end.

(** The retry loop of [take_screenshot], [n] attempts left after
    [attempt] were made. *)
Fixpoint attempts_from (n attempt : nat) (c : Call) (s : Shot)
  : option string * Shot :=
  match n with
  | O => (None, s)
  | S n' =>
      if device_ok c attempt && file_exists c attempt then
        if String.eqb (perception_mode s) "som" && som_service s
        then process_som c s
        else (Some (screenshot_path c), s)
      else attempts_from n' (S attempt) c s
  end.

Definition take_screenshot (retry_count : nat) (c : Call) (s : Shot)
  : option string * Shot :=
  attempts_from retry_count 0 c s.

Definition get_som_mapping (s : Shot) : list (string * json) :=
  current_som_mapping s.

End ScreenshotService.

(* ================================================================= *)
(** ** The stagnation checker and the chains
       ([reflection_chain.py], [execution_chain.py], [planning_chain.py]) *)

Module Stagnation.

(** [set(tokens)], as a list without repetition. *)
Definition to_set (l : list string) : list string := nodup string_dec l.

Definition member (x : string) (l : list string) : bool :=
  existsb (String.eqb x) l.

Definition inter (a b : list string) : list string :=
  filter (fun x => member x b) (to_set a).

Definition union (a b : list string) : list string := to_set (a ++ b).

(** [_jaccard_similarity]: the share of the union that is common. *)
Definition jaccard_similarity (tokens_a tokens_b : list string) : option Q :=
  match union tokens_a tokens_b with
  | [] => None
  | u => Some (Z.of_nat (List.length (inter tokens_a tokens_b))
               # Pos.of_nat (List.length u))%Q
  end.

(** What the checker reads from the disk: the UI-hierarchy dump that
    belongs to a screenshot, when the file exists, and the tokens of the
    nodes of a dump (none when it cannot be parsed). *)
Record Files := {
  xmltodict_available : bool;
  resolve_xml_path : string -> option string;
  extract_ui_tokens : string -> list string
}.

(** The answer of [confirm]: similarity, confirmed, and the two dumps. *)
Record Verdict := {
  similarity : option Q;
  confirmed : option bool;
  before_xml : option string;
  after_xml : option string
}.

Definition nothing : Verdict :=
  {| similarity := None; confirmed := None;
     before_xml := None; after_xml := None |}.

Definition path_given (p : option string) : bool :=
  match p with Some s => PyStr.truthy s | None => false end.

Definition confirm (files : Files) (tree_similarity_threshold : Q)
           (before_screenshot after_screenshot : option string) : Verdict :=
  match before_screenshot, after_screenshot with
  | Some before, Some after =>
      if negb (PyStr.truthy before && PyStr.truthy after) then nothing
      else if negb (xmltodict_available files) then nothing
      else
        match resolve_xml_path files before, resolve_xml_path files after with
        | Some bx, Some ax =>
            let before_tokens := extract_ui_tokens files bx in
            let after_tokens := extract_ui_tokens files ax in
            match before_tokens, after_tokens with
            | [], _ | _, [] =>
                {| similarity := None; confirmed := None;
                   before_xml := Some bx; after_xml := Some ax |}
            | _, _ =>
                match jaccard_similarity before_tokens after_tokens with
                | None =>
                    {| similarity := None; confirmed := None;
                       before_xml := Some bx; after_xml := Some ax |}
                | Some sim =>
                    {| similarity := Some sim;
                       confirmed :=
                         Some (Qle_bool tree_similarity_threshold sim);
                       before_xml := Some bx; after_xml := Some ax |}
                end
            end
        | _, _ => nothing
        end
  | _, _ => nothing
  end.

End Stagnation.

(** The result of a computation that may raise. *)
Inductive result (A : Type) :=
| Ok (a : A)
| Raised (what : string).
Arguments Ok {A} a.
Arguments Raised {A} what.

Module ReflectionChain.

(** The wiring of the chain. *)
Record Config := {
  has_path_summarizer : bool;
  has_recorder : bool;
  enable_tree_stagnation_check : bool;
  tree_similarity_threshold : Q
}.

(** What the language model answers in one run of the chain. *)
Record Answers := {
  reflector_response : string;
  reflector_usage : option Agents.Usage;
  summarizer_summary : string;
  summarizer_usage : option Agents.Usage;
  recorder_notes : string;
  recorder_usage : option Agents.Usage
}.

Record Output := {
  outcome : string;
  error_description : string;
  action_outcome : string;
  llm_outcome : string;
  tree_similarity : option Q;
  tree_confirmed : option bool;
  tree_before_xml : option string;
  tree_after_xml : option string;
  final_outcome : string;
  reflector_raw_usage : option Agents.Usage;
  path_summarizer_raw_usage : option Agents.Usage;
  recorder_raw_usage : option Agents.Usage
}.

(** The letter read in the outcome text: the first of S, B, C that
    occurs in it. *)
Definition outcome_letter (outcome : string) : option string :=
  if PyStr.contains "S" outcome then Some "S"
  else if PyStr.contains "B" outcome then Some "B"
  else if PyStr.contains "C" outcome then Some "C"
  else None.

(** The letter that is recorded, given the verdict of the checker. *)
Definition remap (letter : string) (enabled : bool) (v : Stagnation.Verdict)
  : string :=
  if String.eqb letter "C" && enabled then
    match Stagnation.confirmed v with
    | Some true => "N"
    | Some false => "S"
    | None => letter
    end
  else letter.

Definition run (cfg : Config) (files : Stagnation.Files) (ans : Answers)
           (before_screenshot after_screenshot : option string)
           (step : nat) (enable_notetaker : bool)
           (st : State.MobileAgentState)
  : result (Output * State.MobileAgentState) :=
  let parsed := Agents.reflector_parse (reflector_response ans) in
  let outcome := Agents.rf_outcome parsed in
  let error_description := Agents.rf_error_description parsed in
  match outcome_letter outcome with
  | None => Raised "ValueError: Invalid outcome"
  | Some letter =>
      let v :=
        if String.eqb letter "C" && enable_tree_stagnation_check cfg
        then Stagnation.confirm files (tree_similarity_threshold cfg)
               before_screenshot after_screenshot
        else Stagnation.nothing in
      let final := remap letter (enable_tree_stagnation_check cfg) v in
      let last_action := State.last_action (State.execution st) in
      let last_summary := State.last_summary (State.execution st) in
      let progress_status :=
        State.completed_plan_summary (State.planning st) in
      let st1 := State.set_progress_status progress_status st in
      let st2 :=
        State.append_action last_action last_summary final
          error_description st1 in
      let summarize :=
        (S step mod 5 =? 0) && String.eqb final "S"
        && has_path_summarizer cfg in
      let st3 :=
        if summarize && PyStr.truthy (summarizer_summary ans)
        then State.set_completed_plan_summary (summarizer_summary ans) st2
        else st2 in
      let record :=
        String.eqb final "S" && enable_notetaker && has_recorder cfg
        && Stagnation.path_given after_screenshot in
      let st4 :=
        if record && PyStr.truthy (recorder_notes ans)
        then State.set_important_notes (recorder_notes ans) st3
        else st3 in
      Ok ({| outcome := outcome;
             error_description := error_description;
             action_outcome := final;
             llm_outcome := letter;
             tree_similarity := Stagnation.similarity v;
             tree_confirmed := Stagnation.confirmed v;
             tree_before_xml := Stagnation.before_xml v;
             tree_after_xml := Stagnation.after_xml v;
             final_outcome := final;
             reflector_raw_usage := reflector_usage ans;
             path_summarizer_raw_usage :=
               if summarize then summarizer_usage ans else None;
             recorder_raw_usage :=
               if record then recorder_usage ans else None |},
          st4)
  end.

End ReflectionChain.

Module ExecutionChain.

(** What the chain reads from the outside in one run. *)
Record Answers := {
  executor_response : string;
  executor_usage : option Agents.Usage;
  (** the size of an image file, when it can be opened *)
  image_size : string -> option (Z * Z);
  (** the mapping file beside a marked image, when it exists *)
  mapping_file : string -> option (list (string * json))
}.

Record Output := {
  thought : string;
  action : string;
  description : string;
  (** [None]: the key is absent, or the parser returned [None] *)
  action_object : option json;
  command_str : option string;
  som_mark : option string;
  raw_usage : option Agents.Usage
}.

Definition invalid_action : json := JObj [("action", JStr "invalid")].

(** [_get_mapping_path]. *)
Definition get_mapping_path (screenshot_path : string) : option string :=
  if PyStr.contains "_marked.png" screenshot_path
  then Some (PyStr.replace "_marked.png" "_mapping.json" screenshot_path)
  else None.

(** The mapping handed to the action service before the executor runs. *)
Definition load_mapping (perception_mode : string) (ans : Answers)
           (screenshot_path : option string)
           (shot : ScreenshotService.Shot) (svc : ActionService.Svc)
  : ActionService.Svc :=
  match screenshot_path with
  | Some path =>
      if String.eqb perception_mode "som" && PyStr.truthy path then
        match ScreenshotService.get_som_mapping shot with
        | [] =>
            match get_mapping_path path with
            | Some mapping_path =>
                match mapping_file ans mapping_path with
                | Some m => ActionService.set_som_mapping m svc
                | None => svc
                end
            | None => svc
            end
        | m => ActionService.set_som_mapping m svc
        end
      else svc
  | None => svc
  end.

(** Both ways into the record of an [invalid] pseudo-action. *)
Definition record_invalid (description : string)
           (st : State.MobileAgentState) : State.MobileAgentState :=
  State.append_action invalid_action description "N"
    "invalid action format, do nothing."
    (State.set_last_action invalid_action description "" st).

Definition run (py : PyNum.Builtins)
           (dev : DeviceController) (perception_mode : string)
           (ans : Answers)
           (screenshot_path : option string) (coor_type : string)
           (is_first_step : bool)
           (shot : ScreenshotService.Shot)
           (st : State.MobileAgentState) (svc : ActionService.Svc)
  : result (Output * State.MobileAgentState * ActionService.Svc) :=
  let svc0 := load_mapping perception_mode ans screenshot_path shot svc in
  let parsed := Agents.executor_parse (executor_response ans) in
  let action_thought := Agents.ex_thought parsed in
  let action_object_str := Agents.ex_action parsed in
  let action_description := Agents.ex_description parsed in
  let out obj cmd mark :=
    {| thought := action_thought; action := action_object_str;
       description := action_description; action_object := obj;
       command_str := cmd; som_mark := mark;
       raw_usage := executor_usage ans |} in
  let st0 :=
    State.set_last_action (JObj []) action_description action_thought st in
  if negb (PyStr.truthy action_thought)
     || negb (PyStr.truthy action_object_str) then
    Ok (out None None None, record_invalid action_description st0, svc0)
  else
    match ActionService.parse_action_string action_object_str with
    | None =>
        Ok (out None None None, record_invalid action_description st0, svc0)
    | Some obj =>
        if negb (Json.truthy obj) then
          Ok (out (Some obj) None None,
              record_invalid action_description st0, svc0)
        else
          match Json.get "action" obj with
          | None => Raised "AttributeError: get"
          | Some name =>
              if Json.is_str Actions.ANSWER name then
                Ok (out (Some obj) None None,
                    State.append_action obj action_description "S" "None"
                      (State.set_last_action obj action_description "" st0),
                    svc0)
              else
                let size :=
                  match screenshot_path with
                  | Some path =>
                      if PyStr.truthy path then image_size ans path else None
                  | None => None
                  end in
                let '(command, svc1) :=
                  ActionService.execute_action py dev perception_mode obj
                    coor_type (option_map fst size) (option_map snd size)
                    svc0 in
                let last_mark :=
                  if String.eqb perception_mode "som"
                  then ActionService.get_last_used_mark svc1 else None in
                Ok (out (Some obj) command last_mark,
                    State.set_last_action obj action_description "" st0,
                    svc1)
          end
    end.

End ExecutionChain.

Module PlanningChain.

(** The planner's answer and the two regular-expression splits of
    [_update_current_subgoal] (after a digit, at a dot or its full-width
    forms: followed by a space, and bare). *)
Record Answers := {
  planner_response : string;
  planner_usage : option Agents.Usage;
  split_spaced : string -> list string;
  split_bare : string -> list string
}.

Fixpoint numbered_goals (i : nat) (n : nat) (plan_lines : list string)
  : list string :=
  match n with
  | O => []
  | S n' =>
      match nth_error plan_lines i with
      | Some line =>
          (JsonText.Z_to_string (Z.of_nat i) ++ ". "
             ++ PyStr.strip (Agents.before_first Agents.newline line))
            :: numbered_goals (S i) n' plan_lines
      | None => numbered_goals (S i) n' plan_lines
      end
  end.

Definition update_current_subgoal (ans : Answers) (plan : string)
           (st : State.MobileAgentState) : State.MobileAgentState :=
  if PyStr.truthy plan && negb (PyStr.contains "Finished" plan) then
    let lines0 := split_spaced ans plan in
    let plan_lines :=
      if List.length lines0 =? 1 then split_bare ans plan else lines0 in
    let num_to_extract :=
      Z.min (State.num_current_subgoals (State.planning st))
            (Z.of_nat (List.length plan_lines) - 1) in
    if (0 <? num_to_extract)%Z then
      State.set_current_subgoal
        (String.concat " "
           (numbered_goals 1 (Z.to_nat num_to_extract) plan_lines)) st
    else State.set_current_subgoal (PyStr.strip plan) st
  else State.set_current_subgoal "" st.

(** [run] with [skip_if_invalid=False], as the orchestrator calls it. *)
Definition run (ans : Answers) (st : State.MobileAgentState)
  : Agents.PlannerOutput * State.MobileAgentState :=
  let r := Agents.planner_parse (planner_response ans) in
  let new_completed_subgoal := Agents.pl_completed_subgoal r in
  let plan := Agents.pl_plan r in
  let st1 :=
    State.set_current_step_completed_subgoal new_completed_subgoal st in
  let st2 := State.set_plan plan st1 in
  let st3 :=
    if PyStr.truthy new_completed_subgoal
       && negb (String.eqb new_completed_subgoal "No completed subgoal.")
    then State.append_completed_subgoal new_completed_subgoal st2
    else st2 in
  (r, update_current_subgoal ans plan st3).

End PlanningChain.

(* ================================================================= *)
(** ** The orchestrator ([task_orchestrator.py], [report_service.py])

    [script.json], [infopool.json], [tricks.json], the chat log and the
    list [execution_history] are written from fields that nothing in the
    loop reads back; they are left out.  [task_results.json] is the file
    the loop both writes and tests, and is part of the world. *)

Module Orchestrator.

Record Config := {
  dev : DeviceController;
  coor_type : string;
  enable_notetaker : bool;
  enable_task_judge : bool;
  perception_mode : string;
  enable_tree_stagnation_check : bool;
  tree_similarity_threshold : Q;
  (** the report language, after its normalisation to [zh] or [en] *)
  output_zh : bool;
  (** the attempts of [take_screenshot] (5 by default) *)
  retry_count : nat
}.

(** The answers of everything outside the program, for one run.  The
    chains are asked once per step at most, so their answers are indexed
    by the step; the screenshots by the number of the call. *)
Record Env := {
  (** the conversions of Python between text and numbers *)
  python : PyNum.Builtins;
  screenshot_call : nat -> ScreenshotService.Call;
  size_of_image : nat -> string -> option (Z * Z);
  planning : nat -> PlanningChain.Answers;
  execution : nat -> ExecutionChain.Answers;
  reflection : nat -> ReflectionChain.Answers;
  files : Stagnation.Files;
  judge_task_status : string;
  judge_status_reason : string;
  judge_usage : option Agents.Usage;
  translate : string -> string;
  start_dtime : string;
  finish_dtime : string
}.

Record World := {
  st : State.MobileAgentState;
  svc : ActionService.Svc;
  shot : ScreenshotService.Shot;
  (** the content of [task_results.json], when the file exists *)
  task_results : option (list (string * json));
  (** the files [Steps/step_<n>/<agent>.json] written so far *)
  step_files : list (nat * string);
  token_usage_by_role : list (string * Agents.Usage);
  (** how many times [take_screenshot] was called *)
  shots_taken : nat;
  (** the invocations of the language model: the role and the step *)
  llm_calls : list (string * nat)
}.

Definition with_st (f : State.MobileAgentState -> State.MobileAgentState)
           (w : World) : World :=
  {| st := f (st w); svc := svc w; shot := shot w;
     task_results := task_results w; step_files := step_files w;
     token_usage_by_role := token_usage_by_role w;
     shots_taken := shots_taken w; llm_calls := llm_calls w |}.

Definition with_task_results (r : option (list (string * json)))
           (w : World) : World :=
  {| st := st w; svc := svc w; shot := shot w;
     task_results := r; step_files := step_files w;
     token_usage_by_role := token_usage_by_role w;
     shots_taken := shots_taken w; llm_calls := llm_calls w |}.

(** [save_step_message(step_id, agent_name, ...)]. *)
Definition save_step_message (step_id : nat) (agent_name : string)
           (w : World) : World :=
  {| st := st w; svc := svc w; shot := shot w;
     task_results := task_results w;
     step_files := step_files w ++ [(step_id, agent_name)];
     token_usage_by_role := token_usage_by_role w;
     shots_taken := shots_taken w; llm_calls := llm_calls w |}.

Definition called (role : string) (step : nat) (w : World) : World :=
  {| st := st w; svc := svc w; shot := shot w;
     task_results := task_results w; step_files := step_files w;
     token_usage_by_role := token_usage_by_role w;
     shots_taken := shots_taken w;
     llm_calls := llm_calls w ++ [(role, step)] |}.

(** [_accumulate_tokens]. *)
Definition accumulate_tokens (role : string) (usage : option Agents.Usage)
           (w : World) : World :=
  match usage with
  | None => w
  | Some u =>
      let current :=
        match Dict.get role (token_usage_by_role w) with
        | Some c => c
        | None => {| Agents.prompt_tokens := 0;
                     Agents.completion_tokens := 0;
                     Agents.total_tokens := 0 |}
        end in
      let sum :=
        {| Agents.prompt_tokens :=
             Agents.prompt_tokens current + Agents.prompt_tokens u;
           Agents.completion_tokens :=
             Agents.completion_tokens current + Agents.completion_tokens u;
           Agents.total_tokens :=
             Agents.total_tokens current + Agents.total_tokens u |}%Z in
      {| st := st w; svc := svc w; shot := shot w;
         task_results := task_results w; step_files := step_files w;
         token_usage_by_role := Dict.set role sum (token_usage_by_role w);
         shots_taken := shots_taken w; llm_calls := llm_calls w |}
  end.

(** [device_controller.home()]. *)
Definition go_home (cfg : Config) (w : World) : World :=
  {| st := st w;
     svc := snd (ActionService.send DHome (Some (home (dev cfg))) (svc w));
     shot := shot w;
     task_results := task_results w; step_files := step_files w;
     token_usage_by_role := token_usage_by_role w;
     shots_taken := shots_taken w; llm_calls := llm_calls w |}.

(** [screenshot_service.take_screenshot()]. *)
Definition take_screenshot (cfg : Config) (env : Env) (w : World)
  : option string * World :=
  let '(path, shot') :=
    ScreenshotService.take_screenshot (retry_count cfg)
      (screenshot_call env (shots_taken w)) (shot w) in
  (path,
   {| st := st w; svc := svc w; shot := shot';
      task_results := task_results w; step_files := step_files w;
      token_usage_by_role := token_usage_by_role w;
      shots_taken := S (shots_taken w); llm_calls := llm_calls w |}).

(** [_count_exploration_steps]: the step folders, less the last one when
    it holds the judge's file. *)
Definition count_exploration_steps (w : World) : Z :=
  let ids := nodup Nat.eq_dec (map fst (step_files w)) in
  match ids with
  | [] => 0%Z
  | _ =>
      let last_id := fold_right Nat.max 0 ids in
      let judged :=
        existsb (fun f => (fst f =? last_id)
                          && String.eqb (snd f) "task_judge")
                (step_files w) in
      let total := Z.of_nat (List.length ids) in
      Z.max (if judged then total - 1 else total) 0
  end.

Definition usage_json (u : Agents.Usage) : json :=
  JObj [ ("prompt_tokens", JInt (Agents.prompt_tokens u));
         ("completion_tokens", JInt (Agents.completion_tokens u));
         ("total_tokens", JInt (Agents.total_tokens u)) ].

Definition or_empty (d : option (list (string * json)))
  : list (string * json) :=
  match d with Some x => x | None => [] end.

(** [ReportService.save_task_results]. *)
Definition save_task_results (cfg : Config) (env : Env)
           (goal : string) (step_limit : json)
           (task_status : string) (test_status_report : json)
           (w : World) : World :=
  let existing := or_empty (task_results w) in
  let d1 :=
    Dict.update existing
      [ ("goal", JStr goal);
        ("start_dtime", JStr (start_dtime env));
        ("finish_dtime", JStr (finish_dtime env));
        ("step_limit", step_limit);
        ("task_status", JStr task_status);
        ("test_status_report", test_status_report) ] in
  let d2 :=
    Dict.pop "status_reason_zh"
      (Dict.pop "status_reason" (Dict.pop "hit_step_limit" d1)) in
  let d3 :=
    if output_zh cfg then
      Dict.set "test_status_report_zh"
        (match test_status_report with
         | JStr s => JStr (translate env s)
         | v => v
         end) d2
    else d2 in
  let d4 :=
    Dict.set "token_usage"
      (JObj (map (fun kv => (fst kv, usage_json (snd kv)))
                 (token_usage_by_role w))) d3 in
  let total :=
    fold_left (fun acc kv => (acc + Agents.total_tokens (snd kv))%Z)
              (token_usage_by_role w) 0%Z in
  let d5 := Dict.set "total_tokens" (JInt total) d4 in
  let d6 :=
    Dict.set "execution_steps" (JInt (count_exploration_steps w)) d5 in
  with_task_results (Some d6) w.

(** [_save_final_results]. *)
Definition save_final_results (cfg : Config) (env : Env)
           (instruction : string) (step_limit : json) (w : World) : World :=
  let found : json :=
    match task_results w with
    | Some ((_ :: _) as data) =>
        match Dict.get "test_status_report" data with
        | Some v => v
        | None =>
            match Dict.get "status_reason" data with
            | Some v => v
            | None => JStr ""
            end
        end
    | _ => JStr ""
    end in
  let limit_hit := Json.truthy step_limit in
  let task_status := if limit_hit then "Not Completed" else "Completed" in
  let test_status_report :=
    if Json.truthy found then found
    else if limit_hit then JStr "Reached maximum execution limit"
    else JStr "Finished within step limit" in
  save_task_results cfg env instruction step_limit task_status
    test_status_report w.

(** The plan is the marker of completion. *)
Definition is_finished (plan : string) : bool :=
  PyStr.contains "Finished" (PyStr.strip plan)
  && (PyStr.len (PyStr.strip plan) <? 15).

(** The planner's thought goes to the report of a finished run. *)
Definition write_thought (planning_result : option Agents.PlannerOutput)
           (w : World) : World :=
  let thought :=
    PyStr.strip
      (match planning_result with
       | Some r => Agents.pl_thought r
       | None => ""
       end) in
  if PyStr.truthy thought then
    with_task_results
      (Some (Dict.pop "status_reason_zh"
               (Dict.pop "status_reason"
                  (Dict.set "test_status_report" (JStr thought)
                     (or_empty (task_results w)))))) w
  else w.

(** [_run_task_judge]. *)
Definition run_task_judge (env : Env) (step : nat) (w : World) : World :=
  let w1 := called "task_judge" (step - 1) w in
  let w2 := accumulate_tokens "task_judge" (judge_usage env) w1 in
  let w3 := save_step_message step "task_judge" w2 in
  with_task_results
    (Some (Dict.set "judger_reason" (JStr (judge_status_reason env))
             (Dict.set "task_judger" (JStr (judge_task_status env))
                (or_empty (task_results w3))))) w3.

(** How the loop was left. *)
Inductive Exit :=
| Exhausted
| FinishedAt (step : nat)
| ScreenshotFailedAt (step : nat)
| CrashedAt (step : nat) (what : string).

Inductive Flow :=
| Continue (w : World) (local_image_dir2 : option string)
| Stop (e : Exit) (w : World).

Definition path_given := Stagnation.path_given.

Definition reflection_config (cfg : Config) : ReflectionChain.Config :=
  {| ReflectionChain.has_path_summarizer := true;
     ReflectionChain.has_recorder := enable_notetaker cfg;
     ReflectionChain.enable_tree_stagnation_check :=
       enable_tree_stagnation_check cfg;
     ReflectionChain.tree_similarity_threshold :=
       tree_similarity_threshold cfg |}.

(** The part of an iteration after the check for completion: the
    executor, the screenshot after the action and the reflector. *)
Definition act_and_reflect (cfg : Config) (env : Env) (instruction : string)
           (step : nat) (local_image_dir local_image_dir2 : option string)
           (w : World) : Flow :=
  let w1 := called "executor" step w in
  match ExecutionChain.run (python env) (dev cfg) (perception_mode cfg)
          (execution env step) local_image_dir (coor_type cfg)
          (step =? 0) (shot w1) (st w1) (svc w1) with
  | Raised what => Stop (CrashedAt step what) w1
  | Ok (r, st', svc') =>
      let w2 :=
        accumulate_tokens "operator" (ExecutionChain.raw_usage r)
          {| st := st'; svc := svc'; shot := shot w1;
             task_results := task_results w1; step_files := step_files w1;
             token_usage_by_role := token_usage_by_role w1;
             shots_taken := shots_taken w1; llm_calls := llm_calls w1 |} in
      match ExecutionChain.action_object r with
      | None => Continue w2 local_image_dir2
      | Some obj =>
          if negb (Json.truthy obj) then Continue w2 local_image_dir2 else
          let w3 := save_step_message (S step) "operator" w2 in
          let w4 :=
            if Json.is_str Actions.ANSWER
                 (match Json.get "action" obj with
                  | Some a => a | None => None end)
            then
              with_st
                (fun s =>
                   State.append_action obj (ExecutionChain.description r)
                     "S" "None"
                     (State.set_last_action obj
                        (ExecutionChain.description r) "" s)) w3
            else w3 in
          let '(shot2, w5) := take_screenshot cfg env w4 in
          if negb (path_given shot2) then
            Stop (ScreenshotFailedAt step)
                 (go_home cfg
                    (save_final_results cfg env instruction (JFloat 1 0) w5))
          else
            let w6 := called "reflector" step w5 in
            match ReflectionChain.run (reflection_config cfg) (files env)
                    (reflection env step) local_image_dir shot2 step
                    (enable_notetaker cfg) (st w6) with
            | Raised what => Stop (CrashedAt step what) w6
            | Ok (rr, st'') =>
                let w7 := with_st (fun _ => st'') w6 in
                let w8 :=
                  accumulate_tokens "recorder"
                    (ReflectionChain.recorder_raw_usage rr)
                    (accumulate_tokens "path_summarizer"
                       (ReflectionChain.path_summarizer_raw_usage rr)
                       (accumulate_tokens "reflector"
                          (ReflectionChain.reflector_raw_usage rr) w7)) in
                let w9 := save_step_message (S step) "reflector" w8 in
                Continue
                  (with_st
                     (State.set_prev_action_images
                        (match local_image_dir with
                         | Some p => p | None => "" end)
                        (match shot2 with Some p => p | None => "" end))
                     w9)
                  shot2
            end
      end
  end.

(** The branch taken when the plan is the marker of completion. *)
Definition finish (cfg : Config) (env : Env) (instruction : string)
           (step : nat) (planning_result : option Agents.PlannerOutput)
           (w : World) : World :=
  let w1 := write_thought planning_result w in
  let w2 :=
    if enable_task_judge cfg then run_task_judge env (S step) w1 else w1 in
  save_final_results cfg env instruction (JFloat 0 0) w2.

(** The part of an iteration up to the check for completion: the state
    at the check, with the screenshot and the planner's answer, or the
    way the iteration ended before it. *)
Inductive Before :=
| AtCheck (w : World) (local_image_dir : option string)
          (planning_result : option Agents.PlannerOutput)
| Ended (f : Flow).

Definition up_to_check (cfg : Config) (env : Env) (instruction : string)
           (step : nat) (w : World) (local_image_dir2 : option string)
  : Before :=
  let w1 := with_st State.reset_current_step_completed_subgoal w in
  let '(local_image_dir, w2) :=
    if step =? 0 then take_screenshot cfg env w1
    else (local_image_dir2, w1) in
  let lid2 := local_image_dir2 in
  if negb (path_given local_image_dir) then
    Ended (Stop (ScreenshotFailedAt step)
                (go_home cfg
                   (save_final_results cfg env instruction (JFloat 1 0) w2)))
  else
    match size_of_image env step
            (match local_image_dir with Some p => p | None => "" end) with
    | None => Ended (Continue w2 lid2)
    | Some _ =>
        let w3 :=
          with_st (fun s =>
                     State.set_error_flag_plan
                       (State.check_error_threshold s) s) w2 in
        let skip_planner :=
          negb (State.get_error_flag_plan (st w3))
          && Json.truthy (State.get_last_action (st w3))
          && Json.is_str "invalid"
               (match Json.get "action" (State.get_last_action (st w3)) with
                | Some a => a | None => None end) in
        if skip_planner then AtCheck w3 local_image_dir None
        else
          let w4 := called "planner" step w3 in
          let '(r, st') := PlanningChain.run (planning env step) (st w4) in
          let w5 :=
            accumulate_tokens "planner"
              (PlanningChain.planner_usage (planning env step))
              (with_st (fun _ => st') w4) in
          AtCheck (save_step_message (S step) "planner" w5)
                  local_image_dir (Some r)
    end.

(** One iteration of the loop of [run]. *)
Definition iteration (cfg : Config) (env : Env) (instruction : string)
           (step : nat) (w : World) (local_image_dir2 : option string)
  : Flow :=
  match up_to_check cfg env instruction step w local_image_dir2 with
  | Ended f => f
  | AtCheck w1 local_image_dir planning_result =>
      if is_finished (State.get_plan (st w1)) then
        Stop (FinishedAt step)
             (finish cfg env instruction step planning_result w1)
      else
        act_and_reflect cfg env instruction step local_image_dir
          local_image_dir2 w1
  end.

(** [for step in range(max_step)], [n] iterations left from [step]. *)
Fixpoint loop (cfg : Config) (env : Env) (instruction : string)
         (n step : nat) (w : World) (local_image_dir2 : option string)
  : Exit * World :=
  match n with
  | O => (Exhausted, w)
  | S n' =>
      match iteration cfg env instruction step w local_image_dir2 with
      | Stop e w' => (e, w')
      | Continue w' lid2 => loop cfg env instruction n' (S step) w' lid2
      end
  end.

(** What follows the loop when it ended or was broken out of. *)
Definition after_loop (cfg : Config) (env : Env) (instruction : string)
           (w : World) : World :=
  go_home cfg
    (match task_results w with
     | None => save_final_results cfg env instruction (JFloat 1 0) w
     | Some _ => w
     end).

(** The run from the iteration [step] on, [n] iterations being left. *)
Definition run_from (cfg : Config) (env : Env) (instruction : string)
           (n step : nat) (w : World) (local_image_dir2 : option string)
  : Exit * World :=
  match loop cfg env instruction n step w local_image_dir2 with
  | (Exhausted, w') => (Exhausted, after_loop cfg env instruction w')
  | (FinishedAt k, w') => (FinishedAt k, after_loop cfg env instruction w')
  | other => other
  end.

Definition INPUT_KNOW : string :=
  JsonText.q "If you have activated an input field, you will see 'ADB Keyboard {on}' at the bottom of the screen. This phone does not display a soft keyboard. Therefore, if you see 'ADB Keyboard {on}', you can input directly; otherwise, you need to click the correct input field first to activate it before inputting.".

(** [run(instruction, max_step)]. *)
Definition run (cfg : Config) (env : Env) (instruction : string)
           (max_step : nat) (w : World) : Exit * World :=
  let w1 :=
    with_st (fun s =>
               State.set_perception_mode (perception_mode cfg)
                 (State.set_additional_knowledge "" INPUT_KNOW
                    (State.set_instruction instruction s))) w in
  run_from cfg env instruction max_step 0 w1 None.

(** The world of a run that starts in a new directory. *)
Definition fresh (cfg : Config) (som_imports_ok : bool) : World :=
  {| st := State.initial;
     svc := ActionService.initial;
     shot := ScreenshotService.init (perception_mode cfg) som_imports_ok;
     task_results := None;
     step_files := [];
     token_usage_by_role := [];
     shots_taken := 0;
     llm_calls := [] |}.

(** The value of a key of [task_results.json]. *)
Definition reported (key : string) (w : World) : option json :=
  match task_results w with
  | Some d => Dict.get key d
  | None => None
  end.

End Orchestrator.

(* ================================================================= *)
(** ** The job service ([web/server.py])

    A job of the store is followed through the steps that change it.  Each
    step is one critical section of [job_store] and [RUNNING_PROCS]; the
    order in which the steps of the handler of [/stop] and of the worker
    interleave is given from outside. *)

Module JobService.

Record Job := {
  status : string;
  error : option string;
  started : bool;
  finished : bool;
  (** the job has a process in [RUNNING_PROCS] *)
  has_proc : bool;
  (** the job waits in [task_queue] *)
  in_queue : bool
}.

(** [api_run]: the job is created and put on the queue. *)
Definition submitted : Job :=
  {| status := "queued"; error := None; started := false;
     finished := false; has_proc := false; in_queue := true |}.

Definition is_terminal (s : string) : bool :=
  existsb (String.eqb s) ["success"; "failed"; "stopped"].

Definition or_msg (e : option string) (msg : string) : option string :=
  match e with
  | Some x => if PyStr.truthy x then Some x else Some msg
  | None => Some msg
  end.

(** [api_stop]: nothing for a job that is over; else the process, when
    there is one, is terminated, and the job is marked stopped.  The job
    is not taken off the queue. *)
Definition api_stop (j : Job) : Job :=
  if is_terminal (status j) then j
  else if negb (has_proc j) then
    {| status := "stopped";
       error := or_msg (error j) "stopped without active process";
       started := started j; finished := true;
       has_proc := false; in_queue := in_queue j |}
  else
    {| status := "stopped";
       error := or_msg (error j) "stopped by user";
       started := started j; finished := true;
       has_proc := false; in_queue := in_queue j |}.

(** The first line of [run_job]. *)
Definition run_job_start (j : Job) : Job :=
  {| status := "running"; error := error j; started := true;
     finished := finished j; has_proc := has_proc j;
     in_queue := in_queue j |}.

(** The process is started and entered in [RUNNING_PROCS]. *)
Definition run_job_spawn (j : Job) : Job :=
  {| status := status j; error := error j; started := started j;
     finished := finished j; has_proc := true; in_queue := in_queue j |}.

(** The end of [run_job]: the process is forgotten, and the status is
    written unless the job was marked stopped.  [err] is the exception
    or the failure of the runner, if any. *)
Definition run_job_finalize (err : option string) (j : Job) : Job :=
  let failed := match err with
                | Some e => PyStr.truthy e
                | None => false
                end in
  {| status :=
       if String.eqb (status j) "stopped" then "stopped"
       else if failed then "failed" else "success";
     error := err; started := started j; finished := true;
     has_proc := false; in_queue := in_queue j |}.

(** The handler of the worker for an exception that leaves [run_job] or
    the check of the device. *)
Definition worker_exception (msg : string) (j : Job) : Job :=
  {| status := "failed"; error := Some msg; started := started j;
     finished := finished j; has_proc := has_proc j;
     in_queue := in_queue j |}.

(** What one turn of the worker meets. *)
Record Turn := {
  (** [ensure_connected] on the device that was acquired *)
  device_connected : bool;
  (** an exception of [run_job] before its [try] *)
  setup_exception : option string;
  (** the error caught inside the [try], or the failure of the runner *)
  run_error : option string;
  (** [/stop] is served while the process runs *)
  stopped_while_running : bool
}.

(** One turn of [worker_loop] on the job it took from the queue. *)
Definition worker_turn (t : Turn) (j : Job) : Job :=
  let j0 :=
    {| status := status j; error := error j; started := started j;
       finished := finished j; has_proc := has_proc j;
       in_queue := false |} in
  if negb (device_connected t) then
    worker_exception "Device is offline and could not be reconnected." j0
  else
    let j1 := run_job_start j0 in
    match setup_exception t with
    | Some e => worker_exception e j1
    | None =>
        let j2 := run_job_spawn j1 in
        let j3 := if stopped_while_running t then api_stop j2 else j2 in
        run_job_finalize (run_error t) j3
    end.

End JobService.

(* ================================================================= *)
(** * Properties *)

(* ----------------------------------------------------------------- *)
(** ** The state store *)

Lemma append_action_aligned a summary outcome err s :
  State.sequences_aligned s ->
  State.sequences_aligned (State.append_action a summary outcome err s).
Proof.
  unfold State.sequences_aligned; cbn.
  rewrite !length_app; cbn; lia.
Qed.

Lemma apply_keeps_aligned o s :
  State.sequences_aligned s -> State.sequences_aligned (State.apply o s).
Proof.
  destruct o; cbn [State.apply]; try (now apply append_action_aligned);
    unfold State.sequences_aligned; intros H; exact H.
Qed.

Lemma run_ops_keeps_aligned ops : forall s,
  State.sequences_aligned s -> State.sequences_aligned (State.run_ops ops s).
Proof.
  induction ops as [|o ops IH]; intros s H; cbn.
  - exact H.
  - apply IH, apply_keeps_aligned, H.
Qed.

Lemma initial_aligned : State.sequences_aligned State.initial.
Proof. repeat split. Qed.

(** C5.  The four execution sequences (action_history, summary_history,
    action_outcomes, error_descriptions) have one length in the state the
    store starts from; every operation of the store keeps them so; hence
    they have one length after every history of operations. *)
Theorem execution_sequences_equal_length :
  State.sequences_aligned State.initial /\
  (forall o s, State.sequences_aligned s ->
               State.sequences_aligned (State.apply o s)) /\
  (forall ops, State.sequences_aligned (State.run_ops ops State.initial)).
Proof.
  split; [exact initial_aligned|]. split.
  - intros o s; apply apply_keeps_aligned.
  - intros ops; apply run_ops_keeps_aligned, initial_aligned.
Qed.

Lemma execution_sequences_equal_length_witness :
  State.sequences_aligned
    (State.apply (State.OpAppendAction (JObj [("action", JStr "wait")])
                    "wait" "S" "None")
       (State.apply (State.OpSetPlan "1. open settings") State.initial)).
Proof.
  apply (proj1 (proj2 execution_sequences_equal_length)).
  apply (proj1 (proj2 execution_sequences_equal_length)).
  apply (proj1 execution_sequences_equal_length).
Defined.

(* ----------------------------------------------------------------- *)
(** ** The action service *)

(** Conversions that read the plain decimal literals of JSON. *)
Definition plain_python : PyNum.Builtins :=
  {| PyNum.float_of_str := fun s =>
       match JsonText.scan_number (PyStr.strip s) with
       | Some (n, EmptyString) =>
           match PyNum.value n with
           | Some v => PyNum.to_float v
           | None => None
           end
       | _ => None
       end;
     PyNum.int_of_str := fun s =>
       match JsonText.scan_number (PyStr.strip s) with
       | Some (JInt z, EmptyString) => Some z
       | _ => None
       end;
     PyNum.str_of_other := fun v =>
       match v with
       | JFloat m e => JsonText.float_repr m e
       | _ => EmptyString
       end |}.

Definition system_button (which : string) : json :=
  JObj [("action", JStr "system_button"); ("button", JStr which)].

Definition mark_reset (s : ActionService.Svc) : ActionService.Svc :=
  {| ActionService.som_mapping := ActionService.som_mapping s;
     ActionService.last_used_mark := None;
     ActionService.device_log := ActionService.device_log s |}.

(** Back and Home reach the device, and the command that was run is
    returned. *)
Lemma system_button_back_home py dev mode coor_type w h s :
  ActionService.execute_action py dev mode (system_button "Back") coor_type w h s
  = (Some (back dev),
     {| ActionService.som_mapping := ActionService.som_mapping s;
        ActionService.last_used_mark := None;
        ActionService.device_log := ActionService.device_log s ++ [DBack] |})
  /\
  ActionService.execute_action py dev mode (system_button "Home") coor_type w h s
  = (Some (home dev),
     {| ActionService.som_mapping := ActionService.som_mapping s;
        ActionService.last_used_mark := None;
        ActionService.device_log := ActionService.device_log s ++ [DHome] |}).
Proof. split; reflexivity. Qed.

(** C7.  The code at the input on which the claim fails: for the button
    Enter, [execute_action] sends nothing to the device and returns no
    command string, whatever the controller, the mode and the screen. *)
Theorem system_button_enter_not_dispatched py dev mode coor_type w h s :
  ActionService.execute_action py dev mode (system_button "Enter") coor_type w h s
  = (None, mark_reset s)
  /\ ActionService.device_log (mark_reset s) = ActionService.device_log s.
Proof. split; reflexivity. Qed.

Definition type_action (text : string) : json :=
  JObj [("action", JStr "type"); ("text", JStr text)].

(** The seven variants with harmless content come back as they went. *)
Lemma parse_after_serialize_examples :
  Forall (fun a => ActionService.parse_action_string (JsonText.dumps a) = Some a)
    [ JObj [("action", JStr "answer"); ("text", JStr "42 items")];
      JObj [("action", JStr "click"); ("coordinate", JArr [JInt 120; JInt 400])];
      JObj [("action", JStr "click"); ("coordinate", JStr "3")];
      type_action "hello world";
      JObj [("action", JStr "delete"); ("count", JInt 2)];
      JObj [("action", JStr "wait")];
      system_button "Back";
      JObj [("action", JStr "swipe"); ("coordinate", JArr [JInt 500; JInt 1200]);
            ("coordinate2", JArr [JInt 500; JInt 300]);
            ("duration", JFloat 2 0)];
      JObj [("action", JStr "swipe"); ("target", JStr "3");
            ("direction", JStr "up"); ("distance", JFloat 6 (-1))] ].
Proof. repeat constructor. Qed.

(** C9.  The code at the input on which the claim fails: the action that
    types the text [json] is serialized, and [parse_action_string] returns
    the action that types the empty text. *)
Theorem parse_after_serialize_loses_json :
  JsonText.dumps (type_action "json")
  = JsonText.q "{'action': 'type', 'text': 'json'}"
  /\ ActionService.parse_action_string (JsonText.dumps (type_action "json"))
     = Some (type_action "")
  /\ ActionService.parse_action_string (JsonText.dumps (type_action "json"))
     <> Some (type_action "json").
Proof. repeat split; try reflexivity. discriminate. Qed.

(** A text that holds a fence is lost in the same way, and a text that
    holds the word inside a longer one is cut. *)
Lemma parse_after_serialize_cuts :
  ActionService.parse_action_string (JsonText.dumps (type_action "a```b"))
  = Some (type_action "ab")
  /\ ActionService.parse_action_string
       (JsonText.dumps (type_action "open data.json"))
     = Some (type_action "open data.").
Proof. split; reflexivity. Qed.

(* ----------------------------------------------------------------- *)
(** ** The job service *)

(** The end of [run_job] leaves a stopped job stopped. *)
Lemma run_job_finalize_keeps_stopped err j :
  JobService.status j = "stopped" ->
  JobService.status (JobService.run_job_finalize err j) = "stopped".
Proof. intros H; cbn; rewrite H; reflexivity. Qed.

(** A stop that is served while the process runs wins over the end of the
    run, whatever the run reports. *)
Lemma stop_while_running_wins t j :
  JobService.device_connected t = true ->
  JobService.setup_exception t = None ->
  JobService.stopped_while_running t = true ->
  JobService.status (JobService.worker_turn t j) = "stopped".
Proof.
  intros Hc Hs Hr; unfold JobService.worker_turn; rewrite Hc, Hs, Hr; cbn.
  reflexivity.
Qed.

Definition offline_turn : JobService.Turn :=
  {| JobService.device_connected := false;
     JobService.setup_exception := None;
     JobService.run_error := None;
     JobService.stopped_while_running := false |}.

Definition quiet_turn : JobService.Turn :=
  {| JobService.device_connected := true;
     JobService.setup_exception := None;
     JobService.run_error := None;
     JobService.stopped_while_running := false |}.

(** C6.  The code at the input on which the claim fails: a job is
    stopped while it waits in the queue; it stays in the queue; when the
    worker takes it and the device is offline, the handler of the worker
    writes [failed] over [stopped]; when the device is there, the job
    runs and ends as [success]. *)
Theorem stopped_job_overwritten :
  JobService.status (JobService.api_stop JobService.submitted) = "stopped"
  /\ JobService.in_queue (JobService.api_stop JobService.submitted) = true
  /\ JobService.status
       (JobService.worker_turn offline_turn
          (JobService.api_stop JobService.submitted)) = "failed"
  /\ JobService.status
       (JobService.worker_turn quiet_turn
          (JobService.api_stop JobService.submitted)) = "success".
Proof. repeat split. Qed.

(* ----------------------------------------------------------------- *)
(** ** Floats: rounding to the nearest number *)

Section FloatFacts.
Local Open Scope Z_scope.

Lemma digits2_pos_bounds p :
  2 ^ (Zpos (digits2_pos p) - 1) <= Zpos p < 2 ^ Zpos (digits2_pos p).
Proof.
  induction p as [p IH|p IH|]; cbn [digits2_pos].
  - rewrite Pos2Z.inj_succ. replace (Z.succ (Zpos (digits2_pos p)) - 1)
      with (Z.succ (Zpos (digits2_pos p) - 1)) by lia.
    rewrite !Z.pow_succ_r by lia. lia.
  - rewrite Pos2Z.inj_succ. replace (Z.succ (Zpos (digits2_pos p)) - 1)
      with (Z.succ (Zpos (digits2_pos p) - 1)) by lia.
    rewrite !Z.pow_succ_r by lia. lia.
  - cbn. lia.
Qed.

Lemma Zdigits2_bounds m :
  0 < m -> 2 ^ (Zdigits2 m - 1) <= m < 2 ^ Zdigits2 m.
Proof.
  destruct m as [|p|p]; try lia. intros _. apply digits2_pos_bounds.
Qed.

Lemma Zdigits2_unique m d :
  0 < m -> 2 ^ (d - 1) <= m < 2 ^ d -> Zdigits2 m = d.
Proof.
  intros Hm Hd. pose proof (Zdigits2_bounds Hm) as Hb.
  assert (0 < Zdigits2 m) by (destruct m; cbn; lia).
  assert (0 < d).
  { destruct (Z.ltb_spec 0 d); [assumption|].
    assert (2 ^ d <= 1).
    { destruct (Z.eqb_spec d 0); [subst; cbn; lia|].
      rewrite Z.pow_neg_r by lia. lia. }
    lia. }
  destruct (Z.lt_trichotomy (Zdigits2 m) d) as [Hlt|[E|Hgt]]; [|exact E|].
  - assert (2 ^ Zdigits2 m <= 2 ^ (d - 1)) by (apply Z.pow_le_mono_r; lia). lia.
  - assert (2 ^ d <= 2 ^ (Zdigits2 m - 1)) by (apply Z.pow_le_mono_r; lia). lia.
Qed.

(** The shifted mantissa with its round and sticky bits, as the quotient
    of [N] by [D] and the place of the remainder. *)
Definition located (N D : Z) (mrs : shr_record) : Prop :=
  shr_m mrs = N / D
  /\ shr_r mrs = (D <=? 2 * (N mod D))
  /\ shr_s mrs = negb ((N mod D =? 0) || (2 * (N mod D) =? D)).

Lemma shr_1_nonneg m r s :
  0 <= m ->
  shr_1 {| shr_m := m; shr_r := r; shr_s := s |}
  = {| shr_m := m / 2; shr_r := Z.odd m; shr_s := r || s |}.
Proof.
  intros Hm. destruct m as [|p|p]; [reflexivity| |lia].
  destruct p as [p|p|]; cbn [shr_1].
  - f_equal. rewrite Pos2Z.inj_xI.
    apply Z.div_unique with (r := 1); lia.
  - f_equal. rewrite Pos2Z.inj_xO.
    apply Z.div_unique with (r := 0); lia.
  - reflexivity.
Qed.

Lemma located_shr_1 N D mrs :
  0 < D -> 0 <= N -> located N D mrs -> located N (D * 2) (shr_1 mrs).
Proof.
  intros HD HN (Hm & Hr & Hs). destruct mrs as [m r s]. cbn [shr_m shr_r shr_s] in Hm, Hr, Hs.
  assert (Hm0 : 0 <= m) by (subst m; apply Z.div_pos; lia).
  rewrite shr_1_nonneg by exact Hm0.
  pose proof (Z.mod_pos_bound N D HD) as Hrem.
  assert (Hmod : N mod (D * 2) = N mod D + D * (m mod 2)).
  { rewrite Z.rem_mul_r by lia. rewrite Hm. reflexivity. }
  assert (Hodd : m mod 2 = if Z.odd m then 1 else 0).
  { rewrite Zmod_odd. reflexivity. }
  unfold located; cbn [shr_m shr_r shr_s].
  split; [|split].
  - rewrite Hm. rewrite Z.div_div by lia. reflexivity.
  - rewrite Hmod, Hodd. destruct (Z.odd m).
    + symmetry. apply Z.leb_le. lia.
    + symmetry. apply Z.leb_gt. lia.
  - rewrite Hmod, Hodd, Hr, Hs.
    set (rem := N mod D) in *. clearbody rem.
    destruct (Z.odd m);
      repeat match goal with
             | |- context [Z.leb ?a ?b] => destruct (Z.leb_spec a b)
             | |- context [Z.eqb ?a ?b] => destruct (Z.eqb_spec a b)
             end; cbn [negb orb]; try reflexivity; exfalso; lia.
Qed.

Lemma located_iter_pos N p : forall D mrs,
  0 < D -> 0 <= N -> located N D mrs ->
  located N (D * 2 ^ Zpos p) (iter_pos shr_1 p mrs).
Proof.
  induction p as [p IH|p IH|]; intros D mrs HD HN H; cbn [iter_pos].
  - replace (D * 2 ^ Zpos p~1) with (D * 2 * 2 ^ Zpos p * 2 ^ Zpos p).
    + apply IH; [nia|lia|]. apply IH; [lia|lia|].
      apply located_shr_1; assumption.
    + replace (Zpos p~1) with (1 + Zpos p + Zpos p) by lia.
      rewrite !Z.pow_add_r by lia. rewrite Z.pow_1_r. ring.
  - replace (D * 2 ^ Zpos p~0) with (D * 2 ^ Zpos p * 2 ^ Zpos p).
    + assert (0 < 2 ^ Zpos p) by (apply Z.pow_pos_nonneg; lia).
      apply IH; [nia|lia|]. apply IH; assumption.
    + replace (Zpos p~0) with (Zpos p + Zpos p) by lia.
      rewrite Z.pow_add_r by lia. ring.
  - replace (D * 2 ^ 1) with (D * 2) by lia.
    apply located_shr_1; assumption.
Qed.

Lemma located_shr N D mrs e n :
  0 < D -> 0 <= N -> 0 <= n -> located N D mrs ->
  located N (D * 2 ^ n) (fst (shr mrs e n)) /\ snd (shr mrs e n) = e + n.
Proof.
  intros HD HN Hn H. destruct n as [|p|p]; [| |lia].
  - cbn. split; [|lia]. replace (D * 1) with D by lia. exact H.
  - cbn [shr fst snd]. split; [|reflexivity].
    apply located_iter_pos; assumption.
Qed.

Lemma located_loc m l :
  loc_of_shr_record (shr_record_of_loc m l) = l
  /\ shr_m (shr_record_of_loc m l) = m.
Proof. destruct l as [|[| |]]; split; reflexivity. Qed.

(** Rounding to nearest: the result is within half a unit of [N / D]. *)
Lemma round_nearest_even_located N D mrs :
  0 < D -> 0 <= N -> located N D mrs ->
  let mr := round_nearest_even (shr_m mrs) (loc_of_shr_record mrs) in
  (mr = N / D \/ mr = N / D + 1) /\ 2 * Z.abs (mr * D - N) <= D.
Proof.
  intros HD HN (Hm & Hr & Hs). destruct mrs as [m r s].
  cbn [shr_m shr_r shr_s] in Hm, Hr, Hs. cbv zeta. cbn [shr_m].
  pose proof (Z.mod_pos_bound N D HD) as Hrem.
  pose proof (Z.div_mod N D ltac:(lia)) as Hdm.
  rewrite <- Hm in *.
  destruct (Z.leb_spec D (2 * (N mod D))); subst r;
    destruct (Z.eqb_spec (N mod D) 0);
    destruct (Z.eqb_spec (2 * (N mod D)) D); subst s;
      cbn [negb orb loc_of_shr_record round_nearest_even];
      try destruct (Z.even m); (split; [auto|]); try nia; try (exfalso; lia).
Qed.

Lemma fexp_normal e : -1074 <= e - 53 -> fexp 53 1024 e = e - 53.
Proof. unfold fexp, emin. lia. Qed.

Lemma pow2_52 : 2 ^ 52 = 4503599627370496.
Proof. reflexivity. Qed.
Lemma pow2_53 : 2 ^ 53 = 9007199254740992.
Proof. reflexivity. Qed.

(** Rounding a located quotient with at least 53 digits, away from the
    subnormal range and from overflow: the result is a normal number
    within a relative distance of [2^-53] of the exact value. *)
Lemma binary_round_aux_normal sx mx ex lx N D :
  0 < D -> 0 <= N ->
  located N D (shr_record_of_loc mx lx) ->
  53 <= Zdigits2 mx ->
  -1074 <= Zdigits2 mx + ex - 53 ->
  Zdigits2 mx + ex <= 1023 ->
  exists m e,
    binary_round_aux 53 1024 sx mx ex lx = S754_finite sx m e
    /\ 2 ^ 52 <= Zpos m < 2 ^ 53
    /\ Zdigits2 mx + ex - 53 <= e <= Zdigits2 mx + ex - 52
    /\ 2 ^ 53 * Z.abs (Zpos m * D * 2 ^ (e - ex) - N) <= N.
Proof.
  intros HD HN Hloc Hd Hlo Hhi.
  assert (Hmx : mx = N / D).
  { destruct Hloc as (H & _). rewrite (proj2 (located_loc mx lx)) in H. exact H. }
  assert (Hmx0 : 0 < mx).
  { assert (0 <= mx) by (rewrite Hmx; apply Z.div_pos; lia).
    destruct mx; [cbn in Hd; lia|lia|lia]. }
  pose proof (Zdigits2_bounds Hmx0) as Hdig.
  set (d := Zdigits2 mx) in *.
  set (k0 := d - 53).
  assert (Hk0 : 0 <= k0) by (unfold k0; lia).
  assert (HP : 0 < 2 ^ k0) by (apply Z.pow_pos_nonneg; lia).
  assert (Hd1 : 2 ^ (d - 1) = 2 ^ 52 * 2 ^ k0).
  { rewrite <- Z.pow_add_r by lia. f_equal. unfold k0; lia. }
  assert (Hd2 : 2 ^ d = 2 ^ 53 * 2 ^ k0).
  { rewrite <- Z.pow_add_r by lia. f_equal. unfold k0; lia. }
  rewrite Hd1, Hd2 in Hdig. rewrite pow2_52, pow2_53 in *.
  unfold binary_round_aux, shr_fexp. fold d.
  rewrite fexp_normal by exact Hlo.
  replace (d + ex - 53 - ex) with k0 by (unfold k0; lia).
  destruct (@located_shr N D (shr_record_of_loc mx lx) ex k0 HD HN Hk0 Hloc)
    as (Hloc1 & He1).
  destruct (shr (shr_record_of_loc mx lx) ex k0) as [mrs1 e1].
  cbn [fst snd] in Hloc1, He1. subst e1.
  assert (HD1 : 0 < D * 2 ^ k0) by nia.
  destruct (@round_nearest_even_located N (D * 2 ^ k0) mrs1 HD1 HN Hloc1)
    as (Hmr & Hnear).
  set (mr := round_nearest_even (shr_m mrs1) (loc_of_shr_record mrs1)) in *.
  assert (Hm1 : N / (D * 2 ^ k0) = mx / 2 ^ k0).
  { rewrite Hmx. rewrite Z.div_div by lia. reflexivity. }
  assert (Hm1b : 4503599627370496 <= mx / 2 ^ k0 < 9007199254740992).
  { split.
    - apply Z.div_le_lower_bound; lia.
    - apply Z.div_lt_upper_bound; lia. }
  assert (HND : D * mx <= N).
  { rewrite Hmx. apply Z.mul_div_le. lia. }
  assert (Hbig : 4503599627370496 * (D * 2 ^ k0) <= N) by nia.
  assert (Hmrb : 4503599627370496 <= mr <= 9007199254740992) by lia.
  destruct (Z.eq_dec mr 9007199254740992) as [Ecarry|Hno].
  - (* the mantissa reached 2^53 *)
    rewrite Ecarry.
    change (Zdigits2 9007199254740992) with 54.
    rewrite fexp_normal by lia.
    replace (54 + (ex + k0) - 53 - (ex + k0)) with 1 by lia.
    cbn [shr_record_of_loc shr iter_pos shr_1 shr_m].
    assert (Hle : (ex + k0 + 1 <=? 1024 - 53) = true)
      by (apply Z.leb_le; unfold k0; lia).
    rewrite Hle.
    exists 4503599627370496%positive, (ex + k0 + 1).
    split; [reflexivity|]. split; [lia|]. split; [unfold k0; lia|].
    replace (ex + k0 + 1 - ex) with (k0 + 1) by lia.
    rewrite Z.pow_add_r by lia. rewrite Z.pow_1_r.
    rewrite Ecarry in Hnear.
    replace (Zpos 4503599627370496 * D * (2 ^ k0 * 2) - N)
      with (9007199254740992 * (D * 2 ^ k0) - N) by ring.
    lia.
  - assert (Hdmr : Zdigits2 mr = 53).
    { apply Zdigits2_unique; [lia|]. rewrite pow2_53.
      change (2 ^ (53 - 1)) with 4503599627370496. lia. }
    rewrite Hdmr. rewrite fexp_normal by lia.
    replace (53 + (ex + k0) - 53 - (ex + k0)) with 0 by lia.
    cbn [shr_record_of_loc shr shr_m].
    destruct mr as [|pm|pm] eqn:Emr; [lia| |lia].
    assert (Hle : (ex + k0 <=? 1024 - 53) = true)
      by (apply Z.leb_le; unfold k0; lia).
    rewrite Hle.
    exists pm, (ex + k0).
    split; [reflexivity|]. split; [lia|]. split; [unfold k0; lia|].
    replace (ex + k0 - ex) with k0 by lia.
    replace (Zpos pm * D * 2 ^ k0) with (Zpos pm * (D * 2 ^ k0)) by ring.
    lia.
Qed.

(** Nearness of a number to an exact value. *)





Lemma pow2_split ex k :
  0 <= k -> (2 ^ (ex + k) == 2 ^ ex * inject_Z (2 ^ k))%Q.
Proof.
  intros Hk. rewrite Qpower_plus by discriminate.
  rewrite Zpower_Qpower by exact Hk. reflexivity.
Qed.



(** The operations. *)

Definition normal (f : spec_float) (lo hi : Z) : Prop :=
  exists m e, f = S754_finite false m e
              /\ 2 ^ 52 <= Zpos m < 2 ^ 53 /\ lo <= e <= hi.




Lemma located_exact N : 0 <= N -> located N 1 (shr_record_of_loc N loc_Exact).
Proof.
  intros HN. unfold located. cbn [shr_record_of_loc shr_m shr_r shr_s].
  rewrite Z.div_1_r, Z.mod_1_r. repeat split.
Qed.


Lemma pos_iter_xO k : forall p, Zpos (Pos.iter xO p k) = Zpos p * 2 ^ Zpos k.
Proof.
  induction k as [|k IH] using Pos.peano_ind; intros p.
  - cbn. lia.
  - rewrite Pos.iter_succ. rewrite Pos2Z.inj_xO, IH, Pos2Z.inj_succ.
    rewrite Z.pow_succ_r by lia. ring.
Qed.

(** An integer below [2^53] is a number. *)
Lemma of_Z_spec p :
  Zpos p < 2 ^ 53 ->
  normal (Float64.of_Z (Zpos p)) (-52) 1
  /\ (Float64.to_Q (Float64.of_Z (Zpos p)) == inject_Z (Zpos p))%Q.
Proof.
  intros Hp.
  unfold Float64.of_Z, binary_normalize, binary_round,
    Float64.prec, Float64.emax.
  pose proof (digits2_pos_bounds p) as Hd.
  set (d := Zpos (digits2_pos p)) in *.
  assert (Hd' : 1 <= d <= 53).
  { split; [unfold d; lia|].
    destruct (Z.le_gt_cases d 53); [assumption|].
    assert (2 ^ 53 <= 2 ^ (d - 1)) by (apply Z.pow_le_mono_r; lia). lia. }
  replace (d + 0) with d by lia. rewrite fexp_normal by lia.
  assert (Hal : exists mz,
             shl_align p 0 (d - 53) = (mz, d - 53)
             /\ Zpos mz = Zpos p * 2 ^ (53 - d)).
  { unfold shl_align. replace (d - 53 - 0) with (d - 53) by lia.
    destruct (d - 53) as [|k|k] eqn:E; [| lia |].
    - exists p. split; [reflexivity|].
      replace (53 - d) with 0 by lia. lia.
    - exists (Pos.iter xO p k). split; [reflexivity|].
      rewrite pos_iter_xO. f_equal. f_equal. lia. }
  destruct Hal as (mz & -> & Hmz).
  assert (HP : 0 < 2 ^ (53 - d)) by (apply Z.pow_pos_nonneg; lia).
  assert (E1 : 2 ^ (d - 1) * 2 ^ (53 - d) = 2 ^ 52).
  { rewrite <- Z.pow_add_r by lia. f_equal. lia. }
  assert (E2 : 2 ^ d * 2 ^ (53 - d) = 2 ^ 53).
  { rewrite <- Z.pow_add_r by lia. f_equal. lia. }
  assert (Hmzb : 2 ^ 52 <= Zpos mz < 2 ^ 53) by nia.
  assert (Hdz : Zdigits2 (Zpos mz) = 53).
  { apply Zdigits2_unique; [lia|]. exact Hmzb. }
  destruct (@binary_round_aux_normal false (Zpos mz) (d - 53) loc_Exact
              (Zpos mz) 1)
    as (m & e & Hr & Hm & He & Hnear).
  - lia.
  - lia.
  - apply located_exact; lia.
  - rewrite Hdz; lia.
  - rewrite Hdz; lia.
  - rewrite Hdz; lia.
  - rewrite Hr. rewrite Hdz in He. split.
    + exists m, e. split; [reflexivity|]. split; [exact Hm|lia].
    + cbn [Float64.to_Q].
      assert (Hex : Zpos m * 2 ^ (e - (d - 53)) = Zpos mz).
      { change (2 ^ 53) with 9007199254740992 in *.
        replace (Zpos m * 1 * 2 ^ (e - (d - 53)))
          with (Zpos m * 2 ^ (e - (d - 53))) in Hnear by ring.
        lia. }
      replace e with ((d - 53) + (e - (d - 53))) at 1 by lia.
      rewrite pow2_split by lia.
      setoid_replace (inject_Z (Zpos m)
                      * (2 ^ (d - 53) * inject_Z (2 ^ (e - (d - 53)))))%Q
        with (inject_Z (Zpos m * 2 ^ (e - (d - 53))) * 2 ^ (d - 53))%Q
        by (rewrite inject_Z_mult; ring).
      rewrite Hex, Hmz. rewrite inject_Z_mult.
      replace (d - 53) with (- (53 - d)) by lia.
      rewrite Qpower_opp. rewrite Zpower_Qpower by lia.
      change (inject_Z 2) with 2%Q.
      assert (Hne : ~ (2 ^ (53 - d) == 0)%Q)
        by (apply Qpower_not_0; discriminate).
      set (P := (2 ^ (53 - d))%Q) in *. clearbody P.
      field. exact Hne.
Qed.


Local Open Scope Q_scope.






Local Close Scope Q_scope.

Lemma of_Z_1000 :
  normal (Float64.of_Z 1000) (-52) 1
  /\ (Float64.to_Q (Float64.of_Z 1000) == 1000)%Q.
Proof. apply (@of_Z_spec 1000). reflexivity. Qed.






End FloatFacts.

(* ----------------------------------------------------------------- *)
(** ** The coordinate mapper *)



(** C8, the claim as it is worded.  Without a bound on the screen the
    pair that comes back can lie outside the screen: on a width of
    [2^54] the last pixel goes to the end of the grid, 1000, and comes
    back as [2^54], one beyond itself. *)
Lemma coordinate_round_trip_leaves_wide_screen :
  CoordinateService.convert_to_relative [2 ^ 54 - 1; 0]%Z (2 ^ 54) 1
  = Some [1000; 0]%Z
  /\ CoordinateService.convert_coordinate [1000; 0]%Z (2 ^ 54) 1
     = Some [2 ^ 54; 0]%Z
  /\ (2 ^ 54 - 1 < 2 ^ 54)%Z.
Proof. split; [|split]; vm_compute; reflexivity. Qed.

(** The pixel itself need not come back.  On a screen 2400 pixels high
    the rows 0, 1 and 2 share the grid step 0; and the column 126 of a
    width of 720, which is the grid step 175 exactly, comes back as 125,
    for the rounding of the quotients. *)
Lemma coordinate_round_trip_not_exact :
  CoordinateService.convert_to_relative [14; 2]%Z 1080 2400
  = Some [12; 0]%Z
  /\ CoordinateService.convert_coordinate [12; 0]%Z 1080 2400
     = Some [12; 0]%Z
  /\ CoordinateService.convert_to_relative [126; 0]%Z 720 1
     = Some [175; 0]%Z
  /\ CoordinateService.convert_coordinate [175; 0]%Z 720 1
     = Some [125; 0]%Z.
Proof. repeat split; vm_compute; reflexivity. Qed.

(* ----------------------------------------------------------------- *)
(** ** The screenshot service *)

Section Screenshot.
Import ScreenshotService.

Variable c : Call.
Variable s : Shot.

Definition attempt_ok (i : nat) : bool := device_ok c i && file_exists c i.

(** The retry loop stops at the first attempt that succeeds. *)
Lemma attempts_from_first_success i : forall n a,
  i < n ->
  (forall j, j < i -> attempt_ok (a + j) = false) ->
  attempt_ok (a + i) = true ->
  attempts_from n a c s
  = if String.eqb (perception_mode s) "som" && som_service s
    then process_som c s
    else (Some (screenshot_path c), s).
Proof.
  induction i as [|i IH]; intros n a Hn Hfail Hok.
  - destruct n as [|n]; [lia|]. cbn.
    rewrite Nat.add_0_r in Hok. unfold attempt_ok in Hok. rewrite Hok.
    reflexivity.
  - destruct n as [|n]; [lia|]. cbn.
    assert (H0 : attempt_ok (a + 0) = false) by (apply Hfail; lia).
    rewrite Nat.add_0_r in H0. unfold attempt_ok in H0. rewrite H0.
    apply IH.
    + lia.
    + intros j Hj. replace (S a + j) with (a + S j) by lia.
      apply Hfail; lia.
    + replace (S a + i) with (a + S i) by lia. exact Hok.
Qed.

(** Without the dump, or when the mark engine raises, [_process_som]
    hands back the raw path and leaves the service as it was. *)
Lemma process_som_fallback :
  xml_exists c = false \/ process_screenshot c = None ->
  process_som c s = (Some (screenshot_path c), s).
Proof.
  unfold process_som. intros [H|H].
  - rewrite H; reflexivity.
  - rewrite H. destruct (xml_exists c); reflexivity.
Qed.
End Screenshot.

(** C10.  In [som] mode with the mark engine set up, when an attempt of
    the retry loop gets the screenshot (the driver reports success and the
    file is there) but the UI-hierarchy dump is absent or the mark engine
    raises, [take_screenshot] returns the path of the raw screenshot, not
    [None], and the service, with the mapping it stored before, is
    unchanged. *)
Theorem take_screenshot_som_fallback
        (c : ScreenshotService.Call) (s : ScreenshotService.Shot)
        (retry_count i : nat) :
  ScreenshotService.perception_mode s = "som" ->
  ScreenshotService.som_service s = true ->
  i < retry_count ->
  (forall j, j < i -> attempt_ok c j = false) ->
  attempt_ok c i = true ->
  ScreenshotService.xml_exists c = false
  \/ ScreenshotService.process_screenshot c = None ->
  ScreenshotService.take_screenshot retry_count c s
  = (Some (ScreenshotService.screenshot_path c), s)
  /\ ScreenshotService.get_som_mapping
       (snd (ScreenshotService.take_screenshot retry_count c s))
     = ScreenshotService.get_som_mapping s.
Proof.
  intros Hmode Hsvc Hi Hfail Hok Hbad.
  assert (E : ScreenshotService.take_screenshot retry_count c s
              = (Some (ScreenshotService.screenshot_path c), s)).
  { unfold ScreenshotService.take_screenshot.
    rewrite (@attempts_from_first_success c s i retry_count 0 Hi Hfail Hok).
    rewrite Hmode, Hsvc. cbn.
    apply process_som_fallback, Hbad. }
  split; [exact E|]. rewrite E; reflexivity.
Qed.

Definition stale_mapping : list (string * json) :=
  [("3", JObj [("center", JArr [JInt 120; JInt 400]);
               ("bounds", JArr [JArr [JInt 100; JInt 380];
                                JArr [JInt 200; JInt 420]]);
               ("node_type", JStr "clickable")])].

Definition shot_with_marks : ScreenshotService.Shot :=
  {| ScreenshotService.perception_mode := "som";
     ScreenshotService.som_service := true;
     ScreenshotService.current_som_mapping := stale_mapping |}.

(** The second attempt gets the image; the dump is missing. *)
Definition call_without_dump : ScreenshotService.Call :=
  {| ScreenshotService.screenshot_path := "images/screenshot_1.png";
     ScreenshotService.device_ok := fun i => 1 <=? i;
     ScreenshotService.file_exists := fun _ => true;
     ScreenshotService.xml_exists := false;
     ScreenshotService.process_screenshot := None |}.

Lemma take_screenshot_som_fallback_witness :
  ScreenshotService.take_screenshot 5 call_without_dump shot_with_marks
  = (Some "images/screenshot_1.png", shot_with_marks)
  /\ ScreenshotService.get_som_mapping
       (snd (ScreenshotService.take_screenshot 5 call_without_dump
               shot_with_marks))
     = stale_mapping.
Proof.
  apply (@take_screenshot_som_fallback call_without_dump shot_with_marks 5 1).
  - reflexivity.
  - reflexivity.
  - lia.
  - intros j Hj. assert (j = 0) by lia. subst j. reflexivity.
  - reflexivity.
  - left; reflexivity.
Defined.

(* ----------------------------------------------------------------- *)
(** ** The reflection chain *)

Lemma execution_after_planning_update f s :
  State.execution (State.with_planning f s) = State.execution s.
Proof. reflexivity. Qed.

Lemma execution_after_reflection_update f s :
  State.execution (State.with_reflection f s) = State.execution s.
Proof. reflexivity. Qed.

(** What a run of the chain that returns has done: the letter was read in
    the outcome text, the verdict is the one of the checker, and the final
    outcome is the last of the recorded outcomes. *)
Lemma reflection_run_inv cfg files ans before after step notetaker st out st' :
  ReflectionChain.run cfg files ans before after step notetaker st
  = Ok (out, st') ->
  let letter := ReflectionChain.llm_outcome out in
  let v :=
    if String.eqb letter "C" && ReflectionChain.enable_tree_stagnation_check cfg
    then Stagnation.confirm files (ReflectionChain.tree_similarity_threshold cfg)
           before after
    else Stagnation.nothing in
  ReflectionChain.outcome_letter (ReflectionChain.outcome out) = Some letter
  /\ ReflectionChain.outcome out
     = Agents.rf_outcome
         (Agents.reflector_parse (ReflectionChain.reflector_response ans))
  /\ ReflectionChain.tree_similarity out = Stagnation.similarity v
  /\ ReflectionChain.tree_confirmed out = Stagnation.confirmed v
  /\ ReflectionChain.final_outcome out
     = ReflectionChain.remap letter
         (ReflectionChain.enable_tree_stagnation_check cfg) v
  /\ ReflectionChain.action_outcome out = ReflectionChain.final_outcome out
  /\ State.action_outcomes (State.execution st')
     = (State.action_outcomes (State.execution st)
         ++ [ReflectionChain.final_outcome out])%list
  /\ State.action_history (State.execution st')
     = (State.action_history (State.execution st)
         ++ [State.last_action (State.execution st)])%list
  /\ State.summary_history (State.execution st')
     = (State.summary_history (State.execution st)
         ++ [State.last_summary (State.execution st)])%list
  /\ State.error_descriptions (State.execution st')
     = (State.error_descriptions (State.execution st)
         ++ [ReflectionChain.error_description out])%list.
Proof.
  unfold ReflectionChain.run.
  destruct (ReflectionChain.outcome_letter _) as [letter|] eqn:El;
    [|discriminate].
  intros H; injection H as Hout Hst; subst out st'; cbn.
  repeat split; try assumption;
    repeat match goal with
           | |- context [if ?b then _ else _] => destruct b
           end; reflexivity.
Qed.

(** The checker confirms exactly when the similarity reaches the
    threshold, and the similarity it reports is the share of the union of
    the two token sets that is common to both. *)
Lemma confirm_similarity files thr before after sim :
  Stagnation.similarity (Stagnation.confirm files thr before after) = Some sim ->
  Stagnation.confirmed (Stagnation.confirm files thr before after)
  = Some (Qle_bool thr sim)
  /\ exists b a bx ax,
       before = Some b /\ after = Some a
       /\ Stagnation.resolve_xml_path files b = Some bx
       /\ Stagnation.resolve_xml_path files a = Some ax
       /\ Stagnation.jaccard_similarity
            (Stagnation.extract_ui_tokens files bx)
            (Stagnation.extract_ui_tokens files ax) = Some sim.
Proof.
  unfold Stagnation.confirm.
  destruct before as [b|], after as [a|]; try discriminate.
  destruct (negb (PyStr.truthy b && PyStr.truthy a)); try discriminate.
  destruct (negb (Stagnation.xmltodict_available files)); try discriminate.
  destruct (Stagnation.resolve_xml_path files b) as [bx|] eqn:Eb;
    try discriminate.
  destruct (Stagnation.resolve_xml_path files a) as [ax|] eqn:Ea;
    try discriminate.
  destruct (Stagnation.extract_ui_tokens files bx) as [|tb lb] eqn:Etb;
    try discriminate.
  destruct (Stagnation.extract_ui_tokens files ax) as [|ta la] eqn:Eta;
    try discriminate.
  destruct (Stagnation.jaccard_similarity (tb :: lb) (ta :: la))
    as [sim'|] eqn:Ej; try discriminate.
  cbn. intros H; injection H as H; subst sim'.
  split; [reflexivity|].
  exists b, a, bx, ax. rewrite Eb, Ea, Etb, Eta. auto.
Qed.

(** C3.  For a run of the reflection chain that returns: the final
    outcome is the outcome that is recorded (appended to the outcomes of
    the state).  When the letter read from the reflector is C, the
    stagnation check is enabled and a similarity [sim] was computed, [sim]
    is the Jaccard similarity of the token sets of the two dumps, the final
    outcome is N if [threshold <= sim] (equality included) and S if
    [sim < threshold].  When the letter is S or B, the final outcome is
    that letter. *)
Theorem stagnation_check_decides_final_outcome
        cfg files ans before after step notetaker st out st' :
  ReflectionChain.run cfg files ans before after step notetaker st
  = Ok (out, st') ->
  State.action_outcomes (State.execution st')
  = (State.action_outcomes (State.execution st)
      ++ [ReflectionChain.final_outcome out])%list
  /\ (ReflectionChain.llm_outcome out = "C" ->
      ReflectionChain.enable_tree_stagnation_check cfg = true ->
      forall sim, ReflectionChain.tree_similarity out = Some sim ->
        (exists b a bx ax,
           before = Some b /\ after = Some a
           /\ Stagnation.resolve_xml_path files b = Some bx
           /\ Stagnation.resolve_xml_path files a = Some ax
           /\ Stagnation.jaccard_similarity
                (Stagnation.extract_ui_tokens files bx)
                (Stagnation.extract_ui_tokens files ax) = Some sim)
        /\ (Qle (ReflectionChain.tree_similarity_threshold cfg) sim ->
            ReflectionChain.final_outcome out = "N")
        /\ (Qlt sim (ReflectionChain.tree_similarity_threshold cfg) ->
            ReflectionChain.final_outcome out = "S"))
  /\ (ReflectionChain.llm_outcome out = "S"
      \/ ReflectionChain.llm_outcome out = "B" ->
      ReflectionChain.final_outcome out = ReflectionChain.llm_outcome out).
Proof.
  intros Hrun.
  destruct (reflection_run_inv _ _ _ _ _ _ _ _ Hrun)
    as (_ & _ & Hsim & Hconf & Hfinal & _ & Hrec & _).
  split; [exact Hrec|]. split.
  - intros HC Hen sim Hs.
    rewrite HC, Hen in Hsim, Hconf, Hfinal. cbn in Hsim, Hconf, Hfinal.
    rewrite Hs in Hsim. symmetry in Hsim.
    destruct (confirm_similarity _ _ _ _ Hsim) as (Hc & Hex).
    rewrite Hfinal. unfold ReflectionChain.remap. cbn. rewrite Hc.
    split; [exact Hex|]. split.
    + intros Hle. apply Qle_bool_iff in Hle. rewrite Hle. reflexivity.
    + intros Hlt.
      destruct (Qle_bool (ReflectionChain.tree_similarity_threshold cfg) sim)
        eqn:E; [|reflexivity].
      apply Qle_bool_iff in E. exfalso. exact (Qlt_not_le _ _ Hlt E).
  - intros [H|H]; rewrite Hfinal, H; reflexivity.
Qed.

Definition check_at_nine_tenths : ReflectionChain.Config :=
  {| ReflectionChain.has_path_summarizer := true;
     ReflectionChain.has_recorder := false;
     ReflectionChain.enable_tree_stagnation_check := true;
     ReflectionChain.tree_similarity_threshold := (9 # 10)%Q |}.

(** Ten nodes before the action, the first nine of them after it. *)
Definition nine_of_ten : Stagnation.Files :=
  {| Stagnation.xmltodict_available := true;
     Stagnation.resolve_xml_path := fun p => Some (p ++ ".xml");
     Stagnation.extract_ui_tokens := fun x =>
       if String.eqb x "before.png.xml"
       then ["a"; "b"; "c"; "d"; "e"; "f"; "g"; "h"; "i"; "j"]
       else ["a"; "b"; "c"; "d"; "e"; "f"; "g"; "h"; "i"] |}.

Definition reflector_says_no_change : ReflectionChain.Answers :=
  {| ReflectionChain.reflector_response :=
       "### Outcome ### C ### Error Description ### nothing moved";
     ReflectionChain.reflector_usage := None;
     ReflectionChain.summarizer_summary := "";
     ReflectionChain.summarizer_usage := None;
     ReflectionChain.recorder_notes := "";
     ReflectionChain.recorder_usage := None |}.

Lemma stagnation_check_decides_final_outcome_witness :
  exists out st',
    ReflectionChain.run check_at_nine_tenths nine_of_ten
      reflector_says_no_change (Some "before.png") (Some "after.png") 0 false
      State.initial = Ok (out, st')
    /\ ReflectionChain.llm_outcome out = "C"
    /\ ReflectionChain.tree_similarity out = Some (9 # 10)%Q
    /\ ReflectionChain.final_outcome out = "N"
    /\ State.action_outcomes (State.execution st') = ["N"].
Proof.
  eexists; eexists.
  split; [vm_compute; reflexivity|].
  split; [reflexivity|]. split; [reflexivity|].
  pose proof (@stagnation_check_decides_final_outcome
                check_at_nine_tenths nine_of_ten reflector_says_no_change
                (Some "before.png") (Some "after.png") 0 false State.initial
                _ _ eq_refl) as (Hrec & HC & _).
  split.
  - apply (HC eq_refl eq_refl (9 # 10)%Q eq_refl).
    cbn. unfold Qle; cbn; lia.
  - exact Hrec.
Defined.

(* ----------------------------------------------------------------- *)
(** ** The execution chain *)

Lemma load_mapping_keeps_log mode ans path shot svc :
  ActionService.device_log (ExecutionChain.load_mapping mode ans path shot svc)
  = ActionService.device_log svc.
Proof.
  unfold ExecutionChain.load_mapping.
  destruct path as [p|]; [|reflexivity].
  destruct (String.eqb mode "som" && PyStr.truthy p); [|reflexivity].
  destruct (ScreenshotService.get_som_mapping shot); [|reflexivity].
  destruct (ExecutionChain.get_mapping_path p); [|reflexivity].
  destruct (ExecutionChain.mapping_file ans _); reflexivity.
Qed.

(** A response without the Thought section has no thought, and one
    without the Action section has no action. *)
Lemma executor_parse_missing_section response :
  (PyStr.contains "### Thought ###" response = false ->
   Agents.ex_thought (Agents.executor_parse response) = "")
  /\ (PyStr.contains "### Action ###" response = false ->
      Agents.ex_action (Agents.executor_parse response) = "").
Proof.
  unfold Agents.executor_parse. split; intros H.
  - rewrite H; reflexivity.
  - rewrite H. destruct (PyStr.contains "### Thought ###" response); reflexivity.
Qed.

(** C4.  When the response of the executor lacks the Thought section or
    the Action section, or when [parse_action_string] returns [None] on
    its Action text, the execution chain returns normally, without an
    action object; it has appended the pseudo-action [{"action":
    "invalid"}] to the action history with the outcome N and the error
    description "invalid action format, do nothing.", has made it the last
    action, and has sent nothing to the device. *)
Theorem invalid_response_recorded
        py dev mode ans path coor_type first shot st svc :
  let response := ExecutionChain.executor_response ans in
  PyStr.contains "### Thought ###" response = false
  \/ PyStr.contains "### Action ###" response = false
  \/ ActionService.parse_action_string
       (Agents.ex_action (Agents.executor_parse response)) = None ->
  exists out st' svc',
    ExecutionChain.run py dev mode ans path coor_type first shot st svc
    = Ok (out, st', svc')
    /\ ExecutionChain.action_object out = None
    /\ ExecutionChain.command_str out = None
    /\ State.action_history (State.execution st')
       = (State.action_history (State.execution st)
            ++ [ExecutionChain.invalid_action])%list
    /\ State.action_outcomes (State.execution st')
       = (State.action_outcomes (State.execution st) ++ ["N"])%list
    /\ State.error_descriptions (State.execution st')
       = (State.error_descriptions (State.execution st)
            ++ ["invalid action format, do nothing."])%list
    /\ State.summary_history (State.execution st')
       = (State.summary_history (State.execution st)
            ++ [Agents.ex_description (Agents.executor_parse response)])%list
    /\ State.last_action (State.execution st') = ExecutionChain.invalid_action
    /\ ActionService.device_log svc' = ActionService.device_log svc.
Proof.
  intros response H.
  destruct (executor_parse_missing_section response) as (Hth & Hac).
  unfold ExecutionChain.run. fold response.
  assert (Hcases :
            negb (PyStr.truthy (Agents.ex_thought (Agents.executor_parse response)))
            || negb (PyStr.truthy (Agents.ex_action (Agents.executor_parse response)))
            = true
            \/ ActionService.parse_action_string
                 (Agents.ex_action (Agents.executor_parse response)) = None).
  { destruct H as [H|[H|H]].
    - left. rewrite (Hth H). reflexivity.
    - left. rewrite (Hac H). apply orb_true_r.
    - right. exact H. }
  destruct (negb (PyStr.truthy (Agents.ex_thought (Agents.executor_parse response)))
            || negb (PyStr.truthy (Agents.ex_action (Agents.executor_parse response))))
    eqn:Efmt.
  - eexists; eexists; eexists. split; [reflexivity|].
    cbn. rewrite load_mapping_keeps_log. repeat split; reflexivity.
  - destruct Hcases as [Hc|Hc]; [discriminate|]. rewrite Hc.
    eexists; eexists; eexists. split; [reflexivity|].
    cbn. rewrite load_mapping_keeps_log. repeat split; reflexivity.
Qed.

Definition android_like : DeviceController :=
  {| tap := fun _ _ => Some "adb shell input tap";
     type_text := fun _ => Some "adb shell input text";
     delete := fun _ => Some "adb shell input keyevent 67";
     slide := fun _ _ _ _ _ => Some "adb shell input swipe";
     drag := fun _ _ _ _ _ => Some "adb shell input draganddrop";
     back := "adb shell input keyevent 4";
     home := "adb shell am start -a android.intent.action.MAIN -c android.intent.category.HOME" |}.

(** The executor answers with an action that is not JSON. *)
Definition executor_says_nonsense : ExecutionChain.Answers :=
  {| ExecutionChain.executor_response :=
       "### Thought ### tap the button ### Action ### click(3) ### Description ### tap";
     ExecutionChain.executor_usage := None;
     ExecutionChain.image_size := fun _ => Some (1080, 2400)%Z;
     ExecutionChain.mapping_file := fun _ => None |}.

Lemma invalid_response_recorded_witness :
  exists out st' svc',
    ExecutionChain.run plain_python android_like "vllm"
      executor_says_nonsense
      (Some "images/s.png") "abs" true
      (ScreenshotService.init "vllm" true) State.initial ActionService.initial
    = Ok (out, st', svc')
    /\ ExecutionChain.action_object out = None
    /\ ExecutionChain.command_str out = None
    /\ State.action_history (State.execution st')
       = [ExecutionChain.invalid_action]
    /\ State.action_outcomes (State.execution st') = ["N"]
    /\ State.error_descriptions (State.execution st')
       = ["invalid action format, do nothing."]
    /\ State.summary_history (State.execution st') = ["tap"]
    /\ State.last_action (State.execution st') = ExecutionChain.invalid_action
    /\ ActionService.device_log svc' = [].
Proof.
  apply (@invalid_response_recorded plain_python android_like "vllm"
           executor_says_nonsense
           (Some "images/s.png") "abs" true
           (ScreenshotService.init "vllm" true) State.initial
           ActionService.initial).
  right; right. vm_compute. reflexivity.
Defined.

(* ----------------------------------------------------------------- *)
(** ** Dictionaries *)

Lemma get_set (V : Type) k k' (v : V) d :
  Dict.get k (Dict.set k' v d)
  = if String.eqb k k' then Some v else Dict.get k d.
Proof.
  induction d as [|[k0 v0] d IH]; cbn.
  - destruct (String.eqb k k') eqn:E; reflexivity.
  - destruct (String.eqb k' k0) eqn:E0; cbn.
    + destruct (String.eqb k k0) eqn:E1.
      * apply String.eqb_eq in E0, E1. subst. rewrite String.eqb_refl.
        reflexivity.
      * destruct (String.eqb k k') eqn:E2; [|reflexivity].
        apply String.eqb_eq in E0, E2. subst. rewrite String.eqb_refl in E1.
        discriminate.
    + destruct (String.eqb k k0) eqn:E1.
      * destruct (String.eqb k k') eqn:E2; [|reflexivity].
        apply String.eqb_eq in E1, E2. subst. rewrite String.eqb_refl in E0.
        discriminate.
      * exact IH.
Qed.

Lemma get_pop_other (V : Type) k k' (d : Dict.t V) :
  String.eqb k k' = false -> Dict.get k (Dict.pop k' d) = Dict.get k d.
Proof.
  intros Hk. induction d as [|[k0 v0] d IH]; cbn; [reflexivity|].
  destruct (String.eqb k' k0) eqn:E0; cbn.
  - destruct (String.eqb k k0) eqn:E1; [|reflexivity].
    apply String.eqb_eq in E0, E1. subst. rewrite String.eqb_refl in Hk.
    discriminate.
  - destruct (String.eqb k k0); [reflexivity|exact IH].
Qed.

(* ----------------------------------------------------------------- *)
(** ** The orchestrator *)

(** Looking a key up in a dictionary built by assignments and removals
    whose keys are known. *)
Ltac dict_lookup :=
  repeat first
    [ rewrite get_set; cbn [String.eqb Ascii.eqb Bool.eqb]
    | rewrite get_pop_other by reflexivity ].

(** What [save_task_results] leaves in [task_results.json]. *)
Lemma save_task_results_reports cfg env goal step_limit status report w :
  let w' :=
    Orchestrator.save_task_results cfg env goal step_limit status report w in
  Orchestrator.reported "step_limit" w' = Some step_limit
  /\ Orchestrator.reported "task_status" w' = Some (JStr status)
  /\ Orchestrator.reported "test_status_report" w' = Some report.
Proof.
  unfold Orchestrator.save_task_results, Orchestrator.reported,
    Orchestrator.with_task_results.
  cbn [Orchestrator.task_results].
  unfold Dict.update; cbn [fold_left fst snd].
  destruct (Orchestrator.output_zh cfg); repeat split; dict_lookup;
    reflexivity.
Qed.

(** What [_save_final_results] leaves in [task_results.json]. *)
Lemma save_final_results_reports cfg env instruction step_limit w :
  let w' := Orchestrator.save_final_results cfg env instruction step_limit w in
  Orchestrator.reported "step_limit" w' = Some step_limit
  /\ Orchestrator.reported "task_status" w'
     = Some (JStr (if Json.truthy step_limit
                   then "Not Completed" else "Completed"))
  /\ (Orchestrator.task_results w = None ->
      Orchestrator.reported "test_status_report" w'
      = Some (JStr (if Json.truthy step_limit
                    then "Reached maximum execution limit"
                    else "Finished within step limit")))
  /\ Orchestrator.st w' = Orchestrator.st w
  /\ Orchestrator.svc w' = Orchestrator.svc w
  /\ Orchestrator.llm_calls w' = Orchestrator.llm_calls w
  /\ Orchestrator.task_results w' <> None.
Proof.
  unfold Orchestrator.save_final_results.
  match goal with
  | |- context [Orchestrator.save_task_results ?c ?e ?g ?sl ?ts ?r ?w0] =>
      destruct (save_task_results_reports c e g sl ts r w0) as (H1 & H2 & H3)
  end.
  cbv zeta. split; [exact H1|]. split; [exact H2|]. split.
  - intros Hnone. rewrite H3. rewrite Hnone. cbn.
    destruct (Json.truthy step_limit); reflexivity.
  - repeat split. discriminate.
Qed.

(** The steps of an iteration that leave [task_results.json] alone. *)
Lemma accumulate_tokens_keeps role usage w :
  Orchestrator.task_results (Orchestrator.accumulate_tokens role usage w)
  = Orchestrator.task_results w
  /\ Orchestrator.st (Orchestrator.accumulate_tokens role usage w)
     = Orchestrator.st w
  /\ Orchestrator.svc (Orchestrator.accumulate_tokens role usage w)
     = Orchestrator.svc w
  /\ Orchestrator.llm_calls (Orchestrator.accumulate_tokens role usage w)
     = Orchestrator.llm_calls w
  /\ Orchestrator.shot (Orchestrator.accumulate_tokens role usage w)
     = Orchestrator.shot w.
Proof. destruct usage; repeat split. Qed.







(** While an iteration continues, the run goes on from the next step. *)
Lemma run_from_continue cfg env instruction n step w lid2 w' l :
  Orchestrator.iteration cfg env instruction step w lid2
  = Orchestrator.Continue w' l ->
  Orchestrator.run_from cfg env instruction (S n) step w lid2
  = Orchestrator.run_from cfg env instruction n (S step) w' l.
Proof.
  intros H. unfold Orchestrator.run_from. cbn. rewrite H. reflexivity.
Qed.

(** What the branch of completion does to the world. *)
Lemma finish_effect cfg env instruction step pr w :
  let w' := Orchestrator.finish cfg env instruction step pr w in
  Orchestrator.reported "task_status" w' = Some (JStr "Completed")
  /\ Orchestrator.reported "step_limit" w' = Some (JFloat 0 0)
  /\ Orchestrator.task_results w' <> None
  /\ Orchestrator.st w' = Orchestrator.st w
  /\ Orchestrator.svc w' = Orchestrator.svc w
  /\ Orchestrator.llm_calls w'
     = (Orchestrator.llm_calls w
          ++ if Orchestrator.enable_task_judge cfg
             then [("task_judge", step)] else [])%list.
Proof.
  unfold Orchestrator.finish.
  match goal with
  | |- context [Orchestrator.save_final_results ?c ?e ?i ?sl ?w0] =>
      destruct (save_final_results_reports c e i sl w0)
        as (H1 & H2 & _ & H4 & H5 & H6 & H7)
  end.
  cbv zeta. split; [exact H2|]. split; [exact H1|]. split; [exact H7|].
  rewrite H4, H5, H6.
  unfold Orchestrator.write_thought, Orchestrator.run_task_judge.
  destruct (PyStr.truthy _); destruct (Orchestrator.enable_task_judge cfg);
    cbn; rewrite ?(proj1 (proj2 (accumulate_tokens_keeps _ _ _))),
           ?(proj1 (proj2 (proj2 (accumulate_tokens_keeps _ _ _)))),
           ?(proj1 (proj2 (proj2 (proj2 (accumulate_tokens_keeps _ _ _)))));
    cbn; rewrite ?Nat.sub_0_r, ?app_nil_r; repeat split.
Qed.

(** C1.  In any iteration of the loop, when the check for completion is
    reached and the plan, trimmed, contains "Finished" and has fewer than
    15 characters, the loop is left at that step: the executor is not
    invoked (the language model is only asked for the judge when the judge
    is enabled; the state store is as at the check; the device only
    receives the final Home), and the run ends with [task_results.json]
    reporting task_status "Completed" and step_limit 0.0. *)
Theorem finished_plan_ends_run
        cfg env instruction n step w lid2 wc lid pr :
  Orchestrator.up_to_check cfg env instruction step w lid2
  = Orchestrator.AtCheck wc lid pr ->
  Orchestrator.is_finished (State.get_plan (Orchestrator.st wc)) = true ->
  exists w',
    Orchestrator.run_from cfg env instruction (S n) step w lid2
    = (Orchestrator.FinishedAt step, w')
    /\ Orchestrator.reported "task_status" w' = Some (JStr "Completed")
    /\ Orchestrator.reported "step_limit" w' = Some (JFloat 0 0)
    /\ Orchestrator.llm_calls w'
       = (Orchestrator.llm_calls wc
            ++ if Orchestrator.enable_task_judge cfg
               then [("task_judge", step)] else [])%list
    /\ ~ In ("executor", step)
            (skipn (List.length (Orchestrator.llm_calls wc))
                   (Orchestrator.llm_calls w'))
    /\ Orchestrator.st w' = Orchestrator.st wc
    /\ ActionService.device_log (Orchestrator.svc w')
       = (ActionService.device_log (Orchestrator.svc wc) ++ [DHome])%list.
Proof.
  intros Hcheck Hfin.
  destruct (finish_effect cfg env instruction step pr wc)
    as (H1 & H2 & H3 & H4 & H5 & H6).
  set (wf := Orchestrator.finish cfg env instruction step pr wc) in *.
  exists (Orchestrator.go_home cfg wf).
  assert (Erun : Orchestrator.run_from cfg env instruction (S n) step w lid2
                 = (Orchestrator.FinishedAt step, Orchestrator.go_home cfg wf)).
  { unfold Orchestrator.run_from. cbn [Orchestrator.loop].
    unfold Orchestrator.iteration. rewrite Hcheck, Hfin.
    unfold Orchestrator.after_loop. fold wf.
    destruct (Orchestrator.task_results wf) eqn:E; [reflexivity|].
    contradiction. }
  split; [exact Erun|].
  split; [exact H1|]. split; [exact H2|]. split; [exact H6|].
  split.
  - cbn [Orchestrator.go_home Orchestrator.llm_calls]. rewrite H6.
    rewrite skipn_app, Nat.sub_diag, skipn_all, skipn_O. cbn.
    destruct (Orchestrator.enable_task_judge cfg); cbn.
    + intros [H|[]]. discriminate.
    + intros [].
  - split; [exact H4|].
    unfold Orchestrator.go_home. cbn [Orchestrator.svc]. rewrite H5.
    reflexivity.
Qed.

(* ----------------------------------------------------------------- *)
(** ** Two runs *)

Definition plain_config : Orchestrator.Config :=
  {| Orchestrator.dev := android_like;
     Orchestrator.coor_type := "abs";
     Orchestrator.enable_notetaker := false;
     Orchestrator.enable_task_judge := false;
     Orchestrator.perception_mode := "vllm";
     Orchestrator.enable_tree_stagnation_check := false;
     Orchestrator.tree_similarity_threshold := (9 # 10)%Q;
     Orchestrator.output_zh := false;
     Orchestrator.retry_count := 5 |}.

Definition screenshot_taken : ScreenshotService.Call :=
  {| ScreenshotService.screenshot_path := "images/screenshot.png";
     ScreenshotService.device_ok := fun _ => true;
     ScreenshotService.file_exists := fun _ => true;
     ScreenshotService.xml_exists := true;
     ScreenshotService.process_screenshot := None |}.

Definition executor_waits : ExecutionChain.Answers :=
  {| ExecutionChain.executor_response :=
       JsonText.q "### Thought ### the page loads ### Action ### {'action': 'wait'} ### Description ### wait";
     ExecutionChain.executor_usage := None;
     ExecutionChain.image_size := fun _ => Some (1080, 2400)%Z;
     ExecutionChain.mapping_file := fun _ => None |}.

Definition reflector_says_success : ReflectionChain.Answers :=
  {| ReflectionChain.reflector_response :=
       "### Outcome ### S ### Error Description ### None";
     ReflectionChain.reflector_usage := None;
     ReflectionChain.summarizer_summary := "";
     ReflectionChain.summarizer_usage := None;
     ReflectionChain.recorder_notes := "";
     ReflectionChain.recorder_usage := None |}.

Definition planner_says (response : string) : PlanningChain.Answers :=
  {| PlanningChain.planner_response := response;
     PlanningChain.planner_usage := None;
     PlanningChain.split_spaced := fun p => Agents.split ". " p;
     PlanningChain.split_bare := fun p => Agents.split "." p |}.

(** The surroundings of a run in which the planner gives [plans step] at
    each step. *)
Definition surroundings (plans : nat -> string) : Orchestrator.Env :=
  {| Orchestrator.python := plain_python;
     Orchestrator.screenshot_call := fun _ => screenshot_taken;
     Orchestrator.size_of_image := fun _ _ => Some (1080, 2400)%Z;
     Orchestrator.planning := fun step => planner_says (plans step);
     Orchestrator.execution := fun _ => executor_waits;
     Orchestrator.reflection := fun _ => reflector_says_success;
     Orchestrator.files := nine_of_ten;
     Orchestrator.judge_task_status := "Success";
     Orchestrator.judge_status_reason := "the home screen is shown";
     Orchestrator.judge_usage := None;
     Orchestrator.translate := fun s => s;
     Orchestrator.start_dtime := "2025-01-01 10:00:00.000000";
     Orchestrator.finish_dtime := "2025-01-01 10:05:00.000000" |}.

(** The planner is done at the third step. *)
Definition done_at_third : Orchestrator.Env :=
  surroundings (fun step =>
    if step <? 2
    then "### Thought ### go on ### Plan ### 1. Open settings 2. Go home"
    else "### Thought ### all done ### Plan ### Finished").

(** The planner is never done. *)
Definition never_done : Orchestrator.Env :=
  surroundings (fun _ =>
    "### Thought ### go on ### Plan ### 1. Find the hidden page").


(** The run directory of the run above, which has finished, given to a
    second run: [main.py] creates the directory of [--run_dir] with
    [exist_ok=True], and the [task_results.json] of the first run is
    there when the second one starts. *)
Definition reused_run_dir : Orchestrator.World :=
  Orchestrator.with_task_results
    (Orchestrator.task_results
       (snd (Orchestrator.run plain_config done_at_third
               "open settings and go home" 5
               (Orchestrator.fresh plain_config true))))
    (Orchestrator.fresh plain_config true).

(** C2.  The code at the input on which the claim fails: a run in a
    directory that holds the [task_results.json] of a run that finished.
    The loop performs its two steps, the plan never is the marker of
    completion and every screenshot succeeds; the test of line 370 finds
    the file and saves nothing, and the file goes on reporting
    "Completed" and step_limit 0.0. *)
Theorem budget_exhaustion_keeps_stale_results :
  Orchestrator.reported "task_status" reused_run_dir
  = Some (JStr "Completed")
  /\ exists w,
       Orchestrator.run plain_config never_done "find the hidden page" 2
         reused_run_dir
       = (Orchestrator.Exhausted, w)
       /\ State.action_outcomes (State.execution (Orchestrator.st w))
          = ["S"; "S"]
       /\ Orchestrator.reported "task_status" w = Some (JStr "Completed")
       /\ Orchestrator.reported "step_limit" w = Some (JFloat 0 0)
       /\ Orchestrator.reported "test_status_report" w
          <> Some (JStr "Reached maximum execution limit").
Proof.
  split; [vm_compute; reflexivity|].
  eexists. split; [vm_compute; reflexivity|].
  split; [vm_compute; reflexivity|].
  split; [vm_compute; reflexivity|].
  split; [vm_compute; reflexivity|].
  vm_compute. discriminate.
Qed.

Lemma finished_plan_ends_run_witness :
  exists w',
    Orchestrator.run plain_config done_at_third "open settings and go home" 5
      (Orchestrator.fresh plain_config true)
    = (Orchestrator.FinishedAt 2, w')
    /\ Orchestrator.reported "task_status" w' = Some (JStr "Completed")
    /\ Orchestrator.reported "step_limit" w' = Some (JFloat 0 0)
    /\ ~ In ("executor", 2) (skipn 7 (Orchestrator.llm_calls w')).
Proof.
  unfold Orchestrator.run.
  erewrite run_from_continue by (vm_compute; reflexivity).
  erewrite run_from_continue by (vm_compute; reflexivity).
  match goal with
  | |- exists w', Orchestrator.run_from ?c ?e ?i (S ?n) ?s ?w ?l = _ /\ _ =>
      edestruct (@finished_plan_ends_run c e i n s w l)
        as (w' & H0 & H1 & H2 & _ & H3 & _)
  end.
  - vm_compute; reflexivity.
  - vm_compute; reflexivity.
  - exists w'. repeat split; [exact H0|exact H1|exact H2|exact H3].
Defined.

(* ================================================================= *)
(** * Further properties of the code *)

(* ----------------------------------------------------------------- *)
(** ** The state store: the replan threshold *)

Lemma is_failure_spec o :
  State.is_failure o = true <-> o = "B" \/ o = "C" \/ o = "N".
Proof.
  unfold State.is_failure; cbn. rewrite !orb_true_iff, !String.eqb_eq.
  intuition congruence.
Qed.

Lemma filter_all (A : Type) (f : A -> bool) (l : list A) :
  List.length (filter f l) = List.length l <-> Forall (fun x => f x = true) l.
Proof.
  induction l as [|x l IH]; cbn.
  - split; [constructor|reflexivity].
  - destruct (f x) eqn:E; cbn.
    + split.
      * intros H. constructor; [exact E|]. apply IH. lia.
      * intros H. inversion H; subst. f_equal. apply IH. assumption.
    + split.
      * intros H. pose proof (filter_length_le f l). lia.
      * intros H. inversion H; subst. congruence.
Qed.

Lemma last_n_split (A : Type) (n : nat) (l : list A) :
  0 < n -> n <= List.length l ->
  l = (firstn (List.length l - n) l ++ State.last_n n l)%list
  /\ List.length (State.last_n n l) = n.
Proof.
  intros Hn Hle. unfold State.last_n. destruct n as [|n]; [lia|].
  split.
  - symmetry. apply firstn_skipn.
  - rewrite length_skipn. lia.
Qed.

(** X1.  With a positive threshold k, [check_error_threshold] answers
    true exactly when the recorded outcomes end with k outcomes that are
    all B, C or N. *)
Theorem check_error_threshold_spec s :
  0 < State.err_to_planner_thresh (State.planning s) ->
  (State.check_error_threshold s = true <->
   exists earlier recent,
     State.action_outcomes (State.execution s) = (earlier ++ recent)%list
     /\ List.length recent = State.err_to_planner_thresh (State.planning s)
     /\ forall o, In o recent -> o = "B" \/ o = "C" \/ o = "N").
Proof.
  intros Hk. unfold State.check_error_threshold.
  set (k := State.err_to_planner_thresh (State.planning s)) in *.
  set (l := State.action_outcomes (State.execution s)).
  destruct (k <=? List.length l) eqn:Ele.
  - apply Nat.leb_le in Ele.
    destruct (last_n_split l Hk Ele) as (Hsplit & Hlen).
    rewrite Nat.eqb_eq. split.
    + intros H. exists (firstn (List.length l - k) l), (State.last_n k l).
      split; [exact Hsplit|]. split; [exact Hlen|].
      rewrite <- Hlen in H at 2. apply filter_all in H.
      intros o Ho. apply is_failure_spec.
      rewrite Forall_forall in H. apply H, Ho.
    + intros (earlier & recent & Heq & Hrl & Hall).
      assert (Hrec : State.last_n k l = recent).
      { unfold State.last_n. destruct k as [|k']; [lia|].
        rewrite Heq, length_app, Hrl.
        replace (List.length earlier + S k' - S k') with
          (List.length earlier + 0) by lia.
        rewrite skipn_app, Nat.add_0_r, skipn_all.
        replace (List.length earlier - List.length earlier) with 0 by lia.
        reflexivity. }
      rewrite Hrec, <- Hrl. apply filter_all.
      apply Forall_forall. intros o Ho. apply is_failure_spec, Hall, Ho.
  - apply Nat.leb_gt in Ele. split; [discriminate|].
    intros (earlier & recent & Heq & Hrl & _).
    fold l in Heq. rewrite Heq, length_app in Ele. lia.
Qed.

Definition two_failures : State.MobileAgentState :=
  State.append_action (JObj [("action", JStr "invalid")]) "" "N" "bad"
    (State.append_action (JObj [("action", JStr "wait")]) "wait" "C" "same"
       (State.append_action (JObj [("action", JStr "wait")]) "wait" "S" "None"
          State.initial)).

Lemma check_error_threshold_spec_witness :
  State.check_error_threshold two_failures = true <->
  exists earlier recent,
    State.action_outcomes (State.execution two_failures)
    = (earlier ++ recent)%list
    /\ List.length recent = 2
    /\ forall o, In o recent -> o = "B" \/ o = "C" \/ o = "N".
Proof.
  apply (@check_error_threshold_spec two_failures). cbn. lia.
Defined.

(** X2.  With a positive threshold, an outcome that is none of B, C, N
    (a success) lowers the flag as soon as it is recorded, whatever came
    before. *)
Theorem success_clears_error_threshold a summary o err s :
  0 < State.err_to_planner_thresh (State.planning s) ->
  State.is_failure o = false ->
  State.check_error_threshold (State.append_action a summary o err s) = false.
Proof.
  intros Hk Ho.
  destruct (State.check_error_threshold
              (State.append_action a summary o err s)) eqn:E; [|reflexivity].
  apply check_error_threshold_spec in E; [|exact Hk].
  destruct E as (earlier & recent & Heq & Hlen & Hall).
  cbn in Heq, Hlen.
  destruct (exists_last (l := recent)) as (r' & x & Hr).
  { intros ->. cbn in Hlen. lia. }
  subst recent. rewrite app_assoc in Heq.
  apply app_inj_tail in Heq. destruct Heq as (_ & Hx). subst x.
  assert (Hf : State.is_failure o = true).
  { apply is_failure_spec, Hall, in_or_app. right. left. reflexivity. }
  congruence.
Qed.

Lemma success_clears_error_threshold_witness :
  State.check_error_threshold
    (State.append_action (JObj [("action", JStr "wait")]) "wait" "S" "None"
       two_failures) = false.
Proof.
  apply (@success_clears_error_threshold
           (JObj [("action", JStr "wait")]) "wait" "S" "None" two_failures).
  - cbn. lia.
  - reflexivity.
Defined.

(** X3.  [append_completed_subgoal] ignores the empty text and the four
    spellings of "no completed subgoal"; any other subgoal is appended, so
    that the former log, when it holds subgoals, is the beginning of the
    new log followed by a space and the subgoal; nothing but the two logs
    changes. *)
Theorem append_completed_subgoal_grows g s :
  let s' := State.append_completed_subgoal g s in
  let old := State.completed_plan (State.planning s) in
  ((g = "" \/ In g State.no_subgoal_sentinels) -> s' = s)
  /\ (g <> "" -> ~ In g State.no_subgoal_sentinels ->
      State.completed_plan (State.planning s')
      = (if PyStr.truthy old && negb (State.is_sentinel old)
         then old ++ " " ++ g else g)
      /\ State.plan (State.planning s') = State.plan (State.planning s)
      /\ State.execution s' = State.execution s
      /\ State.reflection s' = State.reflection s
      /\ State.task s' = State.task s).
Proof.
  cbv zeta. unfold State.append_completed_subgoal, State.with_planning.
  assert (Hsent : forall x, State.is_sentinel x = true
                            <-> In x State.no_subgoal_sentinels).
  { intros x. unfold State.is_sentinel. rewrite existsb_exists. split.
    - intros (y & Hy & E). apply String.eqb_eq in E. subst. exact Hy.
    - intros H. exists x. split; [exact H|apply String.eqb_refl]. }
  split.
  - intros [->|H].
    + cbn. destruct s as [t p e r]; destruct p; reflexivity.
    + apply Hsent in H. rewrite H, andb_false_r.
      destruct s as [t p e r]; destruct p; reflexivity.
  - intros Hne Hns.
    assert (E1 : PyStr.truthy g = true) by (destruct g; [congruence|reflexivity]).
    assert (E2 : State.is_sentinel g = false).
    { destruct (State.is_sentinel g) eqn:E; [|reflexivity].
      apply Hsent in E. contradiction. }
    rewrite E1, E2. cbn. repeat split.
Qed.

Lemma append_completed_subgoal_grows_witness :
  State.completed_plan
    (State.planning
       (State.append_completed_subgoal "2. Go home"
          (State.append_completed_subgoal "1. Open settings" State.initial)))
  = "1. Open settings 2. Go home".
Proof.
  apply (proj2 (@append_completed_subgoal_grows "2. Go home"
                  (State.append_completed_subgoal "1. Open settings"
                     State.initial))).
  - discriminate.
  - cbn. intuition discriminate.
Defined.

(* ----------------------------------------------------------------- *)
(** ** The action service: what reaches the device *)

Section ActionFacts.
Import ActionService.
Variable py : PyNum.Builtins.
Variable dev : DeviceController.
Variable mode : string.

(** A computation that sends nothing and keeps the mark map. *)
Definition silent {A} (m : M A) : Prop :=
  forall s, device_log (snd (m s)) = device_log s
            /\ som_mapping (snd (m s)) = som_mapping s.

(** A computation that sends at most one operation, and one only when it
    returns a command string. *)
Definition single (m : M (option string)) : Prop :=
  forall s,
    som_mapping (snd (m s)) = som_mapping s
    /\ (device_log (snd (m s)) = device_log s
        \/ exists op c,
             device_log (snd (m s)) = (device_log s ++ [op])%list
             /\ fst (m s) = Some (Some c)).

Lemma silent_ret A (a : A) : silent (ret a).
Proof. intros s; split; reflexivity. Qed.

Lemma silent_raise A : silent (@raise A).
Proof. intros s; split; reflexivity. Qed.

Lemma silent_lift A (o : option A) : silent (lift o).
Proof. destruct o; [apply silent_ret|apply silent_raise]. Qed.

Lemma silent_set_mark m : silent (set_mark m).
Proof. intros s; split; reflexivity. Qed.

Lemma silent_bind A B (m : M A) (k : A -> M B) :
  silent m -> (forall a, silent (k a)) -> silent (bind m k).
Proof.
  intros Hm Hk s. unfold bind. specialize (Hm s).
  destruct (m s) as [[a|] s1]; cbn in *.
  - destruct (Hk a s1) as (H1 & H2). destruct Hm as (H3 & H4).
    split; congruence.
  - exact Hm.
Qed.

Lemma single_of_silent (m : M (option string)) : silent m -> single m.
Proof. intros H s. destruct (H s) as (H1 & H2). split; [exact H2|left; exact H1]. Qed.

Lemma single_bind A (m : M A) (k : A -> M (option string)) :
  silent m -> (forall a, single (k a)) -> single (bind m k).
Proof.
  intros Hm Hk s. unfold bind. specialize (Hm s).
  destruct (m s) as [[a|] s1]; cbn in *.
  - destruct Hm as (H3 & H4). destruct (Hk a s1) as (H1 & H2).
    split; [congruence|].
    rewrite H3 in H2. exact H2.
  - destruct Hm as (H3 & H4). split; [exact H4|left; exact H3].
Qed.

Lemma single_send o cmd :
  single (bind (send o cmd) (fun c => ret (Some c))).
Proof.
  intros s. unfold bind, send, ret. destruct cmd as [c|]; cbn.
  - split; [reflexivity|]. right. exists o, c. split; reflexivity.
  - split; [reflexivity|left; reflexivity].
Qed.

Lemma silent_int_pair v m : int_pair py v = Some m -> silent m.
Proof.
  unfold int_pair. destruct v; try discriminate.
  destruct l as [|a [|b l]]; try discriminate.
  intros H; injection H as <-.
  apply silent_bind; [apply silent_lift|]. intros x.
  apply silent_bind; [apply silent_lift|]. intros y. apply silent_ret.
Qed.

Lemma silent_pair_result v :
  silent (match int_pair py v with
          | Some m => bind m (fun p => ret (Some p))
          | None => ret None
          end).
Proof.
  destruct (int_pair py v) as [m|] eqn:E; [|apply silent_ret].
  apply silent_bind; [exact (@silent_int_pair _ _ E)|].
  intros p; apply silent_ret.
Qed.

Lemma silent_resolve_coordinate coord coor_type w h :
  silent (resolve_coordinate py mode coord coor_type w h).
Proof.
  unfold resolve_coordinate.
  destruct coord as [| | | | |mark|l|]; try apply silent_ret.
  - intros st.
    destruct (String.eqb mode "som" && Dict.mem mark (som_mapping st));
      [|split; reflexivity].
    refine (@silent_bind _ _ _ _ (silent_set_mark _) _ st). intros _.
    destruct (Dict.get mark (som_mapping st)) as [value|];
      [|apply silent_ret].
    destruct value as [| | | | | | |value]; try apply silent_pair_result.
    destruct (Dict.get "center" value);
      [apply silent_pair_result|apply silent_ret].
  - destruct l as [|a [|b l]]; try apply silent_ret.
    destruct w as [w|]; [|apply silent_ret].
    destruct h as [h|]; [|apply silent_ret].
    destruct (negb (String.eqb coor_type "abs") && negb (Z.eqb w 0)
              && negb (Z.eqb h 0)); [|apply silent_ret].
    apply silent_bind; [apply silent_lift|]. intros x.
    apply silent_bind; [apply silent_lift|]. intros x'.
    apply silent_bind; [apply silent_lift|]. intros y.
    apply silent_bind; [apply silent_lift|]. intros y'. apply silent_ret.
Qed.

Lemma silent_resolve_som_bounds mark :
  silent (resolve_som_bounds py mode mark).
Proof.
  unfold resolve_som_bounds. intros st.
  repeat (match goal with
          | |- context [match ?x with _ => _ end] => destruct x
          end; try (split; reflexivity)).
  match goal with
  | |- device_log (snd (?m st)) = _ /\ _ =>
      cut (silent m); [intros H; exact (H st)|]
  end.
  apply silent_bind; [apply silent_lift|]. intros a.
  apply silent_bind; [apply silent_lift|]. intros b.
  apply silent_bind; [apply silent_lift|]. intros c.
  apply silent_bind; [apply silent_lift|]. intros e.
  destruct ((c <=? a)%Z || (e <=? b)%Z); apply silent_ret.
Qed.

Ltac silent_steps :=
  repeat first
    [ apply silent_ret
    | apply silent_lift
    | apply silent_bind; [|intros ?]
    | match goal with
      | |- silent (if ?b then _ else _) => destruct b
      | |- silent (match ?x with _ => _ end) => destruct x
      end ].

Lemma silent_compute_swipe_points target direction distance w h :
  silent (compute_swipe_points_from_target py mode target direction
            distance w h).
Proof.
  unfold compute_swipe_points_from_target.
  apply silent_bind; [apply silent_resolve_som_bounds|].
  intros [[[[x_left y_top] x_right] y_bottom]|]; silent_steps.
Qed.

Lemma single_swipe_or_drag x1 y1 x2 y2 duration :
  single (bind (swipe_or_drag dev x1 y1 x2 y2 duration)
               (fun c => ret (Some c))).
Proof.
  unfold swipe_or_drag. destruct (1000 <=? duration)%Z; apply single_send.
Qed.

Lemma single_execute_body action_object coor_type w h :
  single (execute_body py dev mode action_object coor_type w h).
Proof.
  unfold execute_body.
  destruct action_object as [| | | | | | |d];
    try (apply single_of_silent, silent_raise).
  destruct (Json.is_str Actions.ANSWER (Dict.get "action" d));
    [apply single_of_silent, silent_ret|].
  apply single_bind; [apply silent_set_mark|]. intros _.
  destruct (Json.is_str Actions.CLICK (Dict.get "action" d)).
  { destruct (Dict.get "coordinate" d) as [c|];
      [|apply single_of_silent, silent_ret].
    destruct (Json.truthy c); [|apply single_of_silent, silent_ret].
    apply single_bind; [apply silent_resolve_coordinate|].
    intros [[x y]|]; [apply single_send|apply single_of_silent, silent_ret]. }
  destruct (Json.is_str Actions.SWIPE (Dict.get "action" d)).
  { apply single_bind; [apply silent_lift|]. intros secs.
    apply single_bind; [apply silent_lift|]. intros duration.
    assert (Hby : single
      match Dict.get "coordinate" d, Dict.get "coordinate2" d with
      | Some c1, Some c2 =>
          if Json.truthy c1 && Json.truthy c2 then
            bind (resolve_coordinate py mode c1 coor_type w h) (fun p1 =>
            bind (resolve_coordinate py mode c2 coor_type w h) (fun p2 =>
              match p1, p2 with
              | Some (x1, y1), Some (x2, y2) =>
                  bind (swipe_or_drag dev x1 y1 x2 y2 duration)
                       (fun c => ret (Some c))
              | _, _ => ret None
              end))
          else ret None
      | _, _ => ret None
      end).
    { destruct (Dict.get "coordinate" d) as [c1|];
        [|apply single_of_silent, silent_ret].
      destruct (Dict.get "coordinate2" d) as [c2|];
        [|apply single_of_silent, silent_ret].
      destruct (Json.truthy c1 && Json.truthy c2);
        [|apply single_of_silent, silent_ret].
      apply single_bind; [apply silent_resolve_coordinate|]. intros p1.
      apply single_bind; [apply silent_resolve_coordinate|]. intros p2.
      destruct p1 as [[x1 y1]|]; [|apply single_of_silent, silent_ret].
      destruct p2 as [[x2 y2]|]; [|apply single_of_silent, silent_ret].
      apply single_swipe_or_drag. }
    destruct (Dict.get "target" d) as [t|]; [|exact Hby].
    destruct (Dict.get "direction" d) as [dir|]; [|exact Hby].
    destruct (Json.truthy t && Json.truthy dir); [|exact Hby].
    apply single_bind.
    { intros st. destruct t as [| | | | |m| |]; try (split; reflexivity).
      destruct (String.eqb mode "som" && Dict.mem m (som_mapping st));
        split; reflexivity. }
    intros _.
    apply single_bind; [apply silent_compute_swipe_points|].
    intros [[[x1 y1] [x2 y2]]|]; [apply single_swipe_or_drag|exact Hby]. }
  destruct (Json.is_str Actions.TYPE (Dict.get "action" d)).
  { destruct (Dict.get "text" d) as [t|];
      [|apply single_of_silent, silent_ret].
    destruct (Json.truthy t);
      [apply single_send|apply single_of_silent, silent_ret]. }
  destruct (Json.is_str Actions.DELETE (Dict.get "action" d));
    [apply single_send|].
  destruct (Json.is_str Actions.SYSTEM_BUTTON (Dict.get "action" d)).
  { destruct (Json.is_str "Back" (Dict.get "button" d)); [apply single_send|].
    destruct (Json.is_str "Home" (Dict.get "button" d)); [apply single_send|].
    apply single_of_silent, silent_ret. }
  destruct (Json.is_str Actions.WAIT (Dict.get "action" d));
    apply single_of_silent, silent_ret.
Qed.

End ActionFacts.

(** X4.  Whatever the action object, [execute_action] sends at most one
    operation to the device, sends one only when it returns a command
    string, and leaves the mark map as it was. *)
Theorem execute_action_sends_at_most_one
        py dev mode action_object coor_type w h s :
  let r := ActionService.execute_action py dev mode action_object
             coor_type w h s in
  ActionService.som_mapping (snd r) = ActionService.som_mapping s
  /\ (ActionService.device_log (snd r) = ActionService.device_log s
      \/ exists op c,
           ActionService.device_log (snd r)
           = (ActionService.device_log s ++ [op])%list
           /\ fst r = Some c).
Proof.
  cbv zeta. unfold ActionService.execute_action.
  destruct (single_execute_body py dev mode action_object coor_type w h s)
    as (Hmap & Hlog).
  destruct (ActionService.execute_body py dev mode action_object
              coor_type w h s)
    as [[r|] s']; cbn in *.
  - split; [exact Hmap|]. destruct Hlog as [H|(op & c & H1 & H2)].
    + left; exact H.
    + right. exists op, c. split; [exact H1|]. congruence.
  - split; [exact Hmap|]. destruct Hlog as [H|(op & c & H1 & H2)].
    + left; exact H.
    + discriminate.
Qed.

Definition click (target : json) : json :=
  JObj [("action", JStr "click"); ("coordinate", target)].

Lemma mem_of_get (V : Type) k (d : Dict.t V) v :
  Dict.get k d = Some v -> Dict.mem k d = true.
Proof. unfold Dict.mem. intros ->. reflexivity. Qed.

(** X5.  In [som] mode a click on a mark that the map gives a centre
    [x, y] taps that centre and remembers the mark as the last one used. *)
Theorem click_on_mark_taps_centre
        py dev coor_type w h s mark entry x y rest cmd :
  mark <> "" ->
  Dict.get mark (ActionService.som_mapping s) = Some (JObj entry) ->
  Dict.get "center" entry = Some (JArr (JInt x :: JInt y :: rest)) ->
  tap dev (JInt x) (JInt y) = Some cmd ->
  ActionService.execute_action py dev "som" (click (JStr mark))
    coor_type w h s
  = (Some cmd,
     {| ActionService.som_mapping := ActionService.som_mapping s;
        ActionService.last_used_mark := Some mark;
        ActionService.device_log :=
          ActionService.device_log s ++ [DTap (JInt x) (JInt y)] |}).
Proof.
  intros Hne Hget Hcentre Htap.
  unfold ActionService.execute_action, ActionService.execute_body, click.
  cbn [Dict.get String.eqb Ascii.eqb Bool.eqb Json.is_str Actions.ANSWER
       Actions.CLICK].
  assert (Ht : PyStr.truthy mark = true)
    by (destruct mark; [congruence|reflexivity]).
  cbn. rewrite Ht.
  unfold ActionService.bind at 1. cbn.
  rewrite (@mem_of_get _ _ _ _ Hget), Hget, Hcentre. cbn.
  rewrite Htap. reflexivity.
Qed.

Lemma click_on_mark_taps_centre_witness :
  ActionService.execute_action plain_python android_like "som"
    (click (JStr "3")) "abs"
    (Some 1080%Z) (Some 2400%Z)
    {| ActionService.som_mapping := stale_mapping;
       ActionService.last_used_mark := None;
       ActionService.device_log := [] |}
  = (Some "adb shell input tap",
     {| ActionService.som_mapping := stale_mapping;
        ActionService.last_used_mark := Some "3";
        ActionService.device_log := [DTap (JInt 120) (JInt 400)] |}).
Proof.
  apply (@click_on_mark_taps_centre plain_python android_like "abs"
           (Some 1080%Z)
           (Some 2400%Z)
           {| ActionService.som_mapping := stale_mapping;
              ActionService.last_used_mark := None;
              ActionService.device_log := [] |}
           "3"
           [("center", JArr [JInt 120; JInt 400]);
            ("bounds", JArr [JArr [JInt 100; JInt 380];
                             JArr [JInt 200; JInt 420]]);
            ("node_type", JStr "clickable")]
           120%Z 400%Z [] "adb shell input tap").
  - discriminate.
  - reflexivity.
  - reflexivity.
  - reflexivity.
Defined.

(** X6.  A click on a string that is no mark of the map, or in a mode
    other than [som], sends nothing, returns no command and leaves no last
    mark. *)
Theorem click_on_unknown_mark_does_nothing
        py dev mode coor_type w h s mark :
  String.eqb mode "som" && Dict.mem mark (ActionService.som_mapping s) = false ->
  ActionService.execute_action py dev mode (click (JStr mark))
    coor_type w h s
  = (None, mark_reset s).
Proof.
  intros H.
  unfold ActionService.execute_action, ActionService.execute_body, click.
  cbn [Dict.get String.eqb Ascii.eqb Bool.eqb Json.is_str Actions.ANSWER
       Actions.CLICK].
  cbn. destruct (PyStr.truthy mark); [|reflexivity].
  unfold ActionService.bind at 1. cbn.
  destruct (String.eqb mode "som"); cbn in H |- *;
    [rewrite H|]; reflexivity.
Qed.

Lemma click_on_unknown_mark_does_nothing_witness :
  ActionService.execute_action plain_python android_like "som"
    (click (JStr "7")) "abs"
    (Some 1080%Z) (Some 2400%Z)
    {| ActionService.som_mapping := stale_mapping;
       ActionService.last_used_mark := Some "3";
       ActionService.device_log := [] |}
  = (None,
     {| ActionService.som_mapping := stale_mapping;
        ActionService.last_used_mark := None;
        ActionService.device_log := [] |}).
Proof.
  apply (@click_on_unknown_mark_does_nothing plain_python android_like
           "som" "abs"
           (Some 1080%Z) (Some 2400%Z)
           {| ActionService.som_mapping := stale_mapping;
              ActionService.last_used_mark := Some "3";
              ActionService.device_log := [] |}
           "7").
  reflexivity.
Defined.

(* ----------------------------------------------------------------- *)
(** ** The screenshot service *)

Lemma attempts_from_result n : forall a c s,
  let r := ScreenshotService.attempts_from n a c s in
  (fst r = None <->
   forall i, i < n ->
     ScreenshotService.device_ok c (a + i)
     && ScreenshotService.file_exists c (a + i) = false)
  /\ match fst r with
     | None => snd r = s
     | Some p =>
         ScreenshotService.perception_mode (snd r)
         = ScreenshotService.perception_mode s
         /\ ScreenshotService.som_service (snd r)
            = ScreenshotService.som_service s
         /\ ((p = ScreenshotService.screenshot_path c /\ snd r = s)
             \/ exists mapping_path mapping,
                  ScreenshotService.process_screenshot c
                  = Some (p, mapping_path, mapping)
                  /\ ScreenshotService.current_som_mapping (snd r) = mapping)
     end.
Proof.
  induction n as [|n IH]; intros a c s; cbv zeta.
  - cbn. split; [|reflexivity]. split; [intros _ i Hi; lia|reflexivity].
  - cbn [ScreenshotService.attempts_from].
    destruct (ScreenshotService.device_ok c a
              && ScreenshotService.file_exists c a) eqn:Ea.
    + assert (Hsome :
        forall r : option string * ScreenshotService.Shot,
          (exists p, fst r = Some p) ->
          (fst r = None <->
           forall i, i < S n ->
             ScreenshotService.device_ok c (a + i)
             && ScreenshotService.file_exists c (a + i) = false)).
      { intros r (p & Hp). rewrite Hp. split; [discriminate|].
        intros H. specialize (H 0 (Nat.lt_0_succ n)).
        rewrite Nat.add_0_r, Ea in H. discriminate. }
      destruct (String.eqb (ScreenshotService.perception_mode s) "som"
                && ScreenshotService.som_service s).
      * unfold ScreenshotService.process_som.
        destruct (ScreenshotService.xml_exists c); cbn [negb].
        -- destruct (ScreenshotService.process_screenshot c)
             as [[[marked mp] mapping]|] eqn:Ep.
           ++ split; [apply Hsome; eexists; reflexivity|]. cbn.
              repeat split. right. exists mp, mapping. split; reflexivity.
           ++ split; [apply Hsome; eexists; reflexivity|]. cbn.
              repeat split. left; split; reflexivity.
        -- split; [apply Hsome; eexists; reflexivity|]. cbn.
           repeat split. left; split; reflexivity.
      * split; [apply Hsome; eexists; reflexivity|]. cbn.
        repeat split. left; split; reflexivity.
    + destruct (IH (S a) c s) as (Hiff & Hrest). split; [|exact Hrest].
      rewrite Hiff. split.
      * intros H i Hi. destruct i as [|i].
        -- rewrite Nat.add_0_r. exact Ea.
        -- replace (a + S i) with (S a + i) by lia. apply H; lia.
      * intros H i Hi. replace (S a + i) with (a + S i) by lia.
        apply H; lia.
Qed.

(** X10.  [take_screenshot] returns no path exactly when every one of
    its [retry_count] attempts fails (the driver reports failure or the
    file is not there), and then the service is as it was.  A path it
    returns is the raw path, with the service unchanged, or the marked
    image of the mark engine, with the engine's mapping installed; the
    perception mode never changes. *)
Theorem take_screenshot_fails_iff_all_attempts_fail retry_count c s :
  (fst (ScreenshotService.take_screenshot retry_count c s) = None <->
   forall i, i < retry_count ->
     ScreenshotService.device_ok c i
     && ScreenshotService.file_exists c i = false)
  /\ match fst (ScreenshotService.take_screenshot retry_count c s) with
     | None => snd (ScreenshotService.take_screenshot retry_count c s) = s
     | Some p =>
         ScreenshotService.perception_mode
           (snd (ScreenshotService.take_screenshot retry_count c s))
         = ScreenshotService.perception_mode s
         /\ ScreenshotService.som_service
              (snd (ScreenshotService.take_screenshot retry_count c s))
            = ScreenshotService.som_service s
         /\ ((p = ScreenshotService.screenshot_path c
              /\ snd (ScreenshotService.take_screenshot retry_count c s) = s)
             \/ exists mapping_path mapping,
                  ScreenshotService.process_screenshot c
                  = Some (p, mapping_path, mapping)
                  /\ ScreenshotService.current_som_mapping
                       (snd (ScreenshotService.take_screenshot retry_count c s))
                     = mapping)
     end.
Proof.
  unfold ScreenshotService.take_screenshot.
  exact (attempts_from_result retry_count 0 c s).
Qed.

(** X11.  In [som] mode, when an attempt succeeds, the dump is there and
    the mark engine answers, the marked image is what the caller gets,
    and the engine's mapping replaces the one the service held. *)
Theorem marked_screenshot_replaces_mapping
        retry_count c s i marked mapping_path mapping :
  i < retry_count ->
  (forall j, j < i -> attempt_ok c j = false) ->
  attempt_ok c i = true ->
  ScreenshotService.perception_mode s = "som" ->
  ScreenshotService.som_service s = true ->
  ScreenshotService.xml_exists c = true ->
  ScreenshotService.process_screenshot c
  = Some (marked, mapping_path, mapping) ->
  fst (ScreenshotService.take_screenshot retry_count c s) = Some marked
  /\ ScreenshotService.get_som_mapping
       (snd (ScreenshotService.take_screenshot retry_count c s))
     = mapping.
Proof.
  intros Hi Hfail Hok Hmode Hsvc Hxml Hp.
  unfold ScreenshotService.take_screenshot.
  rewrite (@attempts_from_first_success c s i retry_count 0 Hi Hfail Hok).
  rewrite Hmode, Hsvc. cbn [String.eqb Ascii.eqb Bool.eqb andb].
  unfold ScreenshotService.process_som. rewrite Hxml, Hp. cbn.
  split; reflexivity.
Qed.

Definition call_with_marks : ScreenshotService.Call :=
  {| ScreenshotService.screenshot_path := "run/images/step_2.png";
     ScreenshotService.device_ok := fun i => Nat.leb 1 i;
     ScreenshotService.file_exists := fun _ => true;
     ScreenshotService.xml_exists := true;
     ScreenshotService.process_screenshot :=
       Some ("run/images/marked/step_2_marked.png",
             "run/images/marked/step_2_mapping.json",
             [("1", JArr [JArr [JInt 0; JInt 0]; JArr [JInt 10; JInt 10]])]) |}.

Lemma marked_screenshot_replaces_mapping_witness :
  fst (ScreenshotService.take_screenshot 3 call_with_marks shot_with_marks)
  = Some "run/images/marked/step_2_marked.png"
  /\ ScreenshotService.get_som_mapping
       (snd (ScreenshotService.take_screenshot 3 call_with_marks
               shot_with_marks))
     = [("1", JArr [JArr [JInt 0; JInt 0]; JArr [JInt 10; JInt 10]])].
Proof.
  apply (@marked_screenshot_replaces_mapping 3 call_with_marks
           shot_with_marks 1 "run/images/marked/step_2_marked.png"
           "run/images/marked/step_2_mapping.json").
  - lia.
  - intros j Hj. assert (j = 0) by lia. subst j. reflexivity.
  - reflexivity.
  - reflexivity.
  - reflexivity.
  - reflexivity.
  - reflexivity.
Defined.

(* ----------------------------------------------------------------- *)
(** ** The stagnation checker: the similarity of two token lists *)

Lemma member_In x l : Stagnation.member x l = true <-> In x l.
Proof.
  unfold Stagnation.member. rewrite existsb_exists. split.
  - intros (y & Hy & E). apply String.eqb_eq in E. subst y. exact Hy.
  - intros H. exists x. split; [exact H|apply String.eqb_refl].
Qed.

Lemma inter_In x a b :
  In x (Stagnation.inter a b) <-> In x a /\ In x b.
Proof.
  unfold Stagnation.inter, Stagnation.to_set.
  rewrite filter_In, nodup_In, member_In. reflexivity.
Qed.

Lemma union_In x a b :
  In x (Stagnation.union a b) <-> In x a \/ In x b.
Proof.
  unfold Stagnation.union, Stagnation.to_set.
  rewrite nodup_In, in_app_iff. reflexivity.
Qed.

Lemma inter_NoDup a b : NoDup (Stagnation.inter a b).
Proof.
  unfold Stagnation.inter, Stagnation.to_set.
  apply NoDup_filter, NoDup_nodup.
Qed.

Lemma union_NoDup a b : NoDup (Stagnation.union a b).
Proof. unfold Stagnation.union, Stagnation.to_set. apply NoDup_nodup. Qed.

Lemma inter_le_union a b :
  List.length (Stagnation.inter a b) <= List.length (Stagnation.union a b).
Proof.
  apply NoDup_incl_length; [apply inter_NoDup|].
  intros x Hx. apply inter_In in Hx. apply union_In. left; tauto.
Qed.

Lemma jaccard_similarity_value a b :
  match Stagnation.jaccard_similarity a b with
  | Some q =>
      Stagnation.union a b <> []
      /\ q = (Z.of_nat (List.length (Stagnation.inter a b))
              # Pos.of_nat (List.length (Stagnation.union a b)))%Q
  | None => Stagnation.union a b = []
  end.
Proof.
  unfold Stagnation.jaccard_similarity.
  destruct (Stagnation.union a b) as [|x u]; [reflexivity|].
  split; [discriminate|reflexivity].
Qed.

Lemma Zpos_of_nat n : n <> 0 -> Zpos (Pos.of_nat n) = Z.of_nat n.
Proof.
  intros Hn. rewrite <- positive_nat_Z, Nat2Pos.id by exact Hn. reflexivity.
Qed.

(** X12.  The similarity of two token lists is a number between 0 and 1,
    and there is none only when both lists are empty. *)
Theorem jaccard_similarity_range a b :
  match Stagnation.jaccard_similarity a b with
  | Some q => Qle 0 q /\ Qle q 1
  | None => a = [] /\ b = []
  end.
Proof.
  pose proof (jaccard_similarity_value a b) as H.
  destruct (Stagnation.jaccard_similarity a b) as [q|].
  - destruct H as (Hne & ->).
    assert (Hlen : List.length (Stagnation.union a b) <> 0).
    { destruct (Stagnation.union a b); [congruence|discriminate]. }
    pose proof (inter_le_union a b) as Hle.
    unfold Qle; cbn. rewrite Zpos_of_nat by exact Hlen. lia.
  - assert (Hnone : forall x, ~ (In x a \/ In x b)).
    { intros x Hx. apply union_In in Hx. rewrite H in Hx. exact Hx. }
    split.
    + destruct a as [|x a]; [reflexivity|].
      exfalso. apply (Hnone x). left; left; reflexivity.
    + destruct b as [|x b]; [reflexivity|].
      exfalso. apply (Hnone x). right; left; reflexivity.
Qed.

(** X13.  The similarity is 1 exactly when the two lists hold the same
    tokens, whatever their order and repetitions. *)
Theorem jaccard_similarity_one_iff_same_tokens a b q :
  Stagnation.jaccard_similarity a b = Some q ->
  (Qeq q 1 <-> forall x, In x a <-> In x b).
Proof.
  intros Hq. pose proof (jaccard_similarity_value a b) as H.
  rewrite Hq in H. destruct H as (Hne & ->).
  assert (Hlen : List.length (Stagnation.union a b) <> 0).
  { destruct (Stagnation.union a b); [congruence|discriminate]. }
  pose proof (inter_le_union a b) as Hle.
  unfold Qeq; cbn. rewrite Zpos_of_nat by exact Hlen.
  split.
  - intros E.
    assert (Hincl : incl (Stagnation.union a b) (Stagnation.inter a b)).
    { apply NoDup_length_incl.
      - apply inter_NoDup.
      - lia.
      - intros x Hx. apply inter_In in Hx. apply union_In. left; tauto. }
    intros x. split; intros Hx.
    + assert (Hu : In x (Stagnation.union a b)) by (apply union_In; tauto).
      apply Hincl, inter_In in Hu. tauto.
    + assert (Hu : In x (Stagnation.union a b)) by (apply union_In; tauto).
      apply Hincl, inter_In in Hu. tauto.
  - intros Hsame.
    assert (Hge : List.length (Stagnation.union a b)
                  <= List.length (Stagnation.inter a b)).
    { apply NoDup_incl_length; [apply union_NoDup|].
      intros x Hx. apply union_In in Hx. apply inter_In.
      destruct Hx as [Hx|Hx]; split; try assumption; apply Hsame; assumption. }
    lia.
Qed.

Lemma jaccard_similarity_one_iff_same_tokens_witness :
  Qeq (2 # 2) 1 <-> forall x, In x ["Button"; "Label"] <-> In x ["Label"; "Button"; "Label"].
Proof.
  apply (@jaccard_similarity_one_iff_same_tokens
           ["Button"; "Label"] ["Label"; "Button"; "Label"] (2 # 2)).
  reflexivity.
Defined.
